(** * FinTrack: the dashboard and report aggregations

    A shallow embedding of the two data-loading routines of the client,
    [fetchSummaryData] (page Dashboard, in src/pages/BankAccounts.tsx) and
    [fetchReportData] (page Reports, in src/pages/Profile.tsx), together with
    the parts of the JavaScript runtime, of date-fns and of the hosted store
    they lean on.

    Conventions of the model.
    - Amounts, balances and asset values are JavaScript numbers: IEEE 754
      binary64 values, in the Standard Library's [spec_float] with precision
      53 and maximal exponent 1024; [+] and [-] round to nearest, ties to
      even ([SFadd], [SFsub]).
    - A [Date] is kept as its local wall-clock fields; the zone of the runtime
      gives the offset from UTC in force at a local time (minutes east of
      UTC: always 420 for Asia/Jakarta, 0 or 60 by the season for
      Europe/London) and only [toISOString] depends on it.
    - [new Date()] reads a clock; the k-th reading of a run is [clock k].
    - The store is an interface ([Backend]); [tableBackend] is the store that
      answers every query from one snapshot of its tables. The type of the
      [transaction_date] column is a parameter of that store. *)

From Stdlib Require Import ZArith List String Ascii Bool Lia Permutation.
From Stdlib Require Import Sorted SpecFloat.
Import ListNotations.

Local Open Scope string_scope.
Local Open Scope list_scope.
Local Open Scope Z_scope.

(* ------------------------------------------------------------------ *)
(** ** JavaScript numbers *)

Module JsNum.

(** A number is a binary64 value: a signed zero, an infinity, NaN, or
    [(-1)^s * m * 2^e]. *)
Definition number : Type := spec_float.

Definition prec : Z := 53.
Definition emax : Z := 1024.

(** The literal [0]. *)
Definition zero : number := S754_zero false.

(** [x + y], [x - y] and [x / y]. *)
Definition add (x y : number) : number := SFadd prec emax x y.
Definition sub (x y : number) : number := SFsub prec emax x y.
Definition div (x y : number) : number := SFdiv prec emax x y.

(** Truthiness of a number: every number but [0], [-0] and [NaN]. *)
Definition truthy (x : number) : bool :=
  match x with
  | S754_zero _ | S754_nan => false
  | _ => true
  end.

(** The number nearest to the integer [z] (the integer itself up to 2^53
    in magnitude). *)
Definition of_Z (z : Z) : number := binary_normalize prec emax z 0 false.

(** The integer part of a finite number, towards zero; 0 for the others. *)
Definition toZ (x : number) : Z :=
  match x with
  | S754_finite s m e => cond_Zopp s (Z.shiftl (Zpos m) e)
  | _ => 0
  end.

(** The number whose value is the integer [z], for [z] below 2^53 in
    magnitude: the mantissa is [|z|] moved up to 53 binary digits. *)
Definition canonical (s : bool) (p : positive) : number :=
  S754_finite s (Z.to_pos (Zpos p * 2 ^ (53 - Zpos (digits2_pos p))))
              (Zpos (digits2_pos p) - 53).

Definition repr (z : Z) : number :=
  match z with
  | 0 => zero
  | Zpos p => canonical false p
  | Zneg p => canonical true p
  end.

(** Identity of two numbers as values of the model ([Object.is]). *)
Definition same (x y : number) : bool :=
  match x, y with
  | S754_zero a, S754_zero b => Bool.eqb a b
  | S754_infinity a, S754_infinity b => Bool.eqb a b
  | S754_nan, S754_nan => true
  | S754_finite a m e, S754_finite b m' e' =>
      Bool.eqb a b && Pos.eqb m m' && Z.eqb e e'
  | _, _ => false
  end.

(** [Number.isSafeInteger(x)], [-0] apart: an integer below 2^53 in
    magnitude. *)
Definition isSafeInteger (x : number) : bool :=
  same x (of_Z (toZ x)) && (Z.abs (toZ x) <? 2 ^ 53).

End JsNum.

(* ------------------------------------------------------------------ *)
(** ** JavaScript values used by the pages *)

Module Js.

(** [x || 0] on a number that may be [undefined] (an optional chain over a
    null [data]): [undefined], [0], [-0] and [NaN] are falsy. *)
Definition or_zero (v : option JsNum.number) : JsNum.number :=
  match v with
  | Some x => if JsNum.truthy x then x else JsNum.zero
  | None => JsNum.zero
  end.

(** Truthiness of a string: every string but the empty one. *)
Definition truthy (s : string) : bool :=
  match s with
  | EmptyString => false
  | String _ _ => true
  end.

(** [s || d] where [s] is a string that may be null or undefined. *)
Definition or_string (s : option string) (d : string) : string :=
  match s with
  | Some x => if truthy x then x else d
  | None => d
  end.

(** [xs.reduce((sum, x) => sum + f(x), 0)]: the additions are made from
    left to right, each one rounded. *)
Definition reduce_sum {A : Type} (f : A -> JsNum.number) (xs : list A)
  : JsNum.number :=
  fold_left (fun sum x => JsNum.add sum (f x)) xs JsNum.zero.

(** [Number(x)] on a value that already is a number. *)
Definition Number (x : JsNum.number) : JsNum.number := x.

(** *** Plain objects used as dictionaries

    An object literal [{}] has its own properties, kept in creation order,
    and inherits the members of [Object.prototype]. Reading [o[k]] finds an
    own property first and an inherited member otherwise. *)

Definition object_prototype_keys : list string :=
  [ "constructor"; "hasOwnProperty"; "isPrototypeOf";
    "propertyIsEnumerable"; "toLocaleString"; "toString"; "valueOf";
    "__defineGetter__"; "__defineSetter__"; "__lookupGetter__";
    "__lookupSetter__"; "__proto__" ].

Definition inherited (k : string) : bool :=
  existsb (String.eqb k) object_prototype_keys.

Section Object.
Variable V : Type.

Definition object := list (string * V).

Fixpoint own (o : object) (k : string) : option V :=
  match o with
  | [] => None
  | (k', v) :: o' => if String.eqb k k' then Some v else own o' k
  end.

(** What [o[k]] evaluates to. The inherited members are functions or
    objects: truthy, and not a [V]. *)
Inductive lookup_result :=
| Own (v : V)
| Inherited
| Undefined.

Definition get (o : object) (k : string) : lookup_result :=
  match own o k with
  | Some v => Own v
  | None => if inherited k then Inherited else Undefined
  end.

(** [!o[k]] where own values are objects, hence truthy. *)
Definition absent (o : object) (k : string) : bool :=
  match get o k with
  | Undefined => true
  | _ => false
  end.

(** [o[k] = v]: overwrite an own property in place, or create it last. *)
Fixpoint set (o : object) (k : string) (v : V) : object :=
  match o with
  | [] => [(k, v)]
  | (k', v') :: o' =>
      if String.eqb k k' then (k', v) :: o' else (k', v') :: set o' k v
  end.

(** [o[k].field op= ...] through [f]: the write lands on the object that
    [o[k]] evaluates to. For an inherited member that is the member itself
    (a function of [Object.prototype], or the prototype), so no own
    property of [o] changes. *)
Fixpoint update_own (o : object) (k : string) (f : V -> V) : object :=
  match o with
  | [] => []
  | (k', v') :: o' =>
      if String.eqb k k' then (k', f v') :: o'
      else (k', v') :: update_own o' k f
  end.

End Object.

Arguments own {V} o k.
Arguments get {V} o k.
Arguments absent {V} o k.
Arguments set {V} o k v.
Arguments update_own {V} o k f.
Arguments Own {V} v.
Arguments Inherited {V}.
Arguments Undefined {V}.

(** *** [Object.keys]

    Own keys that are array indices (canonical decimal numerals below
    2^32 - 1) come first, in ascending numeric order; the other keys follow
    in creation order. *)

Definition digit_of (c : ascii) : option Z :=
  let n := Z.of_nat (nat_of_ascii c) in
  if (48 <=? n) && (n <=? 57) then Some (n - 48) else None.

Fixpoint parse_digits (acc : Z) (s : string) : option Z :=
  match s with
  | EmptyString => Some acc
  | String c s' =>
      match digit_of c with
      | Some d => parse_digits (10 * acc + d) s'
      | None => None
      end
  end.

Definition array_index (s : string) : option Z :=
  match s with
  | EmptyString => None
  | String c s' =>
      match parse_digits 0 s with
      | Some n =>
          if (n <=? 4294967294)
             && (negb (Ascii.eqb c "0"%char) || String.eqb s' EmptyString)
          then Some n else None
      | None => None
      end
  end.

Definition is_array_index (s : string) : bool :=
  match array_index s with Some _ => true | None => false end.

Definition index_value (s : string) : Z :=
  match array_index s with Some n => n | None => 0 end.

Fixpoint insert_index (k : string) (ks : list string) : list string :=
  match ks with
  | [] => [k]
  | k' :: ks' =>
      if index_value k <=? index_value k' then k :: ks
      else k' :: insert_index k ks'
  end.

Definition sort_indices (ks : list string) : list string :=
  fold_right insert_index [] ks.

Definition keys {V : Type} (o : object V) : list string :=
  let ks := map fst o in
  sort_indices (filter is_array_index ks)
    ++ filter (fun k => negb (is_array_index k)) ks.

End Js.

(* ------------------------------------------------------------------ *)
(** ** Calendar dates: the [transaction_date] column and the date part of an
       ISO string ('YYYY-MM-DD') *)

Module Calendar.

Record date := mkDate { year : Z; month : Z; day : Z }.   (* month 1..12 *)

Definition leap (y : Z) : bool :=
  ((y mod 4 =? 0) && negb (y mod 100 =? 0)) || (y mod 400 =? 0).

Definition days_in_month (y m : Z) : Z :=
  if m =? 2 then (if leap y then 29 else 28)
  else if (m =? 4) || (m =? 6) || (m =? 9) || (m =? 11) then 30
  else 31.

Definition valid (d : date) : Prop :=
  1 <= month d <= 12 /\ 1 <= day d <= days_in_month (year d) (month d).

(** Chronological order. *)
Definition leb (a b : date) : bool :=
  (year a <? year b)
  || ((year a =? year b)
      && ((month a <? month b)
          || ((month a =? month b) && (day a <=? day b)))).

Definition eqb (a b : date) : bool :=
  (year a =? year b) && (month a =? month b) && (day a =? day b).

Definition ltb (a b : date) : bool := leb a b && negb (eqb a b).

Definition prev_day (d : date) : date :=
  if 1 <? day d then mkDate (year d) (month d) (day d - 1)
  else if 1 <? month d
       then mkDate (year d) (month d - 1) (days_in_month (year d) (month d - 1))
       else mkDate (year d - 1) 12 31.

Definition next_day (d : date) : date :=
  if day d <? days_in_month (year d) (month d)
  then mkDate (year d) (month d) (day d + 1)
  else if month d <? 12 then mkDate (year d) (month d + 1) 1
       else mkDate (year d + 1) 1 1.

(** Months counted from year 0: the calendar month of a date. *)
Definition month_index (d : date) : Z := year d * 12 + (month d - 1).

End Calendar.

(* ------------------------------------------------------------------ *)
(** ** The JavaScript [Date] *)

Module JsDate.

(** The local wall-clock fields of an instant, named after their getters;
    [getMonth] is 0..11, [msOfDay] is the time since local midnight. *)
Record Date := mkDate
  { getFullYear : Z; getMonth : Z; getDate : Z; msOfDay : Z }.

Definition end_of_day_ms : Z := 86399999.     (* 23:59:59.999 *)
Definition day_ms : Z := 86400000.

(** [d.setDate(1)] *)
Definition setDate_1 (d : Date) : Date :=
  mkDate (getFullYear d) (getMonth d) 1 (msOfDay d).

(** [d.setHours(0, 0, 0, 0)] *)
Definition setHours_0 (d : Date) : Date :=
  mkDate (getFullYear d) (getMonth d) (getDate d) 0.

Definition local_date (d : Date) : Calendar.date :=
  Calendar.mkDate (getFullYear d) (getMonth d + 1) (getDate d).

Definition month_index (d : Date) : Z := getFullYear d * 12 + getMonth d.

(** An ISO 8601 string: the text before the 'T' (a calendar date) and,
    when there is one, the time of day in UTC after it. *)
Record IsoString := mkIso { isoDate : Calendar.date; isoTime : option Z }.

(** The zone of the runtime: the offset from UTC, in minutes east of UTC,
    in force at a local wall-clock time (the opposite of
    [getTimezoneOffset()]). A zone without daylight saving is constant; the
    local times that a change of offset skips are not values of [Date]. *)
Definition Zone : Type := Date -> Z.

Definition fixed (tz : Z) : Zone := fun _ => tz.

(** [d.toISOString()]: the instant in UTC. The offset in force at [d] is
    [zone d] minutes (less than a day either way), so the UTC wall clock is
    the local one moved back by that much. *)
Definition toISOString (zone : Zone) (d : Date) : IsoString :=
  let ms := msOfDay d - zone d * 60000 in
  if ms <? 0
  then mkIso (Calendar.prev_day (local_date d)) (Some (ms + day_ms))
  else if day_ms <=? ms
       then mkIso (Calendar.next_day (local_date d)) (Some (ms - day_ms))
       else mkIso (local_date d) (Some ms).

(** [s.split('T')[0]] *)
Definition split_T_0 (s : IsoString) : IsoString :=
  mkIso (isoDate s) None.

End JsDate.

(** ** date-fns, as far as the report uses it *)

Module DateFns.
Import JsDate.

Definition startOfMonth (d : Date) : Date :=
  mkDate (getFullYear d) (getMonth d) 1 0.

Definition endOfMonth (d : Date) : Date :=
  mkDate (getFullYear d) (getMonth d)
         (Calendar.days_in_month (getFullYear d) (getMonth d + 1))
         end_of_day_ms.

(** [addMonths]: move to the desired month, keeping the day of the month
    unless that month is shorter, in which case its last day is taken. *)
Definition addMonths (d : Date) (amount : Z) : Date :=
  if amount =? 0 then d
  else
    let k := month_index d + amount in
    let y := k / 12 in
    let m := k mod 12 in
    let daysInMonth := Calendar.days_in_month y (m + 1) in
    if daysInMonth <=? getDate d
    then mkDate y m daysInMonth (msOfDay d)
    else mkDate y m (getDate d) (msOfDay d).

Definition subMonths (d : Date) (amount : Z) : Date :=
  addMonths d (- amount).

(** Abbreviated month names of the library's Indonesian locale ([id]). *)
Definition id_months_abbreviated : list string :=
  [ "Jan"; "Feb"; "Mar"; "Apr"; "Mei"; "Jun";
    "Jul"; "Agt"; "Sep"; "Okt"; "Nov"; "Des" ].

(** [format(d, 'MMM', { locale: id })] *)
Definition format_MMM_id (d : Date) : string :=
  nth (Z.to_nat (getMonth d)) id_months_abbreviated EmptyString.

End DateFns.

(* ------------------------------------------------------------------ *)
(** ** The hosted store *)

Module Supabase.

Record Category := mkCategory { name : string; color : option string }.

(** A row of [transactions], with the category joined by
    [categories(name, color)] ([None]: no linked category). A missing
    [type] is [None]. *)
Record Transaction := mkTransaction
  { user_id : string;
    type : option string;
    amount : JsNum.number;
    transaction_date : Calendar.date;
    categories : option Category }.

Record BankAccount := mkBankAccount
  { account_user_id : string; balance : JsNum.number }.

Record Asset := mkAsset
  { asset_user_id : string; current_value : JsNum.number }.

(** The filters the pages chain on a [select]. *)
Inductive Filter :=
| eq_user_id (v : string)
| eq_type (v : string)
| gte_transaction_date (v : JsDate.IsoString)
| lte_transaction_date (v : JsDate.IsoString).

(** What an awaited query resolves to: [{ data, error }]. *)
Record Response (A : Type) := mkResponse
  { data : option (list A); error : option string }.
Arguments mkResponse {A} data error.
Arguments data {A} r.
Arguments error {A} r.

Class Backend := mkBackend
  { from_transactions : list Filter -> Response Transaction;
    from_bank_accounts : list Filter -> Response BankAccount;
    from_assets : list Filter -> Response Asset }.

(** The type of the [transaction_date] column. Its declaration is not in
    the sources, so it is a parameter of the store: a calendar date, or a
    timestamp, in which a date written by the form is midnight UTC. *)
Inductive ColumnType := DateColumn | TimestampColumn.

(** The time of day of a bound; a bound without one is midnight. *)
Definition time_of (v : JsDate.IsoString) : Z :=
  match JsDate.isoTime v with Some ms => ms | None => 0 end.

(** Modelled from the spec: the store's comparison of the column with a
    bound, which is not part of the repository. The occurrence date is a
    calendar date with no time of day (the form writes 'YYYY-MM-DD'): a date
    column is compared with the date part of the bound, a timestamp column
    holds midnight of that date and is compared as an instant. *)
Definition bound_leb (col : ColumnType) (v : JsDate.IsoString)
           (d : Calendar.date) : bool :=
  match col with
  | DateColumn => Calendar.leb (JsDate.isoDate v) d
  | TimestampColumn =>
      Calendar.ltb (JsDate.isoDate v) d
      || (Calendar.eqb (JsDate.isoDate v) d && (time_of v <=? 0))
  end.

(** Modelled from the spec: likewise, the column against a bound from
    above. *)
Definition leb_bound (col : ColumnType) (d : Calendar.date)
           (v : JsDate.IsoString) : bool :=
  match col with
  | DateColumn => Calendar.leb d (JsDate.isoDate v)
  | TimestampColumn =>
      Calendar.ltb d (JsDate.isoDate v)
      || (Calendar.eqb d (JsDate.isoDate v) && (0 <=? time_of v))
  end.

Definition matches (col : ColumnType) (f : Filter) (t : Transaction) : bool :=
  match f with
  | eq_user_id v => String.eqb (user_id t) v
  | eq_type v =>
      match type t with Some k => String.eqb k v | None => false end
  | gte_transaction_date v => bound_leb col v (transaction_date t)
  | lte_transaction_date v => leb_bound col (transaction_date t) v
  end.

Definition select (col : ColumnType) (fs : list Filter)
           (rows : list Transaction) : list Transaction :=
  filter (fun t => forallb (fun f => matches col f t) fs) rows.

Definition owner_filter (fs : list Filter) : string -> bool :=
  fun u =>
    forallb (fun f => match f with
                      | eq_user_id v => String.eqb u v
                      | _ => true
                      end) fs.

(** The store answering from one snapshot, without errors. The list of a
    table is the order in which the store returns its rows: no query of
    the two routines asks for an order, and a sum depends on it when an
    addition rounds. *)
Definition tableBackend (col : ColumnType) (txs : list Transaction)
           (accounts : list BankAccount) (assets : list Asset) : Backend :=
  {| from_transactions fs := mkResponse (Some (select col fs txs)) None;
     from_bank_accounts fs :=
       mkResponse
         (Some (filter (fun a => owner_filter fs (account_user_id a)) accounts))
         None;
     from_assets fs :=
       mkResponse
         (Some (filter (fun a => owner_filter fs (asset_user_id a)) assets))
         None |}.

End Supabase.

(* ------------------------------------------------------------------ *)
(** ** Effects of a data-loading routine

    A routine reads the clock ([new Date()]), updates the component's state
    through its setters, may throw, and logs to the console. *)

Module Eff.

Inductive exn :=
| PostgrestError (message : string)
| TypeError (message : string).

(** The wall clock: [clock k] is what the k-th [new Date()] of a run sees. *)
Definition Clock := nat -> JsDate.Date.

Inductive outcome (A : Type) :=
| Return (a : A)
| Throw (e : exn).
Arguments Return {A} a.
Arguments Throw {A} e.

Section Component.
Variable C : Type.

Record World := mkWorld { reads : nat; console : list exn; state : C }.

Definition M (A : Type) := Clock -> World -> outcome A * World.

Definition ret {A} (a : A) : M A := fun _ w => (Return a, w).

Definition bind {A B} (m : M A) (k : A -> M B) : M B :=
  fun clk w =>
    match m clk w with
    | (Return a, w') => k a clk w'
    | (Throw e, w') => (Throw e, w')
    end.

Definition throw {A} (e : exn) : M A := fun _ w => (Throw e, w).

Definition new_Date : M JsDate.Date :=
  fun clk w =>
    (Return (clk (reads w)), mkWorld (S (reads w)) (console w) (state w)).

Definition console_error (e : exn) : M unit :=
  fun _ w => (Return tt, mkWorld (reads w) (console w ++ [e]) (state w)).

Definition setState (f : C -> C) : M unit :=
  fun _ w => (Return tt, mkWorld (reads w) (console w) (f (state w))).

(** [try { body } catch (e) { handler(e) } finally { fin }] *)
Definition try_catch_finally (body : M unit) (handler : exn -> M unit)
           (fin : M unit) : M unit :=
  fun clk w =>
    match body clk w with
    | (Return _, w1) => fin clk w1
    | (Throw e, w1) =>
        match handler e clk w1 with
        | (Return _, w2) => fin clk w2
        | (Throw e', w2) =>
            match fin clk w2 with
            | (Return _, w3) => (Throw e', w3)
            | r => r
            end
        end
    end.

Fixpoint mapM {A B} (f : A -> M B) (xs : list A) : M (list B) :=
  match xs with
  | [] => ret []
  | x :: xs' =>
      bind (f x) (fun y => bind (mapM f xs') (fun ys => ret (y :: ys)))
  end.

(** [xs.map((x, i) => ...)], the callback reading the clock. *)
Fixpoint mapiM {A B} (f : A -> Z -> M B) (i : Z) (xs : list A) : M (list B) :=
  match xs with
  | [] => ret []
  | x :: xs' =>
      bind (f x i) (fun y => bind (mapiM f (i + 1) xs') (fun ys => ret (y :: ys)))
  end.

(** A run from a fresh world around the component's state [c]. *)
Definition run {A} (m : M A) (clk : Clock) (c : C) : outcome A * World :=
  m clk (mkWorld 0 [] c).

End Component.

Arguments reads {C} w.
Arguments console {C} w.
Arguments state {C} w.
Arguments ret {C A} a.
Arguments bind {C A B} m k.
Arguments throw {C A} e.
Arguments new_Date {C}.
Arguments console_error {C} e.
Arguments setState {C} f.
Arguments try_catch_finally {C} body handler fin.
Arguments mapM {C A B} f xs.
Arguments mapiM {C A B} f i xs.
Arguments run {C A} m clk c.

(** The clock that stands still at [now]. *)
Definition at_ (now : JsDate.Date) : Clock := fun _ => now.

End Eff.

Declare Scope eff_scope.
Delimit Scope eff_scope with eff.
Notation "x <- m ;; k" := (Eff.bind m (fun x => k))
  (at level 61, m at next level, right associativity) : eff_scope.
Notation "m ;; k" := (Eff.bind m (fun _ => k))
  (at level 61, right associativity) : eff_scope.

(** [t.type === k] *)
Definition type_is (k : string) (t : Supabase.Transaction) : bool :=
  match Supabase.type t with
  | Some s => String.eqb s k
  | None => false
  end.

(* ------------------------------------------------------------------ *)
(** ** Page Dashboard: [fetchSummaryData] *)

Module Dashboard.
Import Supabase JsDate Eff.

Record SummaryData := mkSummary
  { totalIncome : JsNum.number; totalExpense : JsNum.number;
    totalBankBalance : JsNum.number; totalAssets : JsNum.number }.

Record State := mkState { summary : SummaryData; loading : bool }.

Definition initial : State :=
  mkState (mkSummary JsNum.zero JsNum.zero JsNum.zero JsNum.zero) true.

Definition setSummary (s : SummaryData) : M State unit :=
  setState (fun st => mkState s (loading st)).

Definition setLoading (b : bool) : M State unit :=
  setState (fun st => mkState (summary st) b).

Section Fetch.
Context {store : Backend}.
Variable zone : Zone.
Variable uid : string.

Definition fetchSummaryData : M State unit :=
  try_catch_finally
    (d <- new_Date ;;
     let startOfMonth := setHours_0 (setDate_1 d) in
     let transactions :=
       data (from_transactions
               [ eq_user_id uid;
                 gte_transaction_date (split_T_0 (toISOString zone startOfMonth)) ]) in
     let income :=
       Js.or_zero
         (option_map
            (fun ts => Js.reduce_sum (fun t => Js.Number (amount t))
                         (filter (type_is "income") ts))
            transactions) in
     let expense :=
       Js.or_zero
         (option_map
            (fun ts => Js.reduce_sum (fun t => Js.Number (amount t))
                         (filter (type_is "expense") ts))
            transactions) in
     let accounts := data (from_bank_accounts [ eq_user_id uid ]) in
     let bankBalance :=
       Js.or_zero
         (option_map (Js.reduce_sum (fun a => Js.Number (balance a))) accounts) in
     let assets := data (from_assets [ eq_user_id uid ]) in
     let assetsTotal :=
       Js.or_zero
         (option_map (Js.reduce_sum (fun a => Js.Number (current_value a))) assets) in
     setSummary (mkSummary income expense bankBalance assetsTotal))%eff
    (fun e => console_error e)
    (setLoading false).

End Fetch.

End Dashboard.

(* ------------------------------------------------------------------ *)
(** ** Page Reports: [fetchReportData] and the pie cells *)

(** The accumulator entries of [expenseByCategory]. *)
Module Slot.
Record t := mk { value : JsNum.number; color : string }.
End Slot.

Module Reports.
Import Supabase JsDate DateFns Eff.

Record MonthlySummary := mkMonthly
  { month : string; income : JsNum.number; expense : JsNum.number }.

Record CategoryExpense := mkExpense
  { name : string; value : JsNum.number; color : string }.

Definition COLORS : list string :=
  [ "#6366F1"; "#8B5CF6"; "#EC4899"; "#F59E0B"; "#10B981"; "#3B82F6" ].

Record State := mkState
  { monthlyData : list MonthlySummary;
    categoryData : list CategoryExpense;
    loading : bool }.

Definition initial : State := mkState [] [] true.

Definition setMonthlyData (d : list MonthlySummary) : M State unit :=
  setState (fun st => mkState d (categoryData st) (loading st)).

Definition setCategoryData (d : list CategoryExpense) : M State unit :=
  setState (fun st => mkState (monthlyData st) d (loading st)).

Definition setLoading (b : bool) : M State unit :=
  setState (fun st => mkState (monthlyData st) (categoryData st) b).

(** The loop counter's values: [i], [i - 1], ..., [0]. *)
Fixpoint countdown (i : nat) : list Z :=
  match i with
  | O => [0]
  | S j => Z.of_nat i :: countdown j
  end.

(** [t.categories?.name || 'Lain-lain'] *)
Definition categoryName (t : Transaction) : string :=
  Js.or_string (option_map Supabase.name (categories t)) "Lain-lain".

(** [t.categories?.color || '#8884d8'] *)
Definition categoryColor (t : Transaction) : string :=
  Js.or_string
    (match categories t with Some c => Supabase.color c | None => None end)
    "#8884d8".

(** One turn of the [forEach] over the month's expenses. *)
Definition accumulate (expenseByCategory : Js.object Slot.t) (t : Transaction)
  : Js.object Slot.t :=
  let o :=
    if Js.absent expenseByCategory (categoryName t)
    then Js.set expenseByCategory (categoryName t)
                (Slot.mk JsNum.zero (categoryColor t))
    else expenseByCategory in
  Js.update_own o (categoryName t)
    (fun s => Slot.mk (JsNum.add (Slot.value s) (amount t)) (Slot.color s)).

Definition expenseByCategory (ts : list Transaction) : Js.object Slot.t :=
  fold_left accumulate ts [].

(** [Object.keys(o).map(key => ({ name: key, value: o[key].value,
    color: o[key].color }))]; every key listed is an own property. *)
Definition pieData (o : Js.object Slot.t) : list CategoryExpense :=
  map (fun key =>
         match Js.own o key with
         | Some s => mkExpense key (Slot.value s) (Slot.color s)
         | None => mkExpense key JsNum.zero EmptyString
         end)
      (Js.keys o).

(** The breakdown of a list of expenses. *)
Definition categoryBreakdown (ts : list Transaction) : list CategoryExpense :=
  pieData (expenseByCategory ts).

(** The fill of the pie cell at [index]:
    [entry.color || COLORS[index % COLORS.length]]. *)
Definition cell_fill (index : nat) (entry : CategoryExpense) : string :=
  if Js.truthy (color entry) then color entry
  else nth (Nat.modulo index (List.length COLORS)) COLORS EmptyString.

Fixpoint cells_from (index : nat) (data : list CategoryExpense) : list string :=
  match data with
  | [] => []
  | entry :: rest => cell_fill index entry :: cells_from (S index) rest
  end.

(** [categoryData.map((entry, index) => <Cell fill=... />)] *)
Definition cells (data : list CategoryExpense) : list string :=
  cells_from 0 data.

Section Fetch.
Context {store : Backend}.
Variable zone : Zone.
Variable uid : string.

(** The query of one bar of the chart, for the month of [date]. *)
Definition monthQuery (date : Date) : Response Transaction :=
  let startDate := toISOString zone (startOfMonth date) in
  let endDate := toISOString zone (endOfMonth date) in
  from_transactions
    [ eq_user_id uid;
      gte_transaction_date startDate;
      lte_transaction_date endDate ].

Definition sumOf (kind : string) (result : Response Transaction)
  : JsNum.number :=
  Js.or_zero
    (option_map
       (fun ts => Js.reduce_sum amount (filter (type_is kind) ts))
       (data result)).

Definition summarize (result : Response Transaction) (i : Z)
  : M State MonthlySummary :=
  (d <- new_Date ;;
   let date := subMonths d (5 - i) in
   let monthName := format_MMM_id date in
   ret (mkMonthly monthName (sumOf "income" result) (sumOf "expense" result)))%eff.

Definition fetchReportData : M State unit :=
  (setLoading true ;;
   try_catch_finally
     (monthlyResults <-
        mapM (fun i => d <- new_Date ;; ret (monthQuery (subMonths d i)))
             (countdown 5) ;;
      summaryData <- mapiM summarize 0 monthlyResults ;;
      setMonthlyData summaryData ;;
      d <- new_Date ;;
      let currentMonthStart := toISOString zone (startOfMonth d) in
      let r :=
        from_transactions
          [ eq_user_id uid;
            eq_type "expense";
            gte_transaction_date currentMonthStart ] in
      match error r with
      | Some e => throw (PostgrestError e)
      | None =>
          match data r with
          | None => throw (TypeError "currentMonthTransactions is null")
          | Some currentMonthTransactions =>
              setCategoryData (categoryBreakdown currentMonthTransactions)
          end
      end)
     (fun e => console_error e)
     (setLoading false))%eff.

End Fetch.

End Reports.

(* ------------------------------------------------------------------ *)
(** ** Vocabulary of the statements *)

Module Spec.
Import Supabase JsDate DateFns Eff.

Definition sumZ (l : list Z) : Z := fold_right Z.add 0 l.

(** The sum of a list of numbers as JavaScript adds them up: from 0, from
    left to right, every addition rounded to the nearest number. *)
Definition jsSum (l : list JsNum.number) : JsNum.number :=
  fold_left JsNum.add l JsNum.zero.

(** [x || 0] on a number. *)
Definition orZero (x : JsNum.number) : JsNum.number := Js.or_zero (Some x).

(** A numeric field read as an integer (its integer part). *)
Definition asZ {A} (f : A -> JsNum.number) (x : A) : Z := JsNum.toZ (f x).

Definition amountZ : Transaction -> Z := asZ amount.

(** The values [f x] over [l] are safe integers whose magnitudes add up to
    less than 2^53: no sum of some of them needs rounding. *)
Definition exact {A} (f : A -> JsNum.number) (l : list A) : Prop :=
  Forall (fun x => JsNum.isSafeInteger (f x) = true) l
  /\ sumZ (map (fun x => Z.abs (asZ f x)) l) < 2 ^ 53.

(** The label a transaction is to be filed under: the name of its category,
    and 'Lain-lain' when it has no category, or one with an empty name. *)
Definition label (t : Transaction) : string :=
  match categories t with
  | Some c =>
      match Supabase.name c with
      | EmptyString => "Lain-lain"
      | n => n
      end
  | None => "Lain-lain"
  end.

Definition filed (k : string) (t : Transaction) : bool :=
  String.eqb (label t) k.

(** The colour of a transaction: the colour of its category, and '#8884d8'
    when it has no category, or one without a colour or with an empty
    one. *)
Definition colourOf (t : Transaction) : string :=
  match categories t with
  | Some c =>
      match Supabase.color c with
      | Some EmptyString | None => "#8884d8"
      | Some col => col
      end
  | None => "#8884d8"
  end.

(** The transactions filed under the label [k] by the breakdown. *)
Definition labelled (k : string) (t : Transaction) : bool :=
  String.eqb (Reports.categoryName t) k.

(** What the accumulation adds up under the label [k]. *)
Definition groupTotal (k : string) (ts : list Transaction) : JsNum.number :=
  Js.reduce_sum amount (filter (labelled k) ts).

Definition owned (uid : string) (t : Transaction) : bool :=
  String.eqb (user_id t) uid.

(** [t] occurred in the calendar month number [k] (months counted from
    year 0). *)
Definition in_month (k : Z) (t : Transaction) : bool :=
  Calendar.month_index (transaction_date t) =? k.

(** Total of the user's transactions of one kind within calendar month [k]. *)
Definition monthTotal (uid kind : string) (k : Z) (txs : list Transaction) : Z :=
  sumZ (map amountZ
          (filter (fun t => owned uid t && type_is kind t && in_month k t) txs)).

(** Total of the user's transactions of one kind within the calendar months
    [ks], each transaction counted once. *)
Definition coveredTotal (uid kind : string) (ks : list Z)
           (txs : list Transaction) : Z :=
  sumZ (map amountZ
          (filter (fun t => owned uid t && type_is kind t
                            && existsb (fun k => in_month k t) ks) txs)).

(** The calendar months of the six bars, oldest first. *)
Definition coveredMonths (now : Date) : list Z :=
  map (fun i => month_index now - i) (Reports.countdown 5).

Definition monthLabel (k : Z) : string :=
  nth (Z.to_nat (k mod 12)) id_months_abbreviated EmptyString.

Definition firstOfMonth (k : Z) : Date := mkDate (k / 12) (k mod 12) 1 0.

(** What the store answers to the query of calendar month [k]. *)
Definition monthBatch {store : Backend} (zone : Zone) (uid : string) (k : Z)
  : Response Transaction :=
  Reports.monthQuery zone uid (firstOfMonth k).

Definition rows {A} (r : Response A) : list A :=
  match data r with Some l => l | None => [] end.

(** The bar of calendar month [k]. *)
Definition barOf {store : Backend} (zone : Zone) (uid : string) (k : Z)
  : Reports.MonthlySummary :=
  Reports.mkMonthly (monthLabel k)
    (Reports.sumOf "income" (monthBatch zone uid k))
    (Reports.sumOf "expense" (monthBatch zone uid k)).

(** The kinds of the closed set. *)
Definition known_kind (t : Transaction) : bool :=
  type_is "income" t || type_is "expense" t.

(** A run signalled an error: it threw to its caller, or logged one. *)
Definition signalled {C} (r : outcome unit * World C) : Prop :=
  (exists e, fst r = Throw e) \/ console (snd r) <> [].

(** Two readings of the clock in the same local calendar month. *)
Definition same_month (a b : Date) : Prop :=
  getFullYear a = getFullYear b /\ getMonth a = getMonth b.

(** The lower bound [fetchSummaryData] sends to the store. *)
Definition summaryBound (zone : Zone) (now : Date) : IsoString :=
  split_T_0 (toISOString zone (setHours_0 (setDate_1 now))).

(** What the dashboard shows after a load at [now]. *)
Definition dashboardAt {store : Backend} (zone : Zone) (uid : string)
           (now : Date) : Dashboard.SummaryData :=
  Dashboard.summary
    (state (snd (run (Dashboard.fetchSummaryData zone uid) (at_ now)
                     Dashboard.initial))).

(** The report state after a load at [now]. *)
Definition reportAt {store : Backend} (zone : Zone) (uid : string) (now : Date)
  : Reports.State :=
  state (snd (run (Reports.fetchReportData zone uid) (at_ now) Reports.initial)).

(** The j-th bar of a run against the clock [clk]: its query is built at
    reading [j], its label at reading [6 + j]. *)
Definition barAt {store : Backend} (zone : Zone) (uid : string) (clk : Clock)
           (j : nat) : Reports.MonthlySummary :=
  let result :=
    Reports.monthQuery zone uid (subMonths (clk j) (5 - Z.of_nat j)) in
  Reports.mkMonthly
    (format_MMM_id (subMonths (clk (6 + j)%nat) (5 - Z.of_nat j)))
    (Reports.sumOf "income" result)
    (Reports.sumOf "expense" result).

(** The answer to the query of the pie chart, built at reading 12. *)
Definition pieResponse {store : Backend} (zone : Zone) (uid : string)
           (clk : Clock) : Response Transaction :=
  from_transactions
    [ eq_user_id uid;
      eq_type "expense";
      gte_transaction_date (toISOString zone (startOfMonth (clk 12%nat))) ].

(** The user's transactions of one kind dated on or after the day [lo]. *)
Definition since (uid kind : string) (lo : Calendar.date) (t : Transaction)
  : bool :=
  owned uid t && Calendar.leb lo (transaction_date t) && type_is kind t.

(** [s.value += a] on an accumulator entry. *)
Definition bump (a : JsNum.number) (s : Slot.t) : Slot.t :=
  Slot.mk (JsNum.add (Slot.value s) a) (Slot.color s).

(** The [value] fields held by an accumulator: their exact sum, and the
    sum of their magnitudes. *)
Definition slotZ (p : string * Slot.t) : Z := JsNum.toZ (Slot.value (snd p)).

Definition slotSum (o : Js.object Slot.t) : Z := sumZ (map slotZ o).

Definition slotMagnitude (o : Js.object Slot.t) : Z :=
  sumZ (map (fun p => Z.abs (slotZ p)) o).

Definition slotsSafe (o : Js.object Slot.t) : Prop :=
  Forall (fun p => JsNum.isSafeInteger (Slot.value (snd p)) = true) o.

(** Every reading of the clock falls in the calendar month of [now]. *)
Definition within_month (clk : Clock) (now : Date) : Prop :=
  forall n, same_month (clk n) now.

End Spec.

(* ------------------------------------------------------------------ *)
(** ** Sample data of the scenarios *)

Module Sample.
Import Supabase.

(** An expense of the current month, of user "u1". *)
Definition spend (a : JsNum.number) (c : option Category) : Transaction :=
  mkTransaction "u1" (Some "expense") a (Calendar.mkDate 2024 5 12) c.

Definition expenseOf (a : Z) (c : option Category) : Transaction :=
  spend (JsNum.of_Z a) c.

Definition food : option Category := Some (mkCategory "Food" (Some "#111111")).

Definition tx (kind : string) (a y m d : Z) : Transaction :=
  mkTransaction "u1" (Some kind) (JsNum.of_Z a) (Calendar.mkDate y m d) None.

(** The three transactions of the specification's scenario. *)
Definition scenario : list Transaction :=
  [ tx "income" 1000 2024 5 10; tx "expense" 400 2024 5 12;
    tx "expense" 200 2024 4 1 ].

(** 15 May 2024, noon. *)
Definition mid_may : JsDate.Date := JsDate.mkDate 2024 4 15 43200000.

(** 20 May 2024, midnight. *)
Definition late_may : JsDate.Date := JsDate.mkDate 2024 4 20 0.

(** An income of 200 on 30 April 2024. *)
Definition aprilEnd : list Transaction := [ tx "income" 200 2024 4 30 ].

(** The last and the first millisecond around midnight, 31 May 2024. *)
Definition end_of_may : JsDate.Date := JsDate.mkDate 2024 4 31 86399999.
Definition start_of_june : JsDate.Date := JsDate.mkDate 2024 5 1 0.

(** A clock that passes midnight after the sixth reading. *)
Definition over_midnight : Eff.Clock :=
  fun n => if Nat.ltb n 6 then end_of_may else start_of_june.

(** Rows whose kind is outside the closed set, or missing. *)
Definition oddKinds : list Transaction :=
  [ mkTransaction "u1" (Some "transfer") (JsNum.of_Z 50)
                  (Calendar.mkDate 2024 5 12) None;
    mkTransaction "u1" None (JsNum.of_Z 70) (Calendar.mkDate 2024 5 13) None ].

(** Incomes on the first day of December 2023 and of January 2024. *)
Definition firstDays : list Transaction :=
  [ tx "income" 200 2023 12 1; tx "income" 300 2024 1 1 ].

(** Asia/Jakarta and America/Bogota keep one offset all year. *)
Definition jakarta : JsDate.Zone := JsDate.fixed 420.
Definition bogota : JsDate.Zone := JsDate.fixed (-300).
Definition utc : JsDate.Zone := JsDate.fixed 0.

(** The day of the week of a calendar date, 0 for Sunday. *)
Definition dayOfWeek (y m d : Z) : Z :=
  let t := nth (Z.to_nat (m - 1)) [0; 3; 2; 5; 0; 3; 5; 1; 4; 6; 2; 4] 0 in
  let y' := if m <? 3 then y - 1 else y in
  (y' + y' / 4 - y' / 100 + y' / 400 + t + d) mod 7.

(** The last Sunday of a month of 31 days. *)
Definition lastSunday (y m : Z) : Z := 31 - dayOfWeek y m 31.

(** Europe/London: an hour east of UTC from the last Sunday of March, when
    01:00 becomes 02:00, to the last Sunday of October, when 02:00 becomes
    01:00; on UTC for the rest of the year. *)
Definition london : JsDate.Zone :=
  fun d =>
    let y := JsDate.getFullYear d in
    let m := JsDate.getMonth d + 1 in
    let day := JsDate.getDate d in
    let two := 7200000 in
    let started :=
      (3 <? m)
      || ((m =? 3)
          && ((lastSunday y 3 <? day)
              || ((day =? lastSunday y 3) && (two <=? JsDate.msOfDay d)))) in
    let ended :=
      (10 <? m)
      || ((m =? 10)
          && ((lastSunday y 10 <? day)
              || ((day =? lastSunday y 10) && (two <=? JsDate.msOfDay d)))) in
    if started && negb ended then 60 else 0.

(** 31 March 2024 and 30 October 2024, noon. *)
Definition end_of_march : JsDate.Date := JsDate.mkDate 2024 2 31 43200000.
Definition end_of_october : JsDate.Date := JsDate.mkDate 2024 9 30 43200000.

(** The numbers 0.1, 0.2, 0.3, ...: [n / 10]. *)
Definition tenths (n : Z) : JsNum.number :=
  JsNum.div (JsNum.of_Z n) (JsNum.of_Z 10).

(** Accounts of "u1", "u2" and "u1", and assets of "u1". *)
Definition holdings : list BankAccount :=
  [ mkBankAccount "u1" (JsNum.of_Z 500);
    mkBankAccount "u2" (JsNum.of_Z 900);
    mkBankAccount "u1" (JsNum.of_Z 300) ].

Definition belongings : list Asset :=
  [ mkAsset "u1" (JsNum.of_Z 7000); mkAsset "u1" (JsNum.of_Z (-50)) ].

(** Accounts of user "u1" holding 2^53, 1 and 1. *)
Definition largeAccounts : list BankAccount :=
  [ mkBankAccount "u1" (JsNum.of_Z (2 ^ 53));
    mkBankAccount "u1" (JsNum.of_Z 1);
    mkBankAccount "u1" (JsNum.of_Z 1) ].

Definition emptyStore : Backend := tableBackend DateColumn [] [] [].

(** A bar and a summary with integer figures. *)
Definition bar (m : string) (income expense : Z) : Reports.MonthlySummary :=
  Reports.mkMonthly m (JsNum.of_Z income) (JsNum.of_Z expense).

Definition figures (income expense bank assets : Z) : Dashboard.SummaryData :=
  Dashboard.mkSummary (JsNum.of_Z income) (JsNum.of_Z expense)
                      (JsNum.of_Z bank) (JsNum.of_Z assets).

End Sample.

(* ------------------------------------------------------------------ *)
(** ** Page Dashboard: what is rendered from the summary *)

Module DashboardView.
Import Dashboard.

(** The four cards, in the order of the page. *)
Definition summaryCards (summary : SummaryData)
  : list (string * JsNum.number) :=
  [ ("Total Income", totalIncome summary);
    ("Total Expense", totalExpense summary);
    ("Bank Balance", totalBankBalance summary);
    ("Total Assets", totalAssets summary) ].

(** The figure of the card "Net Balance":
    [summary.totalIncome - summary.totalExpense]. *)
Definition netBalance (summary : SummaryData) : JsNum.number :=
  JsNum.sub (totalIncome summary) (totalExpense summary).

End DashboardView.

(* ------------------------------------------------------------------ *)
(** ** Further vocabulary *)

Module Terms.
Import Supabase JsDate DateFns Eff Spec.

(** An amount with the sign of its kind; a row of another kind counts 0. *)
Definition signed (t : Transaction) : Z :=
  if type_is "income" t then amountZ t
  else if type_is "expense" t then - amountZ t
  else 0.

(** The elements of [l] not in [seen], each kept at its first occurrence. *)
Fixpoint firsts (seen l : list string) : list string :=
  match l with
  | [] => []
  | k :: l' =>
      if existsb (String.eqb k) seen then firsts seen l'
      else k :: firsts (k :: seen) l'
  end.

(** The labels of a list of expenses that can become own keys of the
    accumulator, in input order. *)
Definition labels (ts : list Transaction) : list string :=
  filter (fun k => negb (Js.inherited k)) (map Reports.categoryName ts).

(** Ascending numeric order of array-index keys. *)
Definition index_le (a b : string) : Prop :=
  Js.index_value a <= Js.index_value b.

(** First and last day of calendar month [k]. *)
Definition firstDay (k : Z) : Calendar.date :=
  Calendar.mkDate (k / 12) (k mod 12 + 1) 1.




(** Total, as JavaScript adds it up, of the user's transactions of one
    kind within calendar month [k]. *)
Definition monthSum (uid kind : string) (k : Z) (txs : list Transaction)
  : JsNum.number :=
  orZero
    (jsSum (map amount
              (filter (fun t => owned uid t && type_is kind t && in_month k t)
                      txs))).

(** The amounts of the user's transactions are safe integers whose
    magnitudes add up to less than 2^53. *)
Definition exactFor (uid : string) (txs : list Transaction) : Prop :=
  exact amount (filter (owned uid) txs).


(** The zone is on UTC or east of it all year. *)
Definition eastOfUtc (zone : Zone) : Prop :=
  forall d, 0 <= zone d < 1440.




(** The first day of the month of [now]. *)
Definition firstOfThisMonth (now : Date) : Calendar.date :=
  Calendar.mkDate (getFullYear now) (getMonth now + 1) 1.

(** The user's expenses dated on or after the day [lo]. *)
Definition expenseSince (uid : string) (lo : Calendar.date) (t : Transaction)
  : bool :=
  owned uid t && type_is "expense" t && Calendar.leb lo (transaction_date t).

End Terms.

(* ------------------------------------------------------------------ *)
(** ** Further sample data *)

Module Cases.
Import Supabase.

(** A store that is down: every query comes back with an error and no
    data. *)
Definition downStore : Backend :=
  {| from_transactions _ := mkResponse None (Some "Failed to fetch");
     from_bank_accounts _ := mkResponse None (Some "Failed to fetch");
     from_assets _ := mkResponse None (Some "Failed to fetch") |}.

(** Expenses under the labels "Food", "2024", none, "7", "Food". *)
Definition mixedLabels : list Transaction :=
  [ Sample.expenseOf 10 Sample.food;
    Sample.expenseOf 20 (Some (mkCategory "2024" None));
    Sample.expenseOf 30 None;
    Sample.expenseOf 40 (Some (mkCategory "7" None));
    Sample.expenseOf 50 Sample.food ].

(** Expenses under the labels "Rent", "Food", none, "Rent". *)
Definition plainLabels : list Transaction :=
  [ Sample.expenseOf 10 (Some (mkCategory "Rent" None));
    Sample.expenseOf 20 Sample.food;
    Sample.expenseOf 30 None;
    Sample.expenseOf 40 (Some (mkCategory "Rent" None)) ].

End Cases.

(* ------------------------------------------------------------------ *)
(** ** Handlers of the pages: what they share *)

Module Ui.
Import Eff.

(** A call of [toast.success] or [toast.error], with its message. *)
Inductive Toast :=
| toast_success (message : string)
| toast_error (message : string).

(** The error object of a failed request is thrown as it is and caught in
    the same handler, which reads its [message] only: it is carried as
    [PostgrestError message], whatever its class. *)
Definition message_of (e : exn) : string :=
  match e with
  | PostgrestError m => m
  | TypeError m => m
  end.

(** [error.message || fallback] *)
Definition message_or (e : exn) (fallback : string) : string :=
  Js.or_string (Some (message_of e)) fallback.

(** The component's state as the closure of a handler holds it. *)
Definition getState {C} : M C C := fun _ w => (Return (state w), w).

End Ui.

(* ------------------------------------------------------------------ *)
(** ** Page Profile: [handleProfileUpdate] and [handlePasswordUpdate] *)

Module ProfilePage.
Import Eff Ui.

(** A typed text as the sequence of its UTF-16 code units: [length] is the
    length of the list, [!==] is inequality of lists. *)
Definition text := list N.

Definition text_eqb (a b : text) : bool :=
  if list_eq_dec N.eq_dec a b then true else false.

(** The argument of [supabase.auth.updateUser]:
    [{ data: { full_name } }] or [{ password }]. *)
Inductive UserAttributes :=
| with_full_name (full_name : text)
| with_password (password : text).

(** The state of the component, followed by two logs: the toasts shown and
    the requests sent to the authentication service. *)
Record State := mkState
  { loading : bool;
    loadingPassword : bool;
    fullName : text;
    email : text;
    password : text;
    confirmPassword : text;
    toasts : list Toast;
    requests : list UserAttributes }.

Definition setLoading (b : bool) : M State unit :=
  setState (fun st => mkState b (loadingPassword st) (fullName st) (email st)
                        (password st) (confirmPassword st) (toasts st)
                        (requests st)).

Definition setLoadingPassword (b : bool) : M State unit :=
  setState (fun st => mkState (loading st) b (fullName st) (email st)
                        (password st) (confirmPassword st) (toasts st)
                        (requests st)).

Definition setPassword (p : text) : M State unit :=
  setState (fun st => mkState (loading st) (loadingPassword st) (fullName st)
                        (email st) p (confirmPassword st) (toasts st)
                        (requests st)).

Definition setConfirmPassword (p : text) : M State unit :=
  setState (fun st => mkState (loading st) (loadingPassword st) (fullName st)
                        (email st) (password st) p (toasts st) (requests st)).

Definition toast (t : Toast) : M State unit :=
  setState (fun st => mkState (loading st) (loadingPassword st) (fullName st)
                        (email st) (password st) (confirmPassword st)
                        (toasts st ++ [t]) (requests st)).

Section Handlers.
(** The answer of the authentication service to a request: the message of
    its error, or [None] when it accepts. *)
Variable auth : UserAttributes -> option string.

(** [await supabase.auth.updateUser(a)] *)
Definition updateUser (a : UserAttributes) : M State (option string) :=
  (setState (fun st => mkState (loading st) (loadingPassword st) (fullName st)
                         (email st) (password st) (confirmPassword st)
                         (toasts st) (requests st ++ [a])) ;;
   ret (auth a))%eff.

Definition handleProfileUpdate : M State unit :=
  (st <- getState ;;
   setLoading true ;;
   try_catch_finally
     (error <- updateUser (with_full_name (fullName st)) ;;
      match error with
      | Some m => throw (PostgrestError m)
      | None => toast (toast_success "Profil berhasil diperbarui!")
      end)
     (fun e => toast (toast_error (message_or e "Gagal memperbarui profil.")))
     (setLoading false))%eff.

Definition handlePasswordUpdate : M State unit :=
  (st <- getState ;;
   if negb (text_eqb (password st) (confirmPassword st))
   then toast (toast_error "Kata sandi tidak cocok!")
   else if (List.length (password st) <? 8)%nat
   then toast (toast_error "Kata sandi minimal harus 8 karakter.")
   else
     setLoadingPassword true ;;
     try_catch_finally
       (error <- updateUser (with_password (password st)) ;;
        match error with
        | Some m => throw (PostgrestError m)
        | None =>
            toast (toast_success "Kata sandi berhasil diubah!") ;;
            setPassword [] ;;
            setConfirmPassword []
        end)
       (fun e => toast (toast_error (message_or e "Gagal mengubah kata sandi.")))
       (setLoadingPassword false))%eff.

End Handlers.

End ProfilePage.

(* ------------------------------------------------------------------ *)
(** ** Page Categories *)

(** The fields of the dialog's form. *)
Module CategoryForm.
Record t := mk { name : string; type : string; icon : string; color : string }.

(** [{ name: '', type: 'income', icon: '📊', color: '#6366F1' }] *)
Definition blank : t := mk EmptyString "income" "📊" "#6366F1".
End CategoryForm.

Module CategoriesPage.
Import Eff Ui.

(** A row of [categories]. *)
Record Category := mkCategory
  { id : string;
    user_id : string;
    name : string;
    type : string;
    icon : option string;
    color : option string }.

Record Page := mkPage
  { categories : list Category;
    loading : bool;
    dialogOpen : bool;
    editingCategory : option Category;
    formData : CategoryForm.t }.

(** The state of the component, between the content of the store's table
    and the log of the toasts shown. *)
Record State := mkState
  { table : list Category; page : Page; toasts : list Toast }.

(** The requests the page sends to the store. *)
Inductive Request :=
| select_all (uid : string)
| insert (uid name type icon color : string)
| update (id name icon color : string)
| delete (id : string).

Definition setPage (f : Page -> Page) : M State unit :=
  setState (fun st => mkState (table st) (f (page st)) (toasts st)).

Definition setTable (f : list Category -> list Category) : M State unit :=
  setState (fun st => mkState (f (table st)) (page st) (toasts st)).

Definition toast (t : Toast) : M State unit :=
  setState (fun st => mkState (table st) (page st) (toasts st ++ [t])).

Definition setCategories (l : list Category) : M State unit :=
  setPage (fun p => mkPage l (loading p) (dialogOpen p) (editingCategory p)
                      (formData p)).

Definition setLoading (b : bool) : M State unit :=
  setPage (fun p => mkPage (categories p) b (dialogOpen p) (editingCategory p)
                      (formData p)).

Definition setDialogOpen (b : bool) : M State unit :=
  setPage (fun p => mkPage (categories p) (loading p) b (editingCategory p)
                      (formData p)).

Definition setEditingCategory (c : option Category) : M State unit :=
  setPage (fun p => mkPage (categories p) (loading p) (dialogOpen p) c
                      (formData p)).

Definition setFormData (f : CategoryForm.t) : M State unit :=
  setPage (fun p => mkPage (categories p) (loading p) (dialogOpen p)
                      (editingCategory p) f).

(** [data || []] *)
Definition data_or_empty {A} (r : Supabase.Response A) : list A :=
  match Supabase.data r with Some l => l | None => [] end.

(** What an update by id does to a row. *)
Definition patched (i n ic co : string) (c : Category) : Category :=
  if String.eqb (id c) i
  then mkCategory (id c) (user_id c) n (type c) (Some ic) (Some co)
  else c.

Section Store.
(** The store: which requests it refuses, and with what message; the id it
    gives to a new row; the order of its answer to [order('name')]. *)
Variable rejects : Request -> option string.
Variable new_id : list Category -> string.
Variable order_by_name : list Category -> list Category.
Variable uid : string.

(** Modelled from the spec: the store's answers, which are not part of the
    repository. A refused request changes nothing; a select returns the
    rows of the user; an insert adds one row; an update by id rewrites the
    columns it names in the rows of that id; a delete by id removes them. *)
Definition store_select : M State (Supabase.Response Category) :=
  (st <- getState ;;
   ret (match rejects (select_all uid) with
        | Some m => Supabase.mkResponse None (Some m)
        | None =>
            Supabase.mkResponse
              (Some (order_by_name
                       (filter (fun c => String.eqb (user_id c) uid) (table st))))
              None
        end))%eff.

Definition store_insert (n ty ic co : string) : M State (option string) :=
  match rejects (insert uid n ty ic co) with
  | Some m => ret (Some m)
  | None =>
      (setTable (fun t => t ++ [mkCategory (new_id t) uid n ty (Some ic) (Some co)]) ;;
       ret None)%eff
  end.

Definition store_update (i n ic co : string) : M State (option string) :=
  match rejects (update i n ic co) with
  | Some m => ret (Some m)
  | None => (setTable (map (patched i n ic co)) ;; ret None)%eff
  end.

Definition store_delete (i : string) : M State (option string) :=
  match rejects (delete i) with
  | Some m => ret (Some m)
  | None =>
      (setTable (filter (fun c => negb (String.eqb (id c) i))) ;; ret None)%eff
  end.

(** [if (error) throw error] *)
Definition throw_if (error : option string) : M State unit :=
  match error with
  | Some m => throw (PostgrestError m)
  | None => ret tt
  end.

Definition fetchCategories : M State unit :=
  try_catch_finally
    (r <- store_select ;;
     throw_if (Supabase.error r) ;;
     setCategories (data_or_empty r))%eff
    (fun e => console_error e ;; toast (toast_error "Failed to load categories"))%eff
    (setLoading false).

Definition handleSubmit : M State unit :=
  (st <- getState ;;
   let form := formData (page st) in
   try_catch_finally
     (match editingCategory (page st) with
      | Some c =>
          error <- store_update (id c) (CategoryForm.name form)
                                (CategoryForm.icon form) (CategoryForm.color form) ;;
          throw_if error ;;
          toast (toast_success "Category updated successfully")
      | None =>
          error <- store_insert (CategoryForm.name form) (CategoryForm.type form)
                                (CategoryForm.icon form) (CategoryForm.color form) ;;
          throw_if error ;;
          toast (toast_success "Category created successfully")
      end ;;
      setDialogOpen false ;;
      setEditingCategory None ;;
      setFormData CategoryForm.blank ;;
      fetchCategories)
     (fun e => toast (toast_error (message_or e "Failed to save category")))
     (ret tt))%eff.

(** [confirmed] is the answer to the [confirm(...)] dialog. *)
Definition handleDelete (confirmed : bool) (i : string) : M State unit :=
  if negb confirmed then ret tt
  else
    try_catch_finally
      (error <- store_delete i ;;
       throw_if error ;;
       toast (toast_success "Category deleted successfully") ;;
       fetchCategories)%eff
      (fun e => toast (toast_error (message_or e "Failed to delete category")))
      (ret tt).

End Store.

Definition openEditDialog (category : Category) : M State unit :=
  (setEditingCategory (Some category) ;;
   setFormData
     (CategoryForm.mk (name category) (type category)
        (Js.or_string (icon category) "📊")
        (Js.or_string (color category) "#6366F1")) ;;
   setDialogOpen true)%eff.

(** The click on "Add Category". *)
Definition addCategoryClicked : M State unit :=
  (setEditingCategory None ;; setFormData CategoryForm.blank)%eff.

Definition incomeCategories (p : Page) : list Category :=
  filter (fun c => String.eqb (type c) "income") (categories p).

Definition expenseCategories (p : Page) : list Category :=
  filter (fun c => String.eqb (type c) "expense") (categories p).

End CategoriesPage.

(* ------------------------------------------------------------------ *)
(** ** Page Bank Accounts *)

(** The fields of the dialog's form; all four are texts. *)
Module AccountForm.
Record t := mk
  { bank_name : string;
    account_number : string;
    account_holder_name : string;
    balance : string }.

Definition blank : t := mk EmptyString EmptyString EmptyString EmptyString.
End AccountForm.

Module BankAccountsPage.
Import Eff Ui.

(** A row of [bank_accounts]. *)
Record BankAccount := mkAccount
  { id : string;
    user_id : string;
    bank_name : string;
    account_number : string;
    account_holder_name : string;
    balance : JsNum.number }.

Record Page := mkPage
  { accounts : list BankAccount;
    loading : bool;
    dialogOpen : bool;
    editingAccount : option BankAccount;
    formData : AccountForm.t }.

(** The state of the component, between the content of the store's table
    and the log of the toasts shown. *)
Record State := mkState
  { table : list BankAccount; page : Page; toasts : list Toast }.

(** The columns a submit writes: [accountData]. *)
Record AccountData := mkData
  { data_user_id : string;
    data_bank_name : string;
    data_account_number : string;
    data_account_holder_name : string;
    data_balance : JsNum.number }.

Inductive Request :=
| select_all (uid : string)
| insert (d : AccountData)
| update (d : AccountData) (id : string)
| delete (id : string).

Definition setPage (f : Page -> Page) : M State unit :=
  setState (fun st => mkState (table st) (f (page st)) (toasts st)).

Definition setTable (f : list BankAccount -> list BankAccount) : M State unit :=
  setState (fun st => mkState (f (table st)) (page st) (toasts st)).

Definition toast (t : Toast) : M State unit :=
  setState (fun st => mkState (table st) (page st) (toasts st ++ [t])).

Definition setAccounts (l : list BankAccount) : M State unit :=
  setPage (fun p => mkPage l (loading p) (dialogOpen p) (editingAccount p)
                      (formData p)).

Definition setLoading (b : bool) : M State unit :=
  setPage (fun p => mkPage (accounts p) b (dialogOpen p) (editingAccount p)
                      (formData p)).

Definition setDialogOpen (b : bool) : M State unit :=
  setPage (fun p => mkPage (accounts p) (loading p) b (editingAccount p)
                      (formData p)).

Definition setEditingAccount (a : option BankAccount) : M State unit :=
  setPage (fun p => mkPage (accounts p) (loading p) (dialogOpen p) a
                      (formData p)).

Definition setFormData (f : AccountForm.t) : M State unit :=
  setPage (fun p => mkPage (accounts p) (loading p) (dialogOpen p)
                      (editingAccount p) f).

(** The row a new account becomes, and what an update by id does to a
    row. *)
Definition row_of (i : string) (d : AccountData) : BankAccount :=
  mkAccount i (data_user_id d) (data_bank_name d) (data_account_number d)
            (data_account_holder_name d) (data_balance d).

Definition rewritten (d : AccountData) (i : string) (a : BankAccount)
  : BankAccount :=
  if String.eqb (id a) i then row_of (id a) d else a.

Section Store.
(** The store: which requests it refuses, the id it gives to a new row, the
    order of its answer to [order("bank_name")]; and the runtime's
    [parseFloat] and number-to-text conversion. *)
Variable rejects : Request -> option string.
Variable new_id : list BankAccount -> string.
Variable order_by_bank_name : list BankAccount -> list BankAccount.
Variable uid : string.
Variable parseFloat : string -> JsNum.number.
Variable toString : JsNum.number -> string.

(** Modelled from the spec: the store's answers, which are not part of the
    repository. A refused request changes nothing; a select returns the
    rows of the user; an insert adds one row; an update by id rewrites the
    columns it names in the rows of that id; a delete by id removes them. *)
Definition store_select : M State (Supabase.Response BankAccount) :=
  (st <- getState ;;
   ret (match rejects (select_all uid) with
        | Some m => Supabase.mkResponse None (Some m)
        | None =>
            Supabase.mkResponse
              (Some (order_by_bank_name
                       (filter (fun a => String.eqb (user_id a) uid) (table st))))
              None
        end))%eff.

Definition store_insert (d : AccountData) : M State (option string) :=
  match rejects (insert d) with
  | Some m => ret (Some m)
  | None => (setTable (fun t => t ++ [row_of (new_id t) d]) ;; ret None)%eff
  end.

Definition store_update (d : AccountData) (i : string) : M State (option string) :=
  match rejects (update d i) with
  | Some m => ret (Some m)
  | None => (setTable (map (rewritten d i)) ;; ret None)%eff
  end.

Definition store_delete (i : string) : M State (option string) :=
  match rejects (delete i) with
  | Some m => ret (Some m)
  | None =>
      (setTable (filter (fun a => negb (String.eqb (id a) i))) ;; ret None)%eff
  end.

(** [if (error) throw error] *)
Definition throw_if (error : option string) : M State unit :=
  match error with
  | Some m => throw (PostgrestError m)
  | None => ret tt
  end.

Definition fetchBankAccounts : M State unit :=
  (setLoading true ;;
   try_catch_finally
     (r <- store_select ;;
      throw_if (Supabase.error r) ;;
      setAccounts (CategoriesPage.data_or_empty r))
     (fun e => console_error e ;;
               toast (toast_error "Gagal memuat data rekening bank"))
     (setLoading false))%eff.

Definition handleSubmit : M State unit :=
  (st <- getState ;;
   let form := formData (page st) in
   try_catch_finally
     (let accountData :=
        mkData uid (AccountForm.bank_name form) (AccountForm.account_number form)
               (AccountForm.account_holder_name form)
               (parseFloat (AccountForm.balance form)) in
      match editingAccount (page st) with
      | Some a =>
          error <- store_update accountData (id a) ;;
          throw_if error ;;
          toast (toast_success "Rekening bank berhasil diperbarui")
      | None =>
          error <- store_insert accountData ;;
          throw_if error ;;
          toast (toast_success "Rekening bank berhasil ditambahkan")
      end ;;
      setDialogOpen false ;;
      fetchBankAccounts)
     (fun e => toast (toast_error (message_or e "Gagal menyimpan rekening bank")))
     (ret tt))%eff.

(** [confirmed] is the answer to the [confirm(...)] dialog. *)
Definition handleDelete (confirmed : bool) (i : string) : M State unit :=
  if negb confirmed then ret tt
  else
    try_catch_finally
      (error <- store_delete i ;;
       throw_if error ;;
       toast (toast_success "Rekening bank berhasil dihapus") ;;
       fetchBankAccounts)%eff
      (fun e => toast (toast_error (message_or e "Gagal menghapus rekening bank")))
      (ret tt).

Definition openEditDialog (account : BankAccount) : M State unit :=
  (setEditingAccount (Some account) ;;
   setFormData
     (AccountForm.mk (bank_name account) (account_number account)
        (account_holder_name account) (toString (balance account))) ;;
   setDialogOpen true)%eff.

Definition openNewDialog : M State unit :=
  (setEditingAccount None ;;
   setFormData AccountForm.blank ;;
   setDialogOpen true)%eff.

End Store.

(** What the dashboard's [select('balance')] reads of the table. *)
Definition balances (t : list BankAccount) : list Supabase.BankAccount :=
  map (fun a => Supabase.mkBankAccount (user_id a) (balance a)) t.

(** The bank total the dashboard shows to [uid] over the table [t]. *)
Definition bankTotal (col : Supabase.ColumnType)
           (txs : list Supabase.Transaction) (assets : list Supabase.Asset)
           (zone : JsDate.Zone) (uid : string) (clk : Clock)
           (t : list BankAccount) : JsNum.number :=
  Dashboard.totalBankBalance
    (Dashboard.summary
       (state (snd (run (Dashboard.fetchSummaryData
                           (store := Supabase.tableBackend col txs (balances t) assets)
                           zone uid)
                        clk Dashboard.initial)))).

End BankAccountsPage.

(** ** Vocabulary of the statements on the page Categories *)

Module CategoryTerms.
Import Eff Ui CategoriesPage.

(** The request a submit of the form sends. *)
Definition submitRequest (uid : string) (p : Page) : Request :=
  let form := formData p in
  match editingCategory p with
  | Some c =>
      update (id c) (CategoryForm.name form) (CategoryForm.icon form)
             (CategoryForm.color form)
  | None =>
      insert uid (CategoryForm.name form) (CategoryForm.type form)
             (CategoryForm.icon form) (CategoryForm.color form)
  end.

(** The table after the store has accepted a request. *)
Definition applied (new_id : list Category -> string) (q : Request)
           (t : list Category) : list Category :=
  match q with
  | select_all _ => t
  | insert u n ty ic co => t ++ [mkCategory (new_id t) u n ty (Some ic) (Some co)]
  | update i n ic co => map (patched i n ic co) t
  | delete i => filter (fun c => negb (String.eqb (id c) i)) t
  end.

(** What identifies a row and what an edit must not touch. *)
Definition fixed (c : Category) : string * string * string :=
  (id c, user_id c, type c).

(** The page after a load of the list against the table [t]. *)
Definition refreshed (rejects : Request -> option string)
           (order_by_name : list Category -> list Category) (uid : string)
           (t : list Category) (p : Page) : Page :=
  match rejects (select_all uid) with
  | Some _ => mkPage (categories p) false (dialogOpen p) (editingCategory p)
                     (formData p)
  | None =>
      mkPage (order_by_name (filter (fun c => String.eqb (user_id c) uid) t))
             false (dialogOpen p) (editingCategory p) (formData p)
  end.

(** The message shown for a refusal of the store. *)
Definition shown (m fallback : string) : Toast :=
  toast_error (Js.or_string (Some m) fallback).

End CategoryTerms.

(** ** Vocabulary of the statements on the page Bank Accounts *)

Module AccountTerms.
Import Eff Ui BankAccountsPage.

(** [accountData] of a submit: the columns written from the form. *)
Definition accountData (parseFloat : string -> JsNum.number) (uid : string) (p : Page)
  : AccountData :=
  let form := formData p in
  mkData uid (AccountForm.bank_name form) (AccountForm.account_number form)
         (AccountForm.account_holder_name form)
         (parseFloat (AccountForm.balance form)).

(** The request a submit of the form sends. *)
Definition submitRequest (parseFloat : string -> JsNum.number) (uid : string) (p : Page)
  : Request :=
  match editingAccount p with
  | Some a => update (accountData parseFloat uid p) (id a)
  | None => insert (accountData parseFloat uid p)
  end.

(** The table after the store has accepted a request. *)
Definition applied (new_id : list BankAccount -> string) (q : Request)
           (t : list BankAccount) : list BankAccount :=
  match q with
  | select_all _ => t
  | insert d => t ++ [row_of (new_id t) d]
  | update d i => map (rewritten d i) t
  | delete i => filter (fun a => negb (String.eqb (id a) i)) t
  end.

(** The page after a load of the list against the table [t]. *)
Definition refreshed (rejects : Request -> option string)
           (order_by_bank_name : list BankAccount -> list BankAccount)
           (uid : string) (t : list BankAccount) (p : Page) : Page :=
  match rejects (select_all uid) with
  | Some _ => mkPage (accounts p) false (dialogOpen p) (editingAccount p)
                     (formData p)
  | None =>
      mkPage (order_by_bank_name
                (filter (fun a => String.eqb (user_id a) uid) t))
             false (dialogOpen p) (editingAccount p) (formData p)
  end.

(** The accounts of [uid] in a table. *)
Definition mine (uid : string) (t : list BankAccount) : list BankAccount :=
  filter (fun a => String.eqb (user_id a) uid) t.

(** The balances of the accounts of [uid], added up exactly. *)
Definition held (uid : string) (t : list BankAccount) : Z :=
  Spec.sumZ (map (Spec.asZ balance) (mine uid t)).

(** The balances of the rows of [uid] with id [i]. *)
Definition balanceOf (uid i : string) (t : list BankAccount) : Z :=
  Spec.sumZ (map (Spec.asZ balance)
               (filter (fun a => String.eqb (id a) i) (mine uid t))).

End AccountTerms.

(** ** Sample data of the pages *)

Module PageCases.
Import Eff Ui.

(** The code units of "abc" and of "correct!". *)
Definition abc : ProfilePage.text := [97; 98; 99]%N.
Definition correct : ProfilePage.text :=
  [99; 111; 114; 114; 101; 99; 116; 33]%N.

Definition typed (p c : ProfilePage.text) : World ProfilePage.State :=
  mkWorld _ 0 []
    (ProfilePage.mkState false false [] [] p c [] []).

(** A service, and a store, that accept everything. *)
Definition accepting {A} : A -> option string := fun _ => None.

(** A store that refuses everything. *)
Definition refusing {A} : A -> option string := fun _ => Some "permission denied".

(** A category without icon and colour, and one with both. *)
Definition bare : CategoriesPage.Category :=
  CategoriesPage.mkCategory "c1" "u1" "Food" "expense" None None.
Definition salary : CategoriesPage.Category :=
  CategoriesPage.mkCategory "c2" "u1" "Salary" "income" (Some "$") (Some "#10B981").

Definition categoriesWorld : World CategoriesPage.State :=
  mkWorld _ 0 []
    (CategoriesPage.mkState [bare; salary]
       (CategoriesPage.mkPage [bare; salary] false false None CategoryForm.blank)
       []).

(** Two accounts of user "u1" and one of user "u2". *)
Definition bca : BankAccountsPage.BankAccount :=
  BankAccountsPage.mkAccount "a1" "u1" "Bank BCA" "001" "Sari"
    (JsNum.of_Z 500).
Definition mandiri : BankAccountsPage.BankAccount :=
  BankAccountsPage.mkAccount "a2" "u1" "Bank Mandiri" "002" "Sari"
    (JsNum.of_Z 300).
Definition other : BankAccountsPage.BankAccount :=
  BankAccountsPage.mkAccount "a3" "u2" "Bank BNI" "003" "Budi"
    (JsNum.of_Z 900).

Definition accountsWorld (editing : option BankAccountsPage.BankAccount)
  : World BankAccountsPage.State :=
  mkWorld _ 0 []
    (BankAccountsPage.mkState [bca; mandiri; other]
       (BankAccountsPage.mkPage [bca; mandiri] false true editing
          (AccountForm.mk "Bank BRI" "004" "Sari" "250"))
       []).

Definition freshAccount (t : list BankAccountsPage.BankAccount) : string :=
  "a-new".
Definition accounts_as_stored (t : list BankAccountsPage.BankAccount)
  : list BankAccountsPage.BankAccount := t.

(** A stand-in for the runtime's conversions at the two texts used here. *)
Definition parse250 (s : string) : JsNum.number := JsNum.of_Z 250.
Definition print500 (z : JsNum.number) : string := "500".
Definition parse500 (s : string) : JsNum.number := JsNum.of_Z 500.

Definition fresh (t : list CategoriesPage.Category) : string := "c-new".
Definition as_stored (t : list CategoriesPage.Category)
  : list CategoriesPage.Category := t.

End PageCases.

(** Reads the answers of a snapshot store off a run. *)
Ltac on_snapshot :=
  cbv zeta;
  cbn [Supabase.data Supabase.error Supabase.from_transactions
       Supabase.from_bank_accounts Supabase.from_assets Supabase.tableBackend
       option_map fst snd Eff.state Eff.console
       Dashboard.summary Dashboard.totalIncome Dashboard.totalExpense
       Dashboard.totalBankBalance Dashboard.totalAssets].

(* ------------------------------------------------------------------ *)
(** ** Objects as dictionaries *)

Section ObjectFacts.
Context {V : Type}.
Implicit Types (o : Js.object V) (k : string) (v : V).

Lemma own_In_fst o k v : Js.own o k = Some v -> In k (map fst o).
Proof.
  induction o as [| [k' v'] o IH]; simpl; [discriminate|].
  destruct (String.eqb_spec k k') as [->|Hne]; auto.
Qed.

Lemma own_None_notin o k : Js.own o k = None <-> ~ In k (map fst o).
Proof.
  induction o as [| [k' v'] o IH]; simpl.
  - tauto.
  - destruct (String.eqb_spec k k') as [->|Hne].
    + split; [discriminate | intros H; exfalso; apply H; auto].
    + rewrite IH. split; [intros H [E|I]; [congruence | auto] | tauto].
Qed.

Lemma set_fresh o k v : Js.own o k = None -> Js.set o k v = o ++ [(k, v)].
Proof.
  induction o as [| [k' v'] o IH]; simpl; [reflexivity|].
  destruct (String.eqb k k'); [discriminate|].
  intros H. now rewrite IH.
Qed.

Lemma update_own_fresh o k f : Js.own o k = None -> Js.update_own o k f = o.
Proof.
  induction o as [| [k' v'] o IH]; simpl; [reflexivity|].
  destruct (String.eqb k k'); [discriminate|].
  intros H. now rewrite IH.
Qed.

Lemma own_app o o' k :
  Js.own (o ++ o') k =
  match Js.own o k with Some v => Some v | None => Js.own o' k end.
Proof.
  induction o as [| [k' v'] o IH]; simpl; [reflexivity|].
  now destruct (String.eqb k k').
Qed.

Lemma own_update_own o k f k' :
  Js.own (Js.update_own o k f) k' =
  if String.eqb k' k then option_map f (Js.own o k') else Js.own o k'.
Proof.
  induction o as [| [k0 v0] o IH]; simpl.
  - now destruct (String.eqb k' k).
  - destruct (String.eqb_spec k k0) as [E|Hne]; simpl.
    + subst k0. destruct (String.eqb_spec k' k) as [E'|Hne']; reflexivity.
    + rewrite IH.
      destruct (String.eqb_spec k' k0) as [E'|Hne']; [|reflexivity].
      subst k0. destruct (String.eqb_spec k' k); [congruence | reflexivity].
Qed.

Lemma fst_update_own o k f : map fst (Js.update_own o k f) = map fst o.
Proof.
  induction o as [| [k0 v0] o IH]; simpl; [reflexivity|].
  destruct (String.eqb k k0); simpl; [reflexivity | now rewrite IH].
Qed.

End ObjectFacts.

(* ------------------------------------------------------------------ *)
(** ** Binary64 arithmetic on safe integers

    An addition or a subtraction of integers below 2^53 in magnitude whose
    result is below 2^53 in magnitude is exact. *)

Section Binary64.
Import JsNum.

Lemma digits2_size p : digits2_pos p = Pos.size p.
Proof. induction p; simpl; congruence. Qed.

Lemma digits2_log2 p : Zpos (digits2_pos p) = Z.log2 (Zpos p) + 1.
Proof.
  rewrite digits2_size. destruct p; simpl; try reflexivity;
  rewrite Pos.add_1_r; reflexivity.
Qed.

Lemma iter_xO m d : Zpos (Pos.iter xO m d) = Zpos m * 2 ^ Zpos d.
Proof.
  revert m. induction d using Pos.peano_ind; intros m.
  - rewrite Z.pow_1_r. simpl. lia.
  - rewrite Pos.iter_succ, Pos2Z.inj_succ, Z.pow_succ_r by lia.
    change (Zpos (Pos.iter xO m d)~0) with (2 * Zpos (Pos.iter xO m d)).
    rewrite IHd. lia.
Qed.

Lemma iter_pos_iter {A} (f : A -> A) n : forall x, iter_pos f n x = Pos.iter f x n.
Proof.
  induction n; intros x; simpl.
  - rewrite !IHn. now rewrite <- !Pos.iter_swap.
  - now rewrite !IHn.
  - reflexivity.
Qed.

Lemma shr_even d : forall m,
  iter_pos shr_1 d (Build_shr_record (Zpos (Pos.iter xO m d)) false false)
  = Build_shr_record (Zpos m) false false.
Proof.
  intros m. rewrite iter_pos_iter.
  induction d using Pos.peano_ind.
  - reflexivity.
  - rewrite Pos.iter_succ_r, (Pos.iter_succ d positive xO m). exact IHd.
Qed.

(** Rounding a value that needs no rounding. *)
Lemma binary_round_exact s m e m' :
  let t := Zpos (digits2_pos m) + e - 53 in
  -1074 <= t <= 971 ->
  (t <= e -> Zpos m' = Zpos m * 2 ^ (e - t)) ->
  (e < t -> Zpos m = Zpos m' * 2 ^ (t - e)) ->
  binary_round prec emax s m e = S754_finite s m' t.
Proof.
  intros t Ht Hle Hgt.
  unfold binary_round, shl_align, fexp, emin, prec, emax.
  replace (Z.max (Zpos (digits2_pos m) + e - 53) (3 - 1024 - 53)) with t
    by (unfold t; lia).
  destruct (t - e) as [|d|d] eqn:Hd.
  - assert (m' = m) as ->.
    { assert (E : t = e) by lia. specialize (Hle ltac:(lia)).
      rewrite E, Z.sub_diag, Z.pow_0_r in Hle. lia. }
    assert (E : e = t) by lia. rewrite E.
    unfold binary_round_aux, shr_fexp, fexp, emin. cbn [Zdigits2 shr_record_of_loc].
    replace (Z.max (Zpos (digits2_pos m) + t - 53) (3 - 1024 - 53) - t) with 0
      by (unfold t in *; lia).
    cbn [shr shr_m loc_of_shr_record round_nearest_even Zdigits2 shr_record_of_loc].
    replace (Z.max (Zpos (digits2_pos m) + t - 53) (3 - 1024 - 53) - t) with 0
      by (unfold t in *; lia).
    cbn [shr shr_m].
    replace (t <=? 1024 - 53) with true by (symmetry; apply Z.leb_le; lia).
    reflexivity.
  - (* e < t: shift right *)
    assert (Hm : m = Pos.iter xO m' d).
    { apply Pos2Z.inj. rewrite iter_xO. apply Hgt. lia. }
    assert (Hdig : Zpos (digits2_pos m) = Zpos (digits2_pos m') + Zpos d).
    { rewrite !digits2_log2, Hm, iter_xO.
      rewrite Z.log2_mul_pow2 by lia. lia. }
    unfold binary_round_aux, shr_fexp, fexp, emin. cbn [Zdigits2 shr_record_of_loc].
    replace (Z.max (Zpos (digits2_pos m) + e - 53) (3 - 1024 - 53) - e) with (Zpos d)
      by (unfold t in *; lia).
    cbn [shr]. replace (e + Zpos d) with t by lia.
    clear Hgt. subst m. rewrite shr_even.
    cbn [shr_m loc_of_shr_record round_nearest_even Zdigits2 shr_record_of_loc].
    replace (Z.max (Zpos (digits2_pos m') + t - 53) (3 - 1024 - 53) - t) with 0
      by lia.
    cbn [shr shr_m].
    replace (t <=? 1024 - 53) with true by (symmetry; apply Z.leb_le; lia).
    reflexivity.
  - (* t < e: shift left *)
    assert (Hm : m' = Pos.iter xO m d).
    { apply Pos2Z.inj. rewrite iter_xO.
      replace (Zpos d) with (e - t) by lia. apply Hle. lia. }
    assert (Hdig : Zpos (digits2_pos m') = Zpos (digits2_pos m) + Zpos d).
    { rewrite !digits2_log2, Hm, iter_xO.
      rewrite Z.log2_mul_pow2 by lia. lia. }
    rewrite <- Hm.
    unfold binary_round_aux, shr_fexp, fexp, emin. cbn [Zdigits2 shr_record_of_loc].
    replace (Z.max (Zpos (digits2_pos m') + t - 53) (3 - 1024 - 53) - t) with 0
      by (unfold t in *; lia).
    cbn [shr shr_m loc_of_shr_record round_nearest_even Zdigits2 shr_record_of_loc].
    replace (Z.max (Zpos (digits2_pos m') + t - 53) (3 - 1024 - 53) - t) with 0
      by (unfold t in *; lia).
    cbn [shr shr_m].
    replace (t <=? 1024 - 53) with true by (symmetry; apply Z.leb_le; lia).
    reflexivity.
Qed.


Lemma digits2_bound p : Zpos p < 2 ^ 53 -> Zpos (digits2_pos p) <= 53.
Proof.
  intros H. rewrite digits2_log2.
  assert (Z.log2 (Zpos p) < 53) by (apply Z.log2_lt_pow2; lia). lia.
Qed.

Lemma round_int s q e p :
  Zpos p < 2 ^ 53 -> -1000 <= e <= 0 -> Zpos q = Zpos p * 2 ^ (- e) ->
  binary_round prec emax s q e = canonical s p.
Proof.
  intros Hp He Hq. pose proof (digits2_bound p Hp) as Hd.
  assert (Hdq : Zpos (digits2_pos q) = Zpos (digits2_pos p) - e).
  { rewrite !digits2_log2, Hq, Z.log2_mul_pow2 by lia. lia. }
  pose proof (Pos2Z.is_pos (digits2_pos p)) as Hpos.
  assert (Hpow : 0 < 2 ^ (53 - Zpos (digits2_pos p)))
    by (apply Z.pow_pos_nonneg; lia).
  unfold canonical.
  replace (Zpos (digits2_pos p) - 53) with (Zpos (digits2_pos q) + e - 53) by lia.
  apply binary_round_exact.
  - lia.
  - intros Hle. rewrite Z2Pos.id by lia.
    rewrite Hq, <- Z.mul_assoc, <- Z.pow_add_r by lia.
    f_equal. f_equal. lia.
  - intros Hlt. rewrite Z2Pos.id by lia.
    rewrite Hq, <- Z.mul_assoc, <- Z.pow_add_r by lia.
    f_equal. f_equal. lia.
Qed.

Lemma of_Z_repr z : Z.abs z < 2 ^ 53 -> of_Z z = repr z.
Proof.
  intros H. destruct z as [|p|p]; [reflexivity| |];
    unfold of_Z, binary_normalize, repr;
    apply round_int; try lia; rewrite Z.pow_0_r; lia.
Qed.

Lemma normalize_int c e :
  Z.abs c < 2 ^ 53 -> -1000 <= e <= 0 ->
  binary_normalize prec emax (c * 2 ^ (- e)) e false = repr c.
Proof.
  intros Hc He.
  assert (Hpow : 0 < 2 ^ (- e)) by (apply Z.pow_pos_nonneg; lia).
  destruct c as [|p|p].
  - reflexivity.
  - destruct (Zpos p * 2 ^ (- e)) as [|q|q] eqn:E; try lia.
    unfold binary_normalize, repr. apply round_int; lia.
  - destruct (Zneg p * 2 ^ (- e)) as [|q|q] eqn:E; try lia.
    unfold binary_normalize, repr. apply round_int; lia.
Qed.

Lemma shl_align_fst m e ez :
  ez <= e -> Zpos (fst (shl_align m e ez)) = Zpos m * 2 ^ (e - ez).
Proof.
  intros H. unfold shl_align.
  destruct (ez - e) as [|d|d] eqn:E; try lia; cbn [fst].
  - replace (e - ez) with 0 by lia. lia.
  - rewrite iter_xO. f_equal. f_equal. lia.
Qed.

(** The mantissa and the exponent of a non-zero [repr]. *)
Lemma repr_finite z :
  z <> 0 -> Z.abs z < 2 ^ 53 ->
  exists m e, repr z = S754_finite (z <? 0) m e
              /\ -52 <= e <= 0
              /\ cond_Zopp (z <? 0) (Zpos m) = z * 2 ^ (- e).
Proof.
  intros Hz Hb.
  destruct z as [|p|p]; [contradiction| |].
  - pose proof (digits2_bound p Hb) as Hd.
    pose proof (Pos2Z.is_pos (digits2_pos p)) as Hpos.
    assert (Hpow : 0 < 2 ^ (53 - Zpos (digits2_pos p)))
      by (apply Z.pow_pos_nonneg; lia).
    eexists _, _. split; [reflexivity|]. split; [lia|].
    cbn [Z.ltb Z.compare cond_Zopp]. rewrite Z2Pos.id by lia.
    f_equal. f_equal. lia.
  - assert (Hb' : Zpos p < 2 ^ 53) by lia.
    pose proof (digits2_bound p Hb') as Hd.
    pose proof (Pos2Z.is_pos (digits2_pos p)) as Hpos.
    assert (Hpow : 0 < 2 ^ (53 - Zpos (digits2_pos p)))
      by (apply Z.pow_pos_nonneg; lia).
    eexists _, _. split; [reflexivity|]. split; [lia|].
    cbn [Z.ltb Z.compare cond_Zopp]. rewrite Z2Pos.id by lia.
    replace (- (Zpos (digits2_pos p) - 53)) with (53 - Zpos (digits2_pos p)) by lia.
    lia.
Qed.

Lemma aligned sa ma ea a ez :
  cond_Zopp sa (Zpos ma) = a * 2 ^ (- ea) -> ez <= ea -> ea <= 0 ->
  cond_Zopp sa (Zpos (fst (shl_align ma ea ez))) = a * 2 ^ (- ez).
Proof.
  intros Ha H1 H2. rewrite shl_align_fst by assumption.
  replace (- ez) with (- ea + (ea - ez)) by lia.
  rewrite Z.pow_add_r, Z.mul_assoc, <- Ha by lia.
  destruct sa; cbn [cond_Zopp]; lia.
Qed.

Theorem add_repr a b :
  Z.abs a < 2 ^ 53 -> Z.abs b < 2 ^ 53 -> Z.abs (a + b) < 2 ^ 53 ->
  add (repr a) (repr b) = repr (a + b).
Proof.
  intros Ha Hb Hab.
  destruct (Z.eq_dec a 0) as [->|Na].
  { destruct b; reflexivity. }
  destruct (Z.eq_dec b 0) as [->|Nb].
  { rewrite Z.add_0_r. destruct a; reflexivity. }
  destruct (repr_finite a Na Ha) as (ma & ea & Ea & Hea & Va).
  destruct (repr_finite b Nb Hb) as (mb & eb & Eb & Heb & Vb).
  rewrite Ea, Eb. unfold add, SFadd.
  rewrite (aligned _ _ _ _ (Z.min ea eb) Va) by lia.
  rewrite (aligned _ _ _ _ (Z.min ea eb) Vb) by lia.
  rewrite <- Z.mul_add_distr_r.
  apply normalize_int; lia.
Qed.

Theorem sub_repr a b :
  Z.abs a < 2 ^ 53 -> Z.abs b < 2 ^ 53 -> Z.abs (a - b) < 2 ^ 53 ->
  sub (repr a) (repr b) = repr (a - b).
Proof.
  intros Ha Hb Hab.
  destruct (Z.eq_dec b 0) as [->|Nb].
  { rewrite Z.sub_0_r. destruct a; reflexivity. }
  destruct (Z.eq_dec a 0) as [->|Na].
  { destruct b; try contradiction; reflexivity. }
  destruct (repr_finite a Na Ha) as (ma & ea & Ea & Hea & Va).
  destruct (repr_finite b Nb Hb) as (mb & eb & Eb & Heb & Vb).
  rewrite Ea, Eb. unfold sub, SFsub.
  rewrite (aligned _ _ _ _ (Z.min ea eb) Va) by lia.
  rewrite (aligned _ _ _ _ (Z.min ea eb) Vb) by lia.
  rewrite <- Z.mul_sub_distr_r.
  apply normalize_int; lia.
Qed.

Theorem add_exact a b :
  Z.abs a < 2 ^ 53 -> Z.abs b < 2 ^ 53 -> Z.abs (a + b) < 2 ^ 53 ->
  add (of_Z a) (of_Z b) = of_Z (a + b).
Proof. intros. rewrite !of_Z_repr by assumption. now apply add_repr. Qed.

Lemma toZ_repr z : Z.abs z < 2 ^ 53 -> toZ (repr z) = z.
Proof.
  intros Hb. destruct (Z.eq_dec z 0) as [->|Nz]; [reflexivity|].
  destruct (repr_finite z Nz Hb) as (m & e & E & He & V).
  rewrite E. unfold toZ.
  assert (Hs : Z.shiftl (Zpos m) e = Z.abs z).
  { rewrite Z.shiftl_div_pow2 by lia.   
    assert (Hm : Zpos m = Z.abs z * 2 ^ (- e)).
    { destruct (Z.ltb_spec z 0); cbn [cond_Zopp] in V; lia. }
    rewrite Hm. apply Z.div_mul. apply Z.pow_nonzero; lia. }
  rewrite Hs. destruct (Z.ltb_spec z 0); cbn [cond_Zopp]; lia.
Qed.


Lemma same_eq x y : same x y = true <-> x = y.
Proof.
  destruct x as [a|a| |a m e], y as [b|b| |b m' e']; simpl;
    try (split; [discriminate | intros H; discriminate H]);
    try (split; [intros H; apply Bool.eqb_prop in H; now subst
                | intros H; inversion H; apply Bool.eqb_reflx]).
  - tauto.
  - rewrite !andb_true_iff, Pos.eqb_eq, Z.eqb_eq. split.
    + intros [[H1 H2] H3]. apply Bool.eqb_prop in H1. now subst.
    + intros H. inversion H. now rewrite Bool.eqb_reflx.
Qed.

Lemma isSafeInteger_repr x :
  isSafeInteger x = true -> x = repr (toZ x) /\ Z.abs (toZ x) < 2 ^ 53.
Proof.
  unfold isSafeInteger. rewrite andb_true_iff, same_eq, Z.ltb_lt.
  intros [E H]. split; [|exact H]. rewrite <- of_Z_repr by exact H. exact E.
Qed.

Lemma isSafeInteger_of_Z z : Z.abs z < 2 ^ 53 -> isSafeInteger (of_Z z) = true.
Proof.
  intros H. unfold isSafeInteger.
  rewrite (of_Z_repr z H), (toZ_repr z H), (of_Z_repr z H).
  apply andb_true_iff. split; [now apply same_eq | now apply Z.ltb_lt].
Qed.

Lemma truthy_repr z : z <> 0 -> Z.abs z < 2 ^ 53 -> truthy (repr z) = true.
Proof.
  intros Hz Hb. destruct (repr_finite z Hz Hb) as (m & e & E & _).
  now rewrite E.
Qed.

End Binary64.

(* ------------------------------------------------------------------ *)
(** ** Sums *)

Lemma sumZ_app l l' : Spec.sumZ (l ++ l') = Spec.sumZ l + Spec.sumZ l'.
Proof. induction l as [|x l IH]; simpl; lia. Qed.

Lemma sumZ_perm l l' : Permutation l l' -> Spec.sumZ l = Spec.sumZ l'.
Proof. induction 1; simpl; lia. Qed.

Lemma reduce_sum_from {A} (f : A -> JsNum.number) xs : forall acc,
  fold_left (fun sum x => JsNum.add sum (f x)) xs acc
  = fold_left JsNum.add (map f xs) acc.
Proof.
  induction xs as [|x xs IH]; intros acc; simpl; [reflexivity | apply IH].
Qed.

Lemma reduce_sum_jsSum {A} (f : A -> JsNum.number) xs :
  Js.reduce_sum f xs = Spec.jsSum (map f xs).
Proof. apply reduce_sum_from. Qed.

Lemma or_zero_repr z :
  Z.abs z < 2 ^ 53 -> Js.or_zero (Some (JsNum.repr z)) = JsNum.repr z.
Proof.
  intros H. destruct (Z.eq_dec z 0) as [->|Hz]; [reflexivity|].
  unfold Js.or_zero. now rewrite truthy_repr.
Qed.

Section ExactSums.
Context {A : Type}.
Variable f : A -> JsNum.number.

Lemma sum_abs_bound (l : list A) :
  Z.abs (Spec.sumZ (map (Spec.asZ f) l)) <= Spec.sumZ (map (fun x => Z.abs ((Spec.asZ f) x)) l).
Proof. induction l as [|x l IH]; simpl; lia. Qed.

Lemma sum_abs_nonneg (l : list A) :
  0 <= Spec.sumZ (map (fun x => Z.abs ((Spec.asZ f) x)) l).
Proof. induction l as [|x l IH]; simpl; lia. Qed.

Lemma sum_abs_filter (p : A -> bool) (l : list A) :
  Spec.sumZ (map (fun x => Z.abs ((Spec.asZ f) x)) (filter p l))
  <= Spec.sumZ (map (fun x => Z.abs ((Spec.asZ f) x)) l).
Proof.
  induction l as [|x l IH]; simpl; [lia|].
  destruct (p x); simpl; lia.
Qed.

Lemma exact_filter (p : A -> bool) (l : list A) :
  Spec.exact f l -> Spec.exact f (filter p l).
Proof.
  intros [Hs Hb]. split.
  - apply Forall_forall. intros x Hx. apply filter_In in Hx.
    rewrite Forall_forall in Hs. now apply Hs.
  - pose proof (sum_abs_filter p l). lia.
Qed.

Lemma exact_perm (l l' : list A) :
  Permutation l l' -> Spec.exact f l -> Spec.exact f l'.
Proof.
  intros Hp [Hs Hb]. split.
  - exact (Permutation_Forall Hp Hs).
  - rewrite <- (sumZ_perm _ _ (Permutation_map _ Hp)). exact Hb.
Qed.

Lemma fold_add_exact (l : list A) : forall a,
  Forall (fun x => JsNum.isSafeInteger (f x) = true) l ->
  Z.abs a + Spec.sumZ (map (fun x => Z.abs ((Spec.asZ f) x)) l) < 2 ^ 53 ->
  fold_left (fun sum x => JsNum.add sum (f x)) l (JsNum.repr a)
  = JsNum.repr (a + Spec.sumZ (map (Spec.asZ f) l)).
Proof.
  induction l as [|x l IH]; intros a Hs Hb; simpl.
  - now rewrite Z.add_0_r.
  - inversion Hs as [|? ? Hx Hl]; subst.
    destruct (isSafeInteger_repr _ Hx) as [Ex Bx]. simpl in Hb.
    pose proof (sum_abs_nonneg l) as Hn. fold (Spec.asZ f x) in Ex, Bx.
    rewrite Ex, add_repr by lia.
    rewrite IH; [f_equal; lia | assumption | lia].
Qed.

(** Over safe integers of bounded magnitude, the sum JavaScript computes
    is the exact sum. *)
Lemma reduce_sum_exact (l : list A) :
  Spec.exact f l ->
  Js.reduce_sum f l = JsNum.repr (Spec.sumZ (map (Spec.asZ f) l))
  /\ Z.abs (Spec.sumZ (map (Spec.asZ f) l)) < 2 ^ 53.
Proof.
  intros [Hs Hb]. pose proof (sum_abs_bound l) as Ha. split; [|lia].
  unfold Js.reduce_sum. change JsNum.zero with (JsNum.repr 0).
  rewrite fold_add_exact; [reflexivity | assumption | simpl; exact Hb].
Qed.

Lemma total_exact (l : list A) :
  Spec.exact f l ->
  Js.or_zero (Some (Js.reduce_sum f l)) = JsNum.repr (Spec.sumZ (map (Spec.asZ f) l)).
Proof.
  intros H. destruct (reduce_sum_exact l H) as [E B].
  rewrite E. now apply or_zero_repr.
Qed.

End ExactSums.

(* ------------------------------------------------------------------ *)
(** ** The accumulation of [expenseByCategory] *)

Section Accumulate.
Import Supabase Reports Spec.
Implicit Types (o : Js.object Slot.t) (t : Transaction) (k : string).

Lemma own_accumulate o t k :
  Js.own (accumulate o t) k =
  if Spec.labelled k t then
    match Js.own o k with
    | Some s => Some (bump (amount t) s)
    | None => if Js.inherited k then None
              else Some (Slot.mk (JsNum.add JsNum.zero (amount t))
                                 (categoryColor t))
    end
  else Js.own o k.
Proof.
  unfold accumulate, Js.absent, Js.get, Spec.labelled.
  rewrite (String.eqb_sym (categoryName t) k).
  destruct (Js.own o (categoryName t)) as [s|] eqn:Ho.
  - rewrite own_update_own.
    destruct (String.eqb_spec k (categoryName t)) as [->|Hne]; [|reflexivity].
    now rewrite Ho.
  - destruct (Js.inherited (categoryName t)) eqn:Hi.
    + rewrite update_own_fresh by assumption.
      destruct (String.eqb_spec k (categoryName t)) as [->|Hne]; [|reflexivity].
      now rewrite Ho, Hi.
    + rewrite set_fresh by assumption.
      rewrite own_update_own, own_app.
      destruct (String.eqb_spec k (categoryName t)) as [->|Hne].
      * rewrite Ho, Hi. simpl. now rewrite String.eqb_refl.
      * destruct (Js.own o k); [reflexivity|]. simpl.
        destruct (String.eqb_spec k (categoryName t)); [contradiction | reflexivity].
Qed.

Lemma fst_accumulate o t :
  map fst (accumulate o t) =
  match Js.get o (categoryName t) with
  | Js.Undefined => map fst o ++ [categoryName t]
  | _ => map fst o
  end.
Proof.
  unfold accumulate, Js.absent.
  rewrite fst_update_own.
  unfold Js.get.
  destruct (Js.own o (categoryName t)) eqn:Ho; [reflexivity|].
  destruct (Js.inherited (categoryName t)); [reflexivity|].
  rewrite set_fresh by assumption.
  now rewrite map_app.
Qed.

Lemma NoDup_accumulate o t :
  NoDup (map fst o) -> NoDup (map fst (accumulate o t)).
Proof.
  intros Hnd. rewrite fst_accumulate. unfold Js.get.
  destruct (Js.own o (categoryName t)) eqn:Ho; [assumption|].
  destruct (Js.inherited (categoryName t)); [assumption|].
  apply own_None_notin in Ho.
  apply NoDup_rev in Hnd. rewrite <- (rev_involutive (_ ++ _)).
  apply NoDup_rev. rewrite rev_app_distr. simpl.
  constructor; [|assumption].
  now rewrite <- in_rev.
Qed.

Lemma NoDup_fold ts : forall o,
  NoDup (map fst o) -> NoDup (map fst (fold_left accumulate ts o)).
Proof.
  induction ts as [|t ts IH]; intros o Hnd; simpl; [assumption|].
  apply IH. now apply NoDup_accumulate.
Qed.

(** The own property at [k] after the whole accumulation: the amounts
    filed under [k] are added one by one, in input order, to what the
    property held. *)
Lemma own_fold ts : forall o k,
  Js.own (fold_left accumulate ts o) k =
  match Js.own o k with
  | Some s =>
      Some (Slot.mk (fold_left (fun sum x => JsNum.add sum (amount x))
                               (filter (Spec.labelled k) ts) (Slot.value s))
                    (Slot.color s))
  | None =>
      if Js.inherited k then None
      else match find (Spec.labelled k) ts with
           | Some t => Some (Slot.mk (Spec.groupTotal k ts) (categoryColor t))
           | None => None
           end
  end.
Proof.
  induction ts as [|t ts IH]; intros o k.
  - simpl. destruct (Js.own o k) as [[v c]|]; [reflexivity|].
    now destruct (Js.inherited k).
  - simpl fold_left. rewrite IH, own_accumulate. simpl find. simpl filter.
    unfold Spec.groupTotal, Js.reduce_sum. simpl filter.
    destruct (Spec.labelled k t); [|reflexivity].
    destruct (Js.own o k) as [[v c]|]; [reflexivity|].
    destruct (Js.inherited k); reflexivity.
Qed.

End Accumulate.

(* ------------------------------------------------------------------ *)
(** ** [Object.keys] lists every own key once *)

Lemma insert_index_perm k ks : Permutation (Js.insert_index k ks) (k :: ks).
Proof.
  induction ks as [|k' ks IH]; simpl; [reflexivity|].
  destruct (Js.index_value k <=? Js.index_value k'); [reflexivity|].
  rewrite IH. apply perm_swap.
Qed.

Lemma sort_indices_perm ks : Permutation (Js.sort_indices ks) ks.
Proof.
  induction ks as [|k ks IH]; simpl; [reflexivity|].
  rewrite insert_index_perm. now constructor.
Qed.

Lemma filter_split_perm {A} (p : A -> bool) (l : list A) :
  Permutation (filter p l ++ filter (fun x => negb (p x)) l) l.
Proof.
  induction l as [|x l IH]; simpl; [reflexivity|].
  destruct (p x); simpl.
  - now constructor.
  - rewrite <- Permutation_middle. now constructor.
Qed.

Lemma keys_perm {V} (o : Js.object V) : Permutation (Js.keys o) (map fst o).
Proof.
  unfold Js.keys. rewrite sort_indices_perm. apply filter_split_perm.
Qed.

Lemma own_of_In {V} (o : Js.object V) k v :
  NoDup (map fst o) -> In (k, v) o -> Js.own o k = Some v.
Proof.
  induction o as [| [k0 v0] o IH]; simpl; [tauto|].
  intros Hnd [E|Hin].
  - inversion E; subst. now rewrite String.eqb_refl.
  - inversion Hnd as [|? ? Hnotin Hnd']; subst.
    destruct (String.eqb_spec k k0) as [->|Hne].
    + exfalso. apply Hnotin. now apply (in_map fst) in Hin.
    + now apply IH.
Qed.

Section PieData.
Import Supabase Reports Spec.
Implicit Types (o : Js.object Slot.t) (ts : list Transaction).

Lemma pieData_names o : map name (pieData o) = Js.keys o.
Proof.
  unfold pieData. rewrite map_map.
  rewrite <- (map_id (Js.keys o)) at 2.
  apply map_ext. intros k. now destruct (Js.own o k).
Qed.

Lemma pieData_perm o :
  NoDup (map fst o) ->
  Permutation (pieData o)
    (map (fun p => mkExpense (fst p) (Slot.value (snd p)) (Slot.color (snd p))) o).
Proof.
  intros Hnd. unfold pieData.
  rewrite (Permutation_map _ (keys_perm o)), map_map.
  erewrite map_ext_in; [reflexivity|].
  intros [k s] Hin. simpl. now rewrite (own_of_In _ _ _ Hnd Hin).
Qed.

Lemma NoDup_expenseByCategory ts : NoDup (map fst (expenseByCategory ts)).
Proof. apply NoDup_fold. constructor. Qed.

(** The groups of the breakdown, one by one. *)
Lemma In_categoryBreakdown ts g :
  In g (categoryBreakdown ts) <->
  Js.inherited (name g) = false
  /\ exists t, find (labelled (name g)) ts = Some t
               /\ g = mkExpense (name g) (groupTotal (name g) ts) (categoryColor t).
Proof.
  unfold categoryBreakdown, pieData. rewrite in_map_iff. split.
  - intros (k & <- & Hk).
    apply (Permutation_in _ (keys_perm _)) in Hk.
    unfold expenseByCategory in *.
    destruct (Js.own (fold_left accumulate ts []) k) as [s|] eqn:Ho.
    + rewrite own_fold in Ho. simpl in *.
      destruct (Js.inherited k); [discriminate|].
      destruct (find (labelled k) ts) as [t|]; [|discriminate].
      inversion Ho; subst. simpl. eauto.
    + apply own_None_notin in Ho. contradiction.
  - intros (Hi & t & Hf & ->). simpl in *.
    exists (name g). unfold expenseByCategory.
    assert (Ho : Js.own (fold_left accumulate ts []) (name g)
                 = Some (Slot.mk (groupTotal (name g) ts) (categoryColor t))).
    { rewrite own_fold. simpl. now rewrite Hi, Hf. }
    rewrite Ho. split; [reflexivity|].
    apply (Permutation_in _ (Permutation_sym (keys_perm _))).
    eapply own_In_fst; eassumption.
Qed.

Lemma NoDup_categoryBreakdown_names ts :
  NoDup (map name (categoryBreakdown ts)).
Proof.
  unfold categoryBreakdown. rewrite pieData_names.
  apply (Permutation_NoDup (Permutation_sym (keys_perm _))).
  apply NoDup_expenseByCategory.
Qed.

Lemma pieData_sum o :
  NoDup (map fst o) -> sumZ (map (asZ value) (pieData o)) = slotSum o.
Proof.
  intros Hnd. unfold slotSum.
  rewrite (sumZ_perm _ _ (Permutation_map (asZ value) (pieData_perm o Hnd))).
  now rewrite map_map.
Qed.

(** One [+=] on a slot, when nothing has to be rounded. *)
Lemma update_own_exact o k a s :
  Js.own o k = Some s ->
  slotsSafe o ->
  JsNum.isSafeInteger a = true ->
  slotMagnitude o + Z.abs (JsNum.toZ a) < 2 ^ 53 ->
  slotsSafe (Js.update_own o k (bump a))
  /\ slotMagnitude (Js.update_own o k (bump a))
     <= slotMagnitude o + Z.abs (JsNum.toZ a)
  /\ slotSum (Js.update_own o k (bump a)) = slotSum o + JsNum.toZ a.
Proof.
  unfold slotsSafe, slotMagnitude, slotSum.
  induction o as [| [k0 s0] o IH]; simpl; [discriminate|].
  intros Ho Hs Ha Hb. inversion Hs as [|? ? Hs0 Hso]; subst.
  pose proof (sum_abs_nonneg (fun p => Slot.value (snd p)) o) as Hn.
  change (sumZ (map (fun x => Z.abs (asZ (fun p => Slot.value (snd p)) x)) o))
    with (sumZ (map (fun p => Z.abs (slotZ p)) o)) in Hn.
  destruct (String.eqb k k0); simpl.
  - destruct (isSafeInteger_repr _ Hs0) as [E0 B0].
    destruct (isSafeInteger_repr _ Ha) as [Ea Ba].
    simpl in E0, B0. unfold slotZ in Hb at 1. simpl in Hb.
    assert (Hv : JsNum.add (Slot.value s0) a
                 = JsNum.repr (JsNum.toZ (Slot.value s0) + JsNum.toZ a)).
    { rewrite E0 at 1. rewrite Ea at 1. apply add_repr; lia. }
    assert (Hz : slotZ (k0, bump a s0)
                 = JsNum.toZ (Slot.value s0) + JsNum.toZ a).
    { unfold slotZ, bump. simpl. rewrite Hv. apply toZ_repr. lia. }
    split; [|split].
    + constructor; [|assumption]. simpl. rewrite Hv.
      rewrite <- of_Z_repr by lia. apply isSafeInteger_of_Z. lia.
    + rewrite Hz. change (slotZ (k0, s0)) with (JsNum.toZ (Slot.value s0)). lia.
    + rewrite Hz. change (slotZ (k0, s0)) with (JsNum.toZ (Slot.value s0)). lia.
  - unfold slotZ in Hb at 1. simpl in Hb.
    destruct (IH Ho Hso Ha) as (H1 & H2 & H3); [lia|].
    split; [|split].
    + now constructor.
    + lia.
    + lia.
Qed.

Lemma accumulate_exact o t :
  Js.inherited (categoryName t) = false ->
  slotsSafe o ->
  JsNum.isSafeInteger (amount t) = true ->
  slotMagnitude o + Z.abs (amountZ t) < 2 ^ 53 ->
  slotsSafe (accumulate o t)
  /\ slotMagnitude (accumulate o t) <= slotMagnitude o + Z.abs (amountZ t)
  /\ slotSum (accumulate o t) = slotSum o + amountZ t.
Proof.
  intros Hi Hs Ha Hb. unfold accumulate, Js.absent, Js.get.
  destruct (Js.own o (categoryName t)) as [s|] eqn:Ho.
  - exact (update_own_exact _ _ _ _ Ho Hs Ha Hb).
  - rewrite Hi, set_fresh by assumption.
    set (o' := o ++ [(categoryName t, Slot.mk JsNum.zero (categoryColor t))]).
    assert (Hn : Js.own o' (categoryName t)
                 = Some (Slot.mk JsNum.zero (categoryColor t))).
    { unfold o'. rewrite own_app, Ho. simpl. now rewrite String.eqb_refl. }
    assert (Hs' : slotsSafe o').
    { unfold o', slotsSafe. apply Forall_app. split; [exact Hs|].
      constructor; [reflexivity | constructor]. }
    assert (Hm : slotMagnitude o' = slotMagnitude o).
    { unfold o', slotMagnitude. rewrite map_app, sumZ_app. simpl. lia. }
    assert (Hsum : slotSum o' = slotSum o).
    { unfold o', slotSum. rewrite map_app, sumZ_app. simpl. lia. }
    destruct (update_own_exact o' _ (amount t) _ Hn Hs' Ha) as (H1 & H2 & H3).
    { rewrite Hm. exact Hb. }
    rewrite Hm in H2. rewrite Hsum in H3. now split; [|split].
Qed.

Lemma slotSum_fold ts : forall o,
  Forall (fun t => Js.inherited (categoryName t) = false) ts ->
  slotsSafe o ->
  Forall (fun t => JsNum.isSafeInteger (amount t) = true) ts ->
  slotMagnitude o + sumZ (map (fun t => Z.abs (amountZ t)) ts) < 2 ^ 53 ->
  slotSum (fold_left accumulate ts o) = slotSum o + sumZ (map amountZ ts).
Proof.
  induction ts as [|t ts IH]; intros o Hall Hs Ha Hb; simpl; [lia|].
  inversion Hall as [|? ? Ht Hts]; subst.
  inversion Ha as [|? ? Hat Hats]; subst. simpl in Hb.
  pose proof (sum_abs_nonneg amount ts) as Hn.
  change (sumZ (map (fun x => Z.abs (asZ amount x)) ts))
    with (sumZ (map (fun t => Z.abs (amountZ t)) ts)) in Hn.
  destruct (accumulate_exact o t Ht Hs Hat) as (H1 & H2 & H3); [lia|].
  rewrite (IH _ Hts H1 Hats); lia.
Qed.

(** X26: Grouping loses and duplicates nothing, as long as no label is the
    name of an inherited member of the accumulator object and no addition
    has to round: when the amounts are safe integers whose magnitudes add up
    to less than 2^53, the values of the groups add up to the sum of the
    amounts of the input. *)
Lemma categoryBreakdown_sum ts :
  Forall (fun t => Js.inherited (categoryName t) = false) ts ->
  exact amount ts ->
  sumZ (map (asZ value) (categoryBreakdown ts)) = sumZ (map amountZ ts).
Proof.
  intros Hall [Hs Hb]. unfold categoryBreakdown.
  rewrite pieData_sum by apply NoDup_expenseByCategory.
  unfold expenseByCategory.
  rewrite slotSum_fold; try assumption; [reflexivity | constructor].
Qed.

Lemma categoryBreakdown_sum_witness :
  Forall (fun t => Js.inherited (categoryName t) = false)
         [ Sample.expenseOf 300 Sample.food; Sample.expenseOf 100 None;
           Sample.expenseOf 50 Sample.food ]
  /\ exact amount
        [ Sample.expenseOf 300 Sample.food; Sample.expenseOf 100 None;
          Sample.expenseOf 50 Sample.food ]
  /\ sumZ (map (asZ value)
             (categoryBreakdown
                [ Sample.expenseOf 300 Sample.food; Sample.expenseOf 100 None;
                  Sample.expenseOf 50 Sample.food ]))
     = 450.
Proof.
  assert (Hi : Forall (fun t => Js.inherited (categoryName t) = false)
                 [ Sample.expenseOf 300 Sample.food; Sample.expenseOf 100 None;
                   Sample.expenseOf 50 Sample.food ]).
  { repeat constructor. }
  assert (Hex : exact amount
                  [ Sample.expenseOf 300 Sample.food; Sample.expenseOf 100 None;
                    Sample.expenseOf 50 Sample.food ]).
  { split; [|vm_compute; reflexivity].
    repeat (apply Forall_cons; [vm_compute; reflexivity|]). apply Forall_nil. }
  split; [exact Hi|]. split; [exact Hex|].
  rewrite (categoryBreakdown_sum _ Hi Hex). reflexivity.
Defined.

Lemma find_labelled_Some k ts t :
  find (labelled k) ts = Some t -> In t ts /\ categoryName t = k.
Proof.
  intros H. apply find_some in H. destruct H as [Hin Hl].
  split; [assumption|]. now apply String.eqb_eq.
Qed.

Lemma find_labelled_ex k ts t :
  In t ts -> categoryName t = k -> exists t', find (labelled k) ts = Some t'.
Proof.
  intros Hin Hk.
  destruct (find (labelled k) ts) as [t'|] eqn:Hf; [eauto|].
  exfalso. pose proof (find_none _ _ Hf _ Hin) as Hn.
  unfold labelled in Hn. rewrite Hk, String.eqb_refl in Hn. discriminate.
Qed.

End PieData.

(* ------------------------------------------------------------------ *)
(** ** The category breakdown *)

Section Breakdown.
Import Supabase Reports Spec.
Implicit Types (ts : list Transaction).

Lemma categoryColor_truthy t : Js.truthy (categoryColor t) = true.
Proof.
  unfold categoryColor, Js.or_string.
  destruct (categories t) as [[n [c|]]|]; simpl; try reflexivity.
  destruct (Js.truthy c) eqn:E; [assumption | reflexivity].
Qed.

Lemma cells_from_colors l : forall i,
  Forall (fun g => Js.truthy (color g) = true) l ->
  cells_from i l = map color l.
Proof.
  induction l as [|g l IH]; intros i Hall; simpl; [reflexivity|].
  inversion Hall as [|? ? Hg Hl]; subst.
  unfold cell_fill. rewrite Hg. f_equal. now apply IH.
Qed.

(** X11: The palette fallback of the cells never fires: every group leaves the
    accumulation with a colour of its own. *)
Lemma cells_are_group_colors ts :
  cells (categoryBreakdown ts) = map color (categoryBreakdown ts).
Proof.
  apply cells_from_colors. apply Forall_forall. intros g Hg.
  apply In_categoryBreakdown in Hg. destruct Hg as (_ & t & _ & ->).
  simpl. apply categoryColor_truthy.
Qed.

(** The label and the colour the code computes are the ones of the
    vocabulary. *)
Lemma categoryName_label t : categoryName t = label t.
Proof.
  unfold categoryName, label.
  destruct (categories t) as [[n c]|]; [|reflexivity].
  now destruct n.
Qed.

Lemma categoryColor_colourOf t : categoryColor t = colourOf t.
Proof.
  unfold categoryColor, colourOf.
  destruct (categories t) as [[n [c|]]|]; try reflexivity.
  now destruct c.
Qed.

Lemma labelled_filed k t : labelled k t = filed k t.
Proof. unfold labelled, filed. now rewrite categoryName_label. Qed.

Lemma groupTotal_filed k ts :
  groupTotal k ts = jsSum (map amount (filter (filed k) ts)).
Proof.
  unfold groupTotal. rewrite reduce_sum_jsSum.
  now rewrite (filter_ext _ _ (labelled_filed k)).
Qed.

Lemma groupTotal_exact k ts :
  exact amount ts ->
  groupTotal k ts = JsNum.of_Z (sumZ (map amountZ (filter (filed k) ts))).
Proof.
  intros H. unfold groupTotal.
  rewrite (filter_ext _ _ (labelled_filed k)).
  destruct (reduce_sum_exact amount _ (exact_filter amount (filed k) ts H))
    as [E B].
  rewrite E. symmetry. now apply of_Z_repr.
Qed.

Lemma sum_filter_perm (p : Transaction -> bool) ts ts' :
  Permutation ts ts' ->
  sumZ (map amountZ (filter p ts)) = sumZ (map amountZ (filter p ts')).
Proof.
  induction 1 as [|t l l' _ IH|t u l|l l' l'' _ IH1 _ IH2]; simpl.
  - reflexivity.
  - destruct (p t); simpl; lia.
  - destruct (p t), (p u); simpl; lia.
  - congruence.
Qed.

Lemma find_app_l {A} (p : A -> bool) l l' x :
  find p l = Some x -> find p (l ++ l') = Some x.
Proof.
  induction l as [|y l IH]; simpl; [discriminate|].
  destruct (p y); auto.
Qed.

Lemma singleton_of_constant {A} (l : list A) (a : A) :
  NoDup l -> l <> [] -> (forall x, In x l -> x = a) -> l = [a].
Proof.
  intros Hnd Hne Hall.
  destruct l as [|x [|y l]]; [contradiction | |].
  - now rewrite (Hall x (or_introl eq_refl)).
  - exfalso.
    assert (x = a) by (apply Hall; simpl; auto).
    assert (y = a) by (apply Hall; simpl; auto).
    subst. inversion Hnd as [|? ? Hn _]. apply Hn. simpl; auto.
Qed.

Lemma filter_all_In {A} (p : A -> bool) (l : list A) :
  (forall x, In x l -> p x = true) -> filter p l = l.
Proof.
  induction l as [|x l IH]; intros H; simpl; [reflexivity|].
  rewrite (H x (or_introl eq_refl)). f_equal. apply IH.
  intros y Hy. apply H. now right.
Qed.

Lemma find_pointwise {A} (p q : A -> bool) (l : list A) :
  (forall x, p x = q x) -> find p l = find q l.
Proof.
  intros H. induction l as [|x l IH]; simpl; [reflexivity|].
  now rewrite H, IH.
Qed.

(** The groups of the breakdown in the words of the vocabulary. *)
Lemma In_breakdown_filed ts g :
  In g (categoryBreakdown ts) <->
  Js.inherited (name g) = false
  /\ exists t, find (filed (name g)) ts = Some t
               /\ g = mkExpense (name g)
                        (jsSum (map amount (filter (filed (name g)) ts)))
                        (colourOf t).
Proof.
  rewrite In_categoryBreakdown.
  rewrite (find_pointwise _ _ ts (labelled_filed (name g))).
  rewrite groupTotal_filed.
  split; intros (Hi & t & Hf & Hg); (split; [exact Hi|]); exists t;
    (split; [exact Hf|]).
  - now rewrite <- categoryColor_colourOf.
  - now rewrite categoryColor_colourOf.
Qed.

Lemma find_filed_Some k ts t :
  find (filed k) ts = Some t -> In t ts /\ label t = k.
Proof.
  intros H. apply find_some in H. destruct H as [Hin Hl].
  split; [assumption|]. now apply String.eqb_eq.
Qed.

Lemma find_filed_ex k ts t :
  In t ts -> label t = k -> exists t', find (filed k) ts = Some t'.
Proof.
  intros Hin Hk.
  destruct (find (filed k) ts) as [t'|] eqn:Hf; [eauto|].
  exfalso. pose proof (find_none _ _ Hf _ Hin) as Hn.
  unfold filed in Hn. rewrite Hk, String.eqb_refl in Hn. discriminate.
Qed.

End Breakdown.

(* ------------------------------------------------------------------ *)
(** ** Claims on the category breakdown *)

Section BreakdownClaims.
Import Supabase Reports Spec Sample.

(** C3, at inputs that separate the claim from the code: one expense whose
    category has no colour, and one expense without a category. The claim
    gives the group the palette entry of its position, [COLORS[0]]; the cell
    is filled with '#8884d8', because the accumulation has already put that
    constant in [color] and [entry.color || COLORS[...]] keeps a non-empty
    [entry.color]. *)
Theorem default_colour_skips_palette :
  cells (categoryBreakdown [expenseOf 100 (Some (mkCategory "Food" None))])
    = ["#8884d8"]
  /\ cells (categoryBreakdown [expenseOf 100 None]) = ["#8884d8"]
  /\ nth (Nat.modulo 0 (List.length COLORS)) COLORS EmptyString = "#6366F1".
Proof. repeat split. Qed.

(** C4 as stated fails: an expense without a category is not filed under
    "Uncategorized"; the sentinel of the code is 'Lain-lain'. *)
Lemma uncategorized_sentinel_counterexample :
  categoryBreakdown [expenseOf 100 None]
    = [mkExpense "Lain-lain" (JsNum.of_Z 100) "#8884d8"]
  /\ ~ In "Uncategorized" (map name (categoryBreakdown [expenseOf 100 None])).
Proof.
  split; [reflexivity|].
  simpl. intros [H|[]]. discriminate.
Qed.

(** C4, amended: for every list of the month's expenses none of whose labels
    names an inherited member of the accumulator object, the breakdown has
    exactly one group per distinct label, the label of a transaction being
    the name of its category, and 'Lain-lain' when it has no category (or
    one with an empty name); each group's value is the sum of the amounts
    filed under its label, added in input order as JavaScript adds numbers,
    which is their exact sum when the amounts are safe integers whose
    magnitudes add up to less than 2^53; and when the list is not empty and
    every expense is linked to a category of one name, the breakdown is a
    single group, under that name, whose value is the sum of all amounts. *)
Theorem categoryBreakdown_groups (ts : list Transaction) :
  Forall (fun t => Js.inherited (label t) = false) ts ->
  NoDup (map name (categoryBreakdown ts))
  /\ (forall k, In k (map name (categoryBreakdown ts))
                <-> exists t, In t ts /\ label t = k)
  /\ (forall g, In g (categoryBreakdown ts) ->
        value g = jsSum (map amount (filter (filed (name g)) ts)))
  /\ (exact amount ts ->
      forall g, In g (categoryBreakdown ts) ->
        value g = JsNum.of_Z (sumZ (map amountZ (filter (filed (name g)) ts))))
  /\ (forall n, ts <> [] ->
        (forall t, In t ts ->
                   exists c, categories t = Some c /\ Supabase.name c = n) ->
        exists g, categoryBreakdown ts = [g]
                  /\ name g = match n with
                              | EmptyString => "Lain-lain"
                              | _ => n
                              end
                  /\ value g = jsSum (map amount ts)).
Proof.
  intros Hall.
  assert (Hnames : forall k, In k (map name (categoryBreakdown ts))
                             <-> exists t, In t ts /\ label t = k).
  { intros k. rewrite in_map_iff. split.
    - intros (g & <- & Hg). apply In_breakdown_filed in Hg.
      destruct Hg as (_ & t & Hf & _).
      apply find_filed_Some in Hf. now exists t.
    - intros (t & Hin & Hk).
      destruct (find_filed_ex k ts t Hin Hk) as [t' Hf].
      exists (mkExpense k (jsSum (map amount (filter (filed k) ts)))
                        (colourOf t')).
      split; [reflexivity|].
      apply In_breakdown_filed. simpl. split.
      + rewrite Forall_forall in Hall. rewrite <- Hk. now apply Hall.
      + now exists t'. }
  assert (Hvalue : forall g, In g (categoryBreakdown ts) ->
            value g = jsSum (map amount (filter (filed (name g)) ts))).
  { intros g Hg. apply In_breakdown_filed in Hg.
    destruct Hg as (_ & t & _ & Hg). rewrite Hg at 1. reflexivity. }
  split; [apply NoDup_categoryBreakdown_names|].
  split; [exact Hnames|].
  split; [exact Hvalue|].
  split.
  { intros Hex g Hg. rewrite (Hvalue g Hg), <- groupTotal_filed.
    now apply groupTotal_exact. }
  intros n Hne Hone.
  set (k := match n with EmptyString => "Lain-lain" | _ => n end).
  assert (Hlab : forall t, In t ts -> label t = k).
  { intros t Hin. destruct (Hone t Hin) as (c & Hc & Hn).
    unfold label, k. rewrite Hc, Hn. now destruct n. }
  assert (Hsingle : map name (categoryBreakdown ts) = [k]).
  { apply singleton_of_constant.
    - apply NoDup_categoryBreakdown_names.
    - destruct ts as [|t ts']; [contradiction|].
      intros Hnil.
      assert (Hin : In k (map name (categoryBreakdown (t :: ts')))).
      { apply Hnames. exists t. split; [now left | apply Hlab; now left]. }
      rewrite Hnil in Hin. contradiction.
    - intros x Hx. apply Hnames in Hx. destruct Hx as (t & Hin & <-).
      now apply Hlab. }
  destruct (categoryBreakdown ts) as [|g [|g' l]] eqn:Hb; try discriminate.
  exists g. simpl in Hsingle. inversion Hsingle as [Hk].
  split; [reflexivity|]. split; [reflexivity|].
  rewrite (Hvalue g (or_introl eq_refl)), Hk.
  f_equal. f_equal. apply filter_all_In.
  intros t Hin. unfold filed. rewrite (Hlab t Hin). apply String.eqb_refl.
Qed.

(** The scenario of the specification, with the sentinel of the code. *)
Lemma categoryBreakdown_groups_witness :
  Forall (fun t => Js.inherited (label t) = false)
         [ expenseOf 300 food; expenseOf 100 None ]
  /\ categoryBreakdown [ expenseOf 300 food; expenseOf 100 None ]
     = [ mkExpense "Food" (JsNum.of_Z 300) "#111111";
         mkExpense "Lain-lain" (JsNum.of_Z 100) "#8884d8" ]
  /\ NoDup (map name (categoryBreakdown [ expenseOf 300 food; expenseOf 100 None ])).
Proof.
  assert (H : Forall (fun t => Js.inherited (label t) = false)
                     [ expenseOf 300 food; expenseOf 100 None ]).
  { repeat constructor. }
  split; [exact H|]. split; [reflexivity|].
  exact (proj1 (categoryBreakdown_groups _ H)).
Defined.

(** C9, at the input that separates the claim from the code: one expense
    whose category is named "constructor". [expenseByCategory["constructor"]]
    reads the inherited [Object.prototype.constructor], which is truthy, so
    no group is created and the amount is added to a property of that
    function: the breakdown is empty and its values sum to 0, not to 100. *)
Theorem inherited_label_loses_amount :
  categoryBreakdown
    [ expenseOf 100 (Some (mkCategory "constructor" (Some "#111111"))) ] = []
  /\ sumZ (map (asZ value)
             (categoryBreakdown
                [ expenseOf 100 (Some (mkCategory "constructor" (Some "#111111"))) ]))
     = 0
  /\ sumZ (map amountZ
             [ expenseOf 100 (Some (mkCategory "constructor" (Some "#111111"))) ])
     = 100.
Proof. repeat split. Qed.

(** C10 as stated fails: a permutation of the input can change a total.
    Three expenses of 0.1, 0.2 and 0.3 under one category add up to
    0.6000000000000001 in that order and to 0.6 in the opposite order; three
    expenses of 2^53, 1 and 1 add up to 2^53 in that order and to 2^53 + 2
    in the opposite order. *)
Lemma permuted_total_counterexample :
  Permutation [ spend (tenths 1) food; spend (tenths 2) food;
                spend (tenths 3) food ]
              [ spend (tenths 3) food; spend (tenths 2) food;
                spend (tenths 1) food ]
  /\ map value (categoryBreakdown
                  [ spend (tenths 1) food; spend (tenths 2) food;
                    spend (tenths 3) food ])
     = [ S754_finite false 5404319552844596 (-53) ]
  /\ map value (categoryBreakdown
                  [ spend (tenths 3) food; spend (tenths 2) food;
                    spend (tenths 1) food ])
     = [ tenths 6 ]
  /\ tenths 6 = S754_finite false 5404319552844595 (-53)
  /\ Permutation [ expenseOf (2 ^ 53) food; expenseOf 1 food; expenseOf 1 food ]
                 [ expenseOf 1 food; expenseOf 1 food; expenseOf (2 ^ 53) food ]
  /\ map value (categoryBreakdown
                  [ expenseOf (2 ^ 53) food; expenseOf 1 food; expenseOf 1 food ])
     = [ JsNum.of_Z (2 ^ 53) ]
  /\ map value (categoryBreakdown
                  [ expenseOf 1 food; expenseOf 1 food; expenseOf (2 ^ 53) food ])
     = [ JsNum.of_Z (2 ^ 53 + 2) ]
  /\ JsNum.of_Z (2 ^ 53) <> JsNum.of_Z (2 ^ 53 + 2).
Proof.
  split; [apply Permutation_rev|].
  split; [vm_compute; reflexivity|].
  split; [vm_compute; reflexivity|].
  split; [vm_compute; reflexivity|].
  split; [apply Permutation_rev|].
  split; [vm_compute; reflexivity|].
  split; [vm_compute; reflexivity|].
  vm_compute. discriminate.
Qed.

(** C10, amended: the colour of a group is the colour of the first
    transaction filed under its label (that transaction's category colour
    when it has a non-empty one, '#8884d8' otherwise), whatever follows it
    in the input; a permutation of the input keeps every group, and keeps
    its value too when the amounts are safe integers whose magnitudes add up
    to less than 2^53; and a permutation can change a group's colour. *)
Theorem group_color_fixed_by_first (ts ts' : list Transaction) :
  Permutation ts ts' ->
  (forall g, In g (categoryBreakdown ts) ->
     exists t, find (filed (name g)) ts = Some t /\ color g = colourOf t)
  /\ (forall g later, In g (categoryBreakdown ts) ->
        exists g', In g' (categoryBreakdown (ts ++ later))
                   /\ name g' = name g /\ color g' = color g)
  /\ (forall g, In g (categoryBreakdown ts) ->
        exists g', In g' (categoryBreakdown ts')
                   /\ name g' = name g
                   /\ (exact amount ts -> value g' = value g))
  /\ (exists l l' k v c c',
        Permutation l l'
        /\ In (mkExpense k v c) (categoryBreakdown l)
        /\ In (mkExpense k v c') (categoryBreakdown l')
        /\ c <> c').
Proof.
  intros Hperm. split; [|split; [|split]].
  - intros g Hg. apply In_breakdown_filed in Hg.
    destruct Hg as (_ & t & Hf & Hg). exists t. split; [assumption|].
    rewrite Hg. reflexivity.
  - intros g later Hg. apply In_breakdown_filed in Hg.
    destruct Hg as (Hi & t & Hf & Hg).
    exists (mkExpense (name g)
              (jsSum (map amount (filter (filed (name g)) (ts ++ later))))
              (colourOf t)).
    split; [|split; [reflexivity | rewrite Hg; reflexivity]].
    apply In_breakdown_filed. simpl. split; [assumption|].
    exists t. split; [now apply find_app_l | reflexivity].
  - intros g Hg. apply In_breakdown_filed in Hg.
    destruct Hg as (Hi & t & Hf & Hg).
    apply find_filed_Some in Hf. destruct Hf as [Hin Hk].
    destruct (find_filed_ex (name g) ts' t (Permutation_in _ Hperm Hin) Hk)
      as [t' Hf'].
    exists (mkExpense (name g)
              (jsSum (map amount (filter (filed (name g)) ts')))
              (colourOf t')).
    split; [|split; [reflexivity|]].
    + apply In_breakdown_filed. simpl. split; [assumption|]. now exists t'.
    + intros Hex. rewrite Hg. simpl.
      rewrite <- !groupTotal_filed.
      rewrite (groupTotal_exact _ _ Hex).
      rewrite (groupTotal_exact _ _ (exact_perm amount _ _ Hperm Hex)).
      f_equal. symmetry. now apply sum_filter_perm.
  - exists [ expenseOf 1 food; expenseOf 2 (Some (mkCategory "Food" None)) ],
           [ expenseOf 2 (Some (mkCategory "Food" None)); expenseOf 1 food ],
           "Food", (JsNum.of_Z 3), "#111111", "#8884d8".
    split; [apply perm_swap|].
    split; [now left|]. split; [now left | discriminate].
Qed.

Lemma group_color_fixed_by_first_witness :
  Permutation [ expenseOf 1 food; expenseOf 2 None ]
              [ expenseOf 2 None; expenseOf 1 food ]
  /\ (forall g, In g (categoryBreakdown [ expenseOf 1 food; expenseOf 2 None ]) ->
        exists g', In g' (categoryBreakdown [ expenseOf 2 None; expenseOf 1 food ])
                   /\ name g' = name g
                   /\ (exact amount [ expenseOf 1 food; expenseOf 2 None ] ->
                       value g' = value g)).
Proof.
  assert (H : Permutation [ expenseOf 1 food; expenseOf 2 None ]
                          [ expenseOf 2 None; expenseOf 1 food ])
    by apply perm_swap.
  split; [exact H|].
  exact (proj1 (proj2 (proj2 (group_color_fixed_by_first _ _ H)))).
Defined.

End BreakdownClaims.

(* ------------------------------------------------------------------ *)
(** ** The two routines, run *)

Section Runs.
Import Supabase JsDate DateFns Eff Spec.
Context {store : Backend}.
Variables (zone : Zone) (uid : string).

(** A load of the dashboard reads the clock once, never throws and never
    logs. *)
Lemma fetchSummaryData_run (clk : Clock) (st : Dashboard.State) :
  run (Dashboard.fetchSummaryData zone uid) clk st =
  let transactions :=
    data (from_transactions
            [ eq_user_id uid; gte_transaction_date (summaryBound zone (clk 0%nat)) ]) in
  let total kind :=
    Js.or_zero
      (option_map (fun ts => Js.reduce_sum amount (filter (type_is kind) ts))
                  transactions) in
  (Return tt,
   mkWorld _ 1 []
     (Dashboard.mkState
        (Dashboard.mkSummary
           (total "income") (total "expense")
           (Js.or_zero (option_map (Js.reduce_sum balance)
                                   (data (from_bank_accounts [eq_user_id uid]))))
           (Js.or_zero (option_map (Js.reduce_sum current_value)
                                   (data (from_assets [eq_user_id uid])))))
        false)).
Proof. reflexivity. Qed.

(** A load of the report reads the clock thirteen times; it logs the error
    of the pie query, if any, and keeps the bars. *)
Lemma fetchReportData_run (clk : Clock) (st : Reports.State) :
  run (Reports.fetchReportData zone uid) clk st =
  let bars := map (barAt zone uid clk) (seq 0 6) in
  match error (pieResponse zone uid clk) with
  | Some e =>
      (Return tt,
       mkWorld _ 13 [PostgrestError e]
         (Reports.mkState bars (Reports.categoryData st) false))
  | None =>
      match data (pieResponse zone uid clk) with
      | None =>
          (Return tt,
           mkWorld _ 13 [TypeError "currentMonthTransactions is null"]
             (Reports.mkState bars (Reports.categoryData st) false))
      | Some ts =>
          (Return tt,
           mkWorld _ 13 []
             (Reports.mkState bars (Reports.categoryBreakdown ts) false))
      end
  end.
Proof.
  cbv -[subMonths Reports.monthQuery Reports.sumOf format_MMM_id toISOString
        startOfMonth Reports.categoryBreakdown from_transactions error data].
  destruct (error _) as [e|]; [reflexivity|].
  destruct (data _) as [ts|]; reflexivity.
Qed.

End Runs.

(* ------------------------------------------------------------------ *)
(** ** Months *)

Section Months.
Import JsDate DateFns Spec.

Lemma startOfMonth_same_month a b :
  same_month a b -> startOfMonth a = startOfMonth b.
Proof. intros [Hy Hm]. unfold startOfMonth. now rewrite Hy, Hm. Qed.

Lemma endOfMonth_same_month a b :
  same_month a b -> endOfMonth a = endOfMonth b.
Proof. intros [Hy Hm]. unfold endOfMonth. now rewrite Hy, Hm. Qed.

Lemma format_same_month a b :
  same_month a b -> format_MMM_id a = format_MMM_id b.
Proof. intros [_ Hm]. unfold format_MMM_id. now rewrite Hm. Qed.

(** [addMonths] lands in the month [amount] months away, whatever the day. *)
Lemma addMonths_month d amount :
  amount <> 0 ->
  getFullYear (addMonths d amount) = (month_index d + amount) / 12
  /\ getMonth (addMonths d amount) = (month_index d + amount) mod 12.
Proof.
  intros Hne. unfold addMonths.
  destruct (Z.eqb_spec amount 0); [contradiction|].
  destruct (_ <=? _); simpl; split; reflexivity.
Qed.

Lemma subMonths_same_month a b i :
  same_month a b -> same_month (subMonths a i) (subMonths b i).
Proof.
  intros H. unfold subMonths.
  destruct (Z.eq_dec (- i) 0) as [E|E].
  - unfold addMonths. rewrite E. exact H.
  - destruct (addMonths_month a (- i) E) as [Ha1 Ha2].
    destruct (addMonths_month b (- i) E) as [Hb1 Hb2].
    destruct H as [Hy Hm]. unfold same_month, month_index in *.
    rewrite Ha1, Ha2, Hb1, Hb2, Hy, Hm. split; reflexivity.
Qed.

Lemma month_index_div y m : 0 <= m <= 11 -> (y * 12 + m) / 12 = y.
Proof.
  intros H. rewrite Z.add_comm, Z.div_add by lia.
  rewrite Z.div_small by lia. reflexivity.
Qed.

Lemma month_index_mod y m : 0 <= m <= 11 -> (y * 12 + m) mod 12 = m.
Proof.
  intros H. rewrite Z.add_comm, Z.mod_add by lia.
  apply Z.mod_small. lia.
Qed.

(** Going back [i] months from a well-formed date reaches calendar month
    [month_index now - i]. *)
Lemma subMonths_firstOfMonth now i :
  0 <= getMonth now <= 11 ->
  same_month (subMonths now i) (firstOfMonth (month_index now - i)).
Proof.
  intros Hm. unfold subMonths.
  destruct (Z.eq_dec (- i) 0) as [E|E].
  - unfold addMonths. rewrite E. simpl.
    assert (i = 0) as -> by lia. rewrite Z.sub_0_r.
    unfold same_month, firstOfMonth, month_index. simpl.
    now rewrite month_index_div, month_index_mod.
  - destruct (addMonths_month now (- i) E) as [H1 H2].
    unfold same_month, firstOfMonth. simpl.
    rewrite H1, H2, Z.add_opp_r. split; reflexivity.
Qed.

Lemma format_firstOfMonth k : format_MMM_id (firstOfMonth k) = monthLabel k.
Proof. reflexivity. Qed.

End Months.

(* ------------------------------------------------------------------ *)
(** ** Queries against a snapshot *)

Section Snapshot.
Import Supabase JsDate DateFns Eff Spec.
Variables (col : ColumnType) (txs : list Transaction).

Lemma calendar_ltb_or_eqb a b :
  Calendar.ltb a b || Calendar.eqb a b = Calendar.leb a b.
Proof.
  unfold Calendar.ltb, Calendar.eqb, Calendar.leb.
  apply Bool.eq_iff_eq_true.
  rewrite !orb_true_iff, !andb_true_iff, !orb_true_iff, !andb_true_iff,
          negb_true_iff, !andb_false_iff, !Z.ltb_lt, !Z.leb_le, !Z.eqb_eq,
          !Z.eqb_neq.
  lia.
Qed.

(** Against a bound at midnight, and against any bound from above, the two
    column types agree. *)
Lemma bound_leb_midnight v d :
  time_of v = 0 -> bound_leb col v d = Calendar.leb (isoDate v) d.
Proof.
  intros H. destruct col; [reflexivity|]. simpl.
  rewrite H. simpl. rewrite andb_true_r. apply calendar_ltb_or_eqb.
Qed.

Lemma leb_bound_day d v :
  0 <= time_of v -> leb_bound col d v = Calendar.leb d (isoDate v).
Proof.
  intros H. destruct col; [reflexivity|]. simpl.
  replace (0 <=? time_of v) with true by (symmetry; now apply Z.leb_le).
  rewrite andb_true_r. apply calendar_ltb_or_eqb.
Qed.

Lemma filter_filter_comm {A} (p q : A -> bool) l :
  filter p (filter q l) = filter q (filter p l).
Proof.
  induction l as [|x l IH]; simpl; [reflexivity|].
  destruct (p x) eqn:Hp, (q x) eqn:Hq; simpl; rewrite ?Hp, ?Hq, IH; reflexivity.
Qed.

Lemma filter_absorb {A} (p q : A -> bool) l :
  (forall x, p x = true -> q x = true) ->
  filter p (filter q l) = filter p l.
Proof.
  intros Himp. induction l as [|x l IH]; simpl; [reflexivity|].
  destruct (q x) eqn:Hq; simpl.
  - now rewrite IH.
  - rewrite IH. destruct (p x) eqn:Hp; [|reflexivity].
    rewrite (Himp x Hp) in Hq. discriminate.
Qed.

Lemma filter_and {A} (p q : A -> bool) l :
  filter p (filter q l) = filter (fun x => q x && p x) l.
Proof.
  induction l as [|x l IH]; simpl; [reflexivity|].
  destruct (q x); simpl; [|assumption].
  destruct (p x); now rewrite IH.
Qed.

Lemma known_of_income t : type_is "income" t = true -> known_kind t = true.
Proof. unfold known_kind. now intros ->. Qed.

Lemma known_of_expense t : type_is "expense" t = true -> known_kind t = true.
Proof. unfold known_kind. intros ->. apply orb_true_r. Qed.

(** A row the store lets through [eq('type', k)] has kind [k]. *)
Lemma select_known fs :
  (forall t, type_is "income" t = true \/ type_is "expense" t = true
             \/ forallb (fun f => matches col f t) fs = false \/ known_kind t = true) ->
  select col fs (filter known_kind txs) = select col fs txs.
Proof.
  intros H. unfold select. rewrite filter_filter_comm.
  induction txs as [|t l IH]; simpl; [reflexivity|].
  destruct (forallb _ fs) eqn:Hf; simpl; [|assumption].
  destruct (H t) as [Hi|[He|[Hn|Hk]]].
  - now rewrite (known_of_income _ Hi), IH.
  - now rewrite (known_of_expense _ He), IH.
  - congruence.
  - now rewrite Hk, IH.
Qed.

Lemma filter_kind_select kind fs :
  (forall t, type_is kind t = true -> known_kind t = true) ->
  filter (type_is kind) (select col fs (filter known_kind txs))
  = filter (type_is kind) (select col fs txs).
Proof.
  intros H. unfold select.
  induction txs as [|t l IH]; simpl; [reflexivity|].
  destruct (known_kind t) eqn:Hk; simpl.
  - destruct (forallb _ fs); simpl; [|assumption].
    destruct (type_is kind t); now rewrite IH.
  - rewrite IH. destruct (forallb _ fs); simpl; [|reflexivity].
    destruct (type_is kind t) eqn:Ht; [|reflexivity].
    rewrite (H t Ht) in Hk. discriminate.
Qed.

Lemma owner_filter_eq u uid :
  owner_filter [eq_user_id uid] u = String.eqb u uid.
Proof. unfold owner_filter. simpl. apply andb_true_r. Qed.

End Snapshot.

(* ------------------------------------------------------------------ *)
(** ** Claims on the six-month series *)

Section SeriesClaims.
Import Supabase JsDate DateFns Eff Spec.

Lemma monthQuery_same_month {store : Backend} zone uid a b :
  same_month a b -> Reports.monthQuery zone uid a = Reports.monthQuery zone uid b.
Proof.
  intros H. unfold Reports.monthQuery.
  now rewrite (startOfMonth_same_month _ _ H), (endOfMonth_same_month _ _ H).
Qed.

Lemma barAt_same_month {store : Backend} zone uid clk clk' j :
  (forall n, same_month (clk n) (clk' n)) ->
  barAt zone uid clk j = barAt zone uid clk' j.
Proof.
  intros H. unfold barAt.
  rewrite (monthQuery_same_month zone uid _ _ (subMonths_same_month _ _ _ (H j))).
  rewrite (format_same_month _ _ (subMonths_same_month _ _ _ (H (6 + j)%nat))).
  reflexivity.
Qed.

(** With the clock standing at [now], the j-th bar is the bar of the
    calendar month [5 - j] months before the month of [now]. *)
Lemma barAt_now {store : Backend} zone uid now j :
  0 <= getMonth now <= 11 ->
  barAt zone uid (at_ now) j = barOf zone uid (month_index now - (5 - Z.of_nat j)).
Proof.
  intros Hm. unfold barAt, barOf, monthBatch, at_.
  pose proof (subMonths_firstOfMonth now (5 - Z.of_nat j) Hm) as H.
  rewrite (monthQuery_same_month zone uid _ _ H), (format_same_month _ _ H).
  now rewrite format_firstOfMonth.
Qed.

Lemma report_bars {store : Backend} zone uid (clk : Clock)
      (st : Reports.State) :
  Reports.monthlyData
    (state (snd (run (Reports.fetchReportData zone uid) clk st)))
  = map (barAt zone uid clk) (seq 0 6).
Proof.
  rewrite fetchReportData_run. cbv zeta.
  destruct (error _); [reflexivity|].
  destruct (data _); reflexivity.
Qed.

Lemma monthlyData_reportAt {store : Backend} zone uid now :
  Reports.monthlyData (reportAt zone uid now)
  = map (barAt zone uid (at_ now)) (seq 0 6).
Proof. apply report_bars. Qed.

Lemma sumOf_no_rows kind (r : Response Transaction) :
  rows r = [] -> Reports.sumOf kind r = JsNum.zero.
Proof.
  unfold rows, Reports.sumOf.
  destruct (data r) as [l|]; [|reflexivity].
  intros ->. reflexivity.
Qed.

Lemma monthlyData_bars {store : Backend} zone uid now :
  0 <= getMonth now <= 11 ->
  Reports.monthlyData (reportAt zone uid now)
  = map (barOf zone uid) (coveredMonths now).
Proof.
  intros Hm. rewrite monthlyData_reportAt. unfold coveredMonths. simpl.
  rewrite !(barAt_now zone uid now _ Hm). reflexivity.
Qed.

(** The bars of a load all of whose readings of the clock fall in the month
    of [now]. *)
Lemma bars_within_month {store : Backend} zone uid clk now st :
  0 <= getMonth now <= 11 ->
  within_month clk now ->
  Reports.monthlyData
    (state (snd (run (Reports.fetchReportData zone uid) clk st)))
  = map (barOf zone uid) (coveredMonths now).
Proof.
  intros Hm Hw. rewrite report_bars.
  rewrite (map_ext _ _ (fun j => barAt_same_month zone uid clk (at_ now) j Hw)).
  rewrite <- monthlyData_reportAt. now apply monthlyData_bars.
Qed.

(** X25: for every store, every zone and every load whose readings of the
    clock all fall in the calendar month of [now], the series has exactly
    six bars, the bars of the calendar months [now - 5], ..., [now] in that
    order (oldest first, whatever the values), each under the abbreviated
    Indonesian name of its month; a month for whose query the store returns
    no rows still has its bar, with income 0 and expense 0. *)
Theorem trailing_series_six_months {store : Backend} zone uid clk now st :
  0 <= getMonth now <= 11 ->
  within_month clk now ->
  let k := month_index now in
  let bars :=
    Reports.monthlyData
      (state (snd (run (Reports.fetchReportData zone uid) clk st))) in
  bars = map (barOf zone uid) (coveredMonths now)
  /\ List.length bars = 6%nat
  /\ coveredMonths now = [k - 5; k - 4; k - 3; k - 2; k - 1; k]
  /\ map Reports.month bars = map monthLabel (coveredMonths now)
  /\ (forall m, rows (monthBatch zone uid m) = [] ->
                barOf zone uid m
                = Reports.mkMonthly (monthLabel m) JsNum.zero JsNum.zero).
Proof.
  intros Hm Hw k bars.
  pose proof (bars_within_month zone uid clk now st Hm Hw) as Hbars.
  fold bars in Hbars.
  split; [exact Hbars|].
  split; [rewrite Hbars; reflexivity|].
  split; [unfold coveredMonths, k; simpl; now rewrite Z.sub_0_r|].
  split; [rewrite Hbars, map_map; reflexivity|].
  intros m Hr. unfold barOf.
  now rewrite !(sumOf_no_rows _ _ Hr).
Qed.

Lemma within_month_at now : within_month (at_ now) now.
Proof. intros n. split; reflexivity. Qed.

Lemma trailing_series_six_months_witness :
  0 <= getMonth Sample.mid_may <= 11
  /\ within_month (at_ Sample.mid_may) Sample.mid_may
  /\ map Reports.month
       (Reports.monthlyData
          (state (snd (run (Reports.fetchReportData
                              (store := tableBackend DateColumn Sample.scenario [] [])
                              Sample.london "u1")
                           (at_ Sample.mid_may) Reports.initial))))
     = map monthLabel (coveredMonths Sample.mid_may).
Proof.
  assert (H : 0 <= getMonth Sample.mid_may <= 11) by (simpl; lia).
  split; [exact H|]. split; [exact (within_month_at Sample.mid_may)|].
  exact (proj1 (proj2 (proj2 (proj2
           (trailing_series_six_months
              (store := tableBackend DateColumn Sample.scenario [] [])
              Sample.london "u1" (at_ Sample.mid_may) Sample.mid_may
              Reports.initial H (within_month_at Sample.mid_may)))))).
Defined.

(** The series of the specification's scenario (with N = 6). *)
Example trailing_series_scenario col :
  Reports.monthlyData
    (reportAt (store := tableBackend col Sample.scenario [] [])
              Sample.utc "u1" Sample.mid_may)
  = [ Sample.bar "Des" 0 0; Sample.bar "Jan" 0 0; Sample.bar "Feb" 0 0;
      Sample.bar "Mar" 0 0; Sample.bar "Apr" 0 200; Sample.bar "Mei" 1000 400 ].
Proof. destruct col; vm_compute; reflexivity. Qed.

(** C6, at an input that separates the claim from the code. A runtime in
    Asia/Jakarta (UTC+7), a date column, a load on 15 May 2024 and one
    income of 200 dated 30 April 2024: May is a covered month with no
    transaction, and its bar shows an income of 200 where the claim gives
    0. The lower bound of the query of May is the local midnight of 1 May
    written in UTC, 2024-04-30T17:00Z, so the window of May opens on
    30 April. *)
Theorem empty_month_shown_with_income :
  filter (in_month (month_index Sample.mid_may)) Sample.aprilEnd = []
  /\ In (month_index Sample.mid_may) (coveredMonths Sample.mid_may)
  /\ nth 5 (Reports.monthlyData
              (reportAt (store := tableBackend DateColumn Sample.aprilEnd [] [])
                        Sample.jakarta "u1" Sample.mid_may))
         (Sample.bar EmptyString 0 0)
     = Sample.bar "Mei" 200 0
  /\ isoDate (toISOString Sample.jakarta (startOfMonth Sample.mid_may))
     = Calendar.mkDate 2024 4 30.
Proof.
  split; [reflexivity|].
  split; [vm_compute; auto 10|].
  split; vm_compute; reflexivity.
Qed.

End SeriesClaims.

(* ------------------------------------------------------------------ *)
(** ** Claims on the dashboard totals *)

Section DashboardClaims.
Import Supabase JsDate DateFns Eff Spec Sample.

(** What the dashboard adds up over a snapshot: the user's transactions of
    the kind dated on or after the bound, in the order of the table;
    nothing bounds them from above. *)
Lemma dashboard_totals col txs accounts assets zone uid now :
  let d := dashboardAt (store := tableBackend col txs accounts assets)
                       zone uid now in
  let lo := isoDate (summaryBound zone now) in
  Dashboard.totalIncome d
  = orZero (jsSum (map amount (filter (since uid "income" lo) txs)))
  /\ Dashboard.totalExpense d
     = orZero (jsSum (map amount (filter (since uid "expense" lo) txs))).
Proof.
  unfold dashboardAt. rewrite fetchSummaryData_run. on_snapshot.
  rewrite !reduce_sum_jsSum. unfold select, at_, orZero.
  rewrite !filter_and. unfold since, owned.
  split; (f_equal; f_equal; f_equal; f_equal; apply filter_ext; intros t;
          cbn [forallb matches];
          rewrite (bound_leb_midnight col (summaryBound zone now) _ eq_refl);
          now rewrite andb_true_r).
Qed.

(** The first scenario of the specification. *)
Example monthly_totals_scenario col :
  dashboardAt (store := tableBackend col scenario [] []) utc "u1" mid_may
  = figures 1000 400 0 0.
Proof. destruct col; vm_compute; reflexivity. Qed.

(** C1, at inputs that separate the claim from the code. The scenario plus
    an income of 500 dated 10 June 2024, loaded on 15 May 2024: the income of
    the calendar month of [now] is 1000, the dashboard shows 1500, since its
    query bounds [transaction_date] from below only. And in a runtime on
    UTC+7 an income dated 30 April 2024 is in the totals of May, the bound
    being the UTC date of the local midnight of 1 May. *)
Theorem later_month_counted_in_totals col :
  Dashboard.totalIncome
    (dashboardAt
       (store := tableBackend col (tx "income" 500 2024 6 10 :: scenario) [] [])
       utc "u1" mid_may) = JsNum.of_Z 1500
  /\ monthTotal "u1" "income" (month_index mid_may)
                (tx "income" 500 2024 6 10 :: scenario) = 1000
  /\ Dashboard.totalIncome
       (dashboardAt (store := tableBackend col aprilEnd [] [])
                    jakarta "u1" mid_may) = JsNum.of_Z 200
  /\ monthTotal "u1" "income" (month_index mid_may) aprilEnd = 0.
Proof. destruct col; repeat split; vm_compute; reflexivity. Qed.

(** C8 as stated fails where an addition has to round: over accounts
    holding 2^53, 1 and 1 the bank total shown is 2^53, the sum of the
    balances is 2^53 + 2 (itself a number). *)
Lemma rounded_total_counterexample :
  Dashboard.totalBankBalance
    (dashboardAt (store := tableBackend DateColumn [] largeAccounts [])
                 utc "u1" mid_may) = JsNum.of_Z (2 ^ 53)
  /\ map (asZ balance) largeAccounts = [2 ^ 53; 1; 1]
  /\ sumZ (map (asZ balance) largeAccounts) = 2 ^ 53 + 2
  /\ JsNum.toZ (JsNum.of_Z (2 ^ 53 + 2)) = 2 ^ 53 + 2
  /\ JsNum.of_Z (2 ^ 53) <> JsNum.of_Z (2 ^ 53 + 2).
Proof.
  repeat split; try (vm_compute; reflexivity).
  vm_compute. discriminate.
Qed.

(** C8, amended: the two point-in-time totals are what JavaScript's [+]
    gives when the [balance] of the user's bank accounts, and the
    [current_value] of the user's assets, are added from 0 in the order of
    the store's answer, every addition rounded, whatever the clock reads
    and whatever the dates; they are the exact sums when the values are
    safe integers whose magnitudes add up to less than 2^53. An empty list
    of accounts gives a bank total of 0, an empty list of assets an asset
    total of 0; over empty tables every aggregate is well-defined and
    signals nothing: the dashboard totals are all 0, the series is six bars
    of zeros, the breakdown is empty. *)
Theorem point_in_time_totals col txs accounts assets zone uid clk st st' :
  (let s := Dashboard.summary
              (state (snd (run (Dashboard.fetchSummaryData
                                  (store := tableBackend col txs accounts assets)
                                  zone uid) clk st))) in
   let mine := filter (fun a => String.eqb (account_user_id a) uid) accounts in
   let held := filter (fun a => String.eqb (asset_user_id a) uid) assets in
   Dashboard.totalBankBalance s = orZero (jsSum (map balance mine))
   /\ Dashboard.totalAssets s = orZero (jsSum (map current_value held))
   /\ (exact balance mine ->
       Dashboard.totalBankBalance s
       = JsNum.of_Z (sumZ (map (asZ balance) mine)))
   /\ (exact current_value held ->
       Dashboard.totalAssets s
       = JsNum.of_Z (sumZ (map (asZ current_value) held))))
  /\ Dashboard.totalBankBalance
       (Dashboard.summary
          (state (snd (run (Dashboard.fetchSummaryData
                              (store := tableBackend col txs [] assets) zone uid)
                           clk st)))) = JsNum.zero
  /\ Dashboard.totalAssets
       (Dashboard.summary
          (state (snd (run (Dashboard.fetchSummaryData
                              (store := tableBackend col txs accounts []) zone uid)
                           clk st)))) = JsNum.zero
  /\ (let r := run (Dashboard.fetchSummaryData (store := emptyStore) zone uid)
                   clk st in
      Dashboard.summary (state (snd r)) = figures 0 0 0 0
      /\ ~ signalled r)
  /\ (let r := run (Reports.fetchReportData (store := emptyStore) zone uid)
                   clk st' in
      map Reports.income (Reports.monthlyData (state (snd r)))
      = map JsNum.of_Z [0; 0; 0; 0; 0; 0]
      /\ map Reports.expense (Reports.monthlyData (state (snd r)))
         = map JsNum.of_Z [0; 0; 0; 0; 0; 0]
      /\ Reports.categoryData (state (snd r)) = []
      /\ ~ signalled r)
  /\ Reports.categoryBreakdown [] = [].
Proof.
  split; [|split; [|split; [|split; [|split]]]].
  - cbv zeta. rewrite fetchSummaryData_run. on_snapshot.
    rewrite !(filter_ext _ _ (fun a => owner_filter_eq (account_user_id a) uid)).
    rewrite !(filter_ext _ _ (fun a => owner_filter_eq (asset_user_id a) uid)).
    split; [now rewrite reduce_sum_jsSum|].
    split; [now rewrite reduce_sum_jsSum|].
    split; intros Hex; rewrite (total_exact _ _ Hex); symmetry;
      apply of_Z_repr; now destruct (reduce_sum_exact _ _ Hex).
  - rewrite fetchSummaryData_run. reflexivity.
  - rewrite fetchSummaryData_run. reflexivity.
  - rewrite fetchSummaryData_run. on_snapshot.
    split; [reflexivity|].
    intros [[e He]|Hc]; [discriminate He | now apply Hc].
  - rewrite fetchReportData_run. unfold pieResponse. on_snapshot.
    repeat split; try reflexivity.
    intros [[e He]|Hc]; [discriminate He | now apply Hc].
  - reflexivity.
Qed.

Lemma exact_holdings :
  exact balance (filter (fun a => String.eqb (account_user_id a) "u1") holdings).
Proof.
  split; [|vm_compute; reflexivity].
  repeat (apply Forall_cons; [vm_compute; reflexivity|]). apply Forall_nil.
Qed.

Lemma point_in_time_totals_witness :
  exact balance (filter (fun a => String.eqb (account_user_id a) "u1") holdings)
  /\ Dashboard.totalBankBalance
       (Dashboard.summary
          (state (snd (run (Dashboard.fetchSummaryData
                              (store := tableBackend DateColumn scenario
                                          holdings belongings)
                              london "u1") (at_ mid_may) Dashboard.initial))))
     = JsNum.of_Z 800.
Proof.
  split; [exact exact_holdings|].
  exact (proj1 (proj2 (proj2 (proj1
           (point_in_time_totals DateColumn scenario holdings belongings
              london "u1" (at_ mid_may) Dashboard.initial Reports.initial))))
           exact_holdings).
Defined.

End DashboardClaims.

(* ------------------------------------------------------------------ *)
(** ** Claims on rows of an unknown kind *)

Section KindClaims.
Import Supabase JsDate DateFns Eff Spec Sample.

Lemma barAt_known col txs accounts assets zone uid clk j :
  barAt (store := tableBackend col txs accounts assets) zone uid clk j
  = barAt (store := tableBackend col (filter known_kind txs) accounts assets)
          zone uid clk j.
Proof.
  unfold barAt, Reports.monthQuery, Reports.sumOf. on_snapshot.
  rewrite (filter_kind_select col txs "income") by apply known_of_income.
  rewrite (filter_kind_select col txs "expense") by apply known_of_expense.
  reflexivity.
Qed.

Lemma expenses_known col txs uid b :
  select col [eq_user_id uid; eq_type "expense"; gte_transaction_date b]
         (filter known_kind txs)
  = select col [eq_user_id uid; eq_type "expense"; gte_transaction_date b] txs.
Proof.
  apply select_known. intros t.
  destruct (type_is "expense" t) eqn:He; [tauto|].
  right. right. left. cbn [forallb matches].
  change (match type t with
          | Some k => (k =? "expense")%string
          | None => false
          end) with (type_is "expense" t).
  rewrite He. now rewrite andb_false_r.
Qed.

Lemma not_signalled_return {C} (w : World C) :
  console w = [] -> ~ signalled (Return tt, w).
Proof.
  intros Hc [[e He]|Hn]; [discriminate He | now apply Hn].
Qed.

(** C2 as stated fails: a row of kind "transfer" and a row without a kind
    are taken in without any error, thrown or logged, by the dashboard and
    by the report; they are left out of both totals. *)
Lemma unknown_kind_counterexample :
  ~ signalled (run (Dashboard.fetchSummaryData
                      (store := tableBackend DateColumn oddKinds [] []) utc "u1")
                   (at_ mid_may) Dashboard.initial)
  /\ dashboardAt (store := tableBackend DateColumn oddKinds [] []) utc "u1" mid_may
     = figures 0 0 0 0
  /\ ~ signalled (run (Reports.fetchReportData
                         (store := tableBackend DateColumn oddKinds [] []) utc "u1")
                      (at_ mid_may) Reports.initial).
Proof.
  split; [|split].
  - rewrite fetchSummaryData_run. on_snapshot.
    apply not_signalled_return. reflexivity.
  - reflexivity.
  - rewrite fetchReportData_run. unfold pieResponse. on_snapshot.
    apply not_signalled_return. reflexivity.
Qed.

(** C2, amended: over any snapshot, at any clock, neither routine signals an
    error, and a load gives what it gives over the snapshot without the rows
    whose kind is missing or outside {income, expense}: such rows are left
    out of every total. *)
Theorem unknown_kinds_left_out col txs accounts assets zone uid clk st st' :
  run (Dashboard.fetchSummaryData
         (store := tableBackend col txs accounts assets) zone uid) clk st
  = run (Dashboard.fetchSummaryData
           (store := tableBackend col (filter known_kind txs) accounts assets)
           zone uid) clk st
  /\ ~ signalled (run (Dashboard.fetchSummaryData
                         (store := tableBackend col txs accounts assets) zone uid)
                      clk st)
  /\ run (Reports.fetchReportData
            (store := tableBackend col txs accounts assets) zone uid) clk st'
     = run (Reports.fetchReportData
              (store := tableBackend col (filter known_kind txs) accounts assets)
              zone uid) clk st'
  /\ ~ signalled (run (Reports.fetchReportData
                         (store := tableBackend col txs accounts assets) zone uid)
                      clk st').
Proof.
  split; [|split; [|split]].
  - rewrite !fetchSummaryData_run. on_snapshot.
    rewrite (filter_kind_select col txs "income") by apply known_of_income.
    rewrite (filter_kind_select col txs "expense") by apply known_of_expense.
    reflexivity.
  - rewrite fetchSummaryData_run. on_snapshot.
    apply not_signalled_return. reflexivity.
  - rewrite !fetchReportData_run. unfold pieResponse. on_snapshot.
    rewrite expenses_known.
    rewrite (map_ext _ _ (barAt_known col txs accounts assets zone uid clk)).
    reflexivity.
  - rewrite fetchReportData_run. unfold pieResponse. on_snapshot.
    apply not_signalled_return. reflexivity.
Qed.

End KindClaims.

(* ------------------------------------------------------------------ *)
(** ** Claims on the clock *)

Section ClockClaims.
Import Supabase JsDate DateFns Eff Spec Sample.

Lemma summaryBound_same_month zone a b :
  same_month a b -> summaryBound zone a = summaryBound zone b.
Proof.
  intros [Hy Hm]. unfold summaryBound, setHours_0, setDate_1. simpl.
  now rewrite Hy, Hm.
Qed.

(** C5 as stated fails: no routine takes [now] as a parameter, each reads
    the clock where it needs a date. Two loads over the same (empty) store
    whose first reading is the same instant, 31 May 2024 23:59:59.999, give
    different bars when the clock of one passes midnight before the labels
    are made. *)
Lemma implicit_clock_counterexample :
  at_ end_of_may 0%nat = over_midnight 0%nat
  /\ map Reports.month
         (Reports.monthlyData
            (state (snd (run (Reports.fetchReportData (store := emptyStore)
                                utc "u1") (at_ end_of_may) Reports.initial))))
     = [ "Des"; "Jan"; "Feb"; "Mar"; "Apr"; "Mei" ]
  /\ map Reports.month
         (Reports.monthlyData
            (state (snd (run (Reports.fetchReportData (store := emptyStore)
                                utc "u1") over_midnight Reports.initial))))
     = [ "Jan"; "Feb"; "Mar"; "Apr"; "Mei"; "Jun" ]
  /\ run (Reports.fetchReportData (store := emptyStore) utc "u1")
         (at_ end_of_may) Reports.initial
     <> run (Reports.fetchReportData (store := emptyStore) utc "u1")
            over_midnight Reports.initial.
Proof.
  split; [reflexivity|].
  rewrite !fetchReportData_run. unfold pieResponse. on_snapshot.
  split; [reflexivity|]. split; [reflexivity|].
  intros H. apply (f_equal (fun r => Reports.monthlyData (state (snd r)))) in H.
  vm_compute in H. discriminate H.
Qed.

(** C5, amended: the date-scoped routines take no [now]; they read the
    clock (the dashboard once, the report thirteen times). Two loads over
    the same store give identical results whenever their readings fall,
    one by one, in the same local calendar month; the two point-in-time
    totals are the same under any two clocks. *)
Theorem loads_agree_within_month {store : Backend} zone uid clk clk' st st' :
  (forall n, same_month (clk n) (clk' n)) ->
  run (Dashboard.fetchSummaryData zone uid) clk st
  = run (Dashboard.fetchSummaryData zone uid) clk' st
  /\ run (Reports.fetchReportData zone uid) clk st'
     = run (Reports.fetchReportData zone uid) clk' st'
  /\ (forall c c',
        let s := Dashboard.summary
                   (state (snd (run (Dashboard.fetchSummaryData zone uid) c st))) in
        let s' := Dashboard.summary
                    (state (snd (run (Dashboard.fetchSummaryData zone uid) c' st))) in
        Dashboard.totalBankBalance s = Dashboard.totalBankBalance s'
        /\ Dashboard.totalAssets s = Dashboard.totalAssets s').
Proof.
  intros H. split; [|split].
  - rewrite !fetchSummaryData_run.
    now rewrite (summaryBound_same_month zone _ _ (H 0%nat)).
  - rewrite !fetchReportData_run. unfold pieResponse.
    rewrite (startOfMonth_same_month _ _ (H 12%nat)).
    rewrite (map_ext _ _ (fun j => barAt_same_month zone uid clk clk' j H)).
    reflexivity.
  - intros c c'. rewrite !fetchSummaryData_run. split; reflexivity.
Qed.

Lemma loads_agree_within_month_witness :
  (forall n, same_month (at_ mid_may n) (at_ late_may n))
  /\ run (Reports.fetchReportData
            (store := tableBackend DateColumn scenario [] []) jakarta "u1")
         (at_ mid_may) Reports.initial
     = run (Reports.fetchReportData
              (store := tableBackend DateColumn scenario [] []) jakarta "u1")
           (at_ late_may) Reports.initial.
Proof.
  assert (H : forall n, same_month (at_ mid_may n) (at_ late_may n)).
  { intros n. split; reflexivity. }
  split; [exact H|].
  exact (proj1 (proj2 (loads_agree_within_month
                         (store := tableBackend DateColumn scenario [] [])
                         jakarta "u1" (at_ mid_may) (at_ late_may)
                         Dashboard.initial Reports.initial H))).
Defined.

(** C7, at inputs that separate the claim from the code. The bounds of a
    month are its first and last local instants written in UTC.
    With a date column and a runtime in Asia/Jakarta (UTC+7), a load on
    15 May 2024 and one income of 200 dated 30 April 2024: the window of May
    opens on 30 April while that of April still closes on it, the income is
    in both bars, and the bars sum to 400 where the covered months hold 200.
    With a runtime in Bogota (UTC-5) and incomes of 200 on 1 December
    2023 and of 300 on 1 January 2024, the covered months hold 500 and the
    bars sum to 800 over a date column (1 January is in two bars) and to 300
    over a timestamp column (1 December is in none). *)
Theorem boundary_day_in_two_bars :
  map Reports.income
      (Reports.monthlyData
         (reportAt (store := tableBackend DateColumn aprilEnd [] [])
                   jakarta "u1" mid_may))
    = map JsNum.of_Z [0; 0; 0; 0; 200; 200]
  /\ coveredTotal "u1" "income" (coveredMonths mid_may) aprilEnd = 200
  /\ map Reports.income
         (Reports.monthlyData
            (reportAt (store := tableBackend DateColumn firstDays [] [])
                      bogota "u1" mid_may))
     = map JsNum.of_Z [500; 300; 0; 0; 0; 0]
  /\ map Reports.income
         (Reports.monthlyData
            (reportAt (store := tableBackend TimestampColumn firstDays [] [])
                      bogota "u1" mid_may))
     = map JsNum.of_Z [300; 0; 0; 0; 0; 0]
  /\ coveredTotal "u1" "income" (coveredMonths mid_may) firstDays = 500.
Proof. repeat split; vm_compute; reflexivity. Qed.

End ClockClaims.

(* ------------------------------------------------------------------ *)
(** ** The series in a runtime on UTC

    On UTC the window of a month is the month: the six bars add up to the
    total of the six covered months, each transaction counted once: a day
    counted in two bars comes from the zone alone. *)

Section SeriesOnUtc.
Import Supabase JsDate DateFns Eff Spec.

Lemma month_window (y m : Z) (d : Calendar.date) :
  0 <= m <= 11 -> Calendar.valid d ->
  Calendar.leb (Calendar.mkDate y (m + 1) 1) d
  && Calendar.leb d (Calendar.mkDate y (m + 1) (Calendar.days_in_month y (m + 1)))
  = (Calendar.month_index d =? y * 12 + m).
Proof.
  intros Hm [Hmonth Hday]. unfold Calendar.leb, Calendar.month_index. simpl.
  apply Bool.eq_iff_eq_true.
  rewrite !andb_true_iff, !orb_true_iff, !andb_true_iff, !orb_true_iff,
          !andb_true_iff, !Z.ltb_lt, !Z.eqb_eq, !Z.leb_le.
  destruct (Z.eq_dec (Calendar.year d) y) as [Ey|Ny];
    [destruct (Z.eq_dec (Calendar.month d) (m + 1)) as [Em|Nm]|].
  - rewrite Ey, Em in Hday. lia.
  - lia.
  - lia.
Qed.

Lemma sumOf_monthBatch_utc col txs accounts assets uid kind k :
  Forall (fun t => Calendar.valid (transaction_date t)) txs ->
  Reports.sumOf kind
    (monthBatch (store := tableBackend col txs accounts assets)
                Sample.utc uid k)
  = Terms.monthSum uid kind k txs.
Proof.
  intros Hv. unfold monthBatch, Reports.monthQuery, Reports.sumOf. on_snapshot.
  rewrite reduce_sum_jsSum. unfold select, Terms.monthSum, orZero.
  rewrite filter_and. f_equal. f_equal. f_equal. f_equal.
  apply filter_ext_in. intros t Hin.
  rewrite Forall_forall in Hv. specialize (Hv t Hin).
  cbn [forallb matches]. rewrite andb_true_r.
  rewrite (bound_leb_midnight col
             (toISOString Sample.utc (startOfMonth (firstOfMonth k))) _ eq_refl).
  rewrite (leb_bound_day col _
             (toISOString Sample.utc (endOfMonth (firstOfMonth k))))
    by (cbv; discriminate).
  unfold owned, in_month.
  assert (Hk : 0 <= k mod 12 <= 11) by (pose proof (Z.mod_pos_bound k 12); lia).
  pose proof (month_window (k / 12) (k mod 12) (transaction_date t) Hk Hv) as W.
  replace (k / 12 * 12 + k mod 12) with k in W
    by (pose proof (Z.div_mod k 12); lia).
  change (isoDate (toISOString Sample.utc (startOfMonth (firstOfMonth k))))
    with (Calendar.mkDate (k / 12) (k mod 12 + 1) 1).
  change (isoDate (toISOString Sample.utc (endOfMonth (firstOfMonth k))))
    with (Calendar.mkDate (k / 12) (k mod 12 + 1)
            (Calendar.days_in_month (k / 12) (k mod 12 + 1))).
  rewrite W.
  destruct (user_id t =? uid)%string, (type_is kind t),
    (Calendar.month_index (transaction_date t) =? k); reflexivity.
Qed.

Lemma sum_disjoint_or {A} (f : A -> Z) (p a b : A -> bool) l :
  (forall x, a x = true -> b x = false) ->
  sumZ (map f (filter (fun x => p x && (a x || b x)) l))
  = sumZ (map f (filter (fun x => p x && a x) l))
    + sumZ (map f (filter (fun x => p x && b x) l)).
Proof.
  intros Hd. induction l as [|x l IH]; simpl; [reflexivity|].
  destruct (p x); simpl; [|exact IH].
  destruct (a x) eqn:Ha; simpl.
  - rewrite (Hd x Ha). simpl. lia.
  - destruct (b x); simpl; lia.
Qed.

Lemma sum_over_months (p : Transaction -> bool) txs ks :
  NoDup ks ->
  sumZ (map (fun k => sumZ (map amountZ
                              (filter (fun t => p t && in_month k t) txs))) ks)
  = sumZ (map amountZ
            (filter (fun t => p t && existsb (fun k => in_month k t) ks) txs)).
Proof.
  induction 1 as [|k ks Hk Hnd IH]; simpl.
  - induction txs as [|t l IHl]; simpl; [reflexivity|].
    now rewrite andb_false_r.
  - rewrite IH. symmetry. apply sum_disjoint_or.
    intros t Ht. apply Z.eqb_eq in Ht.
    destruct (existsb _ ks) eqn:E; [|reflexivity].
    apply existsb_exists in E. destruct E as (k' & Hin & Hk').
    apply Z.eqb_eq in Hk'. exfalso. apply Hk. congruence.
Qed.

Lemma NoDup_coveredMonths now : NoDup (coveredMonths now).
Proof.
  unfold coveredMonths. simpl.
  repeat (constructor; [simpl; intuition lia|]). constructor.
Qed.

(** A total of some of the user's rows is exact when the user's amounts
    are. *)
Lemma user_total_exact (p : Transaction -> bool) uid txs :
  (forall t, p t = true -> owned uid t = true) ->
  Terms.exactFor uid txs ->
  orZero (jsSum (map amount (filter p txs)))
  = JsNum.of_Z (sumZ (map amountZ (filter p txs)))
  /\ JsNum.toZ (orZero (jsSum (map amount (filter p txs))))
     = sumZ (map amountZ (filter p txs)).
Proof.
  intros Hp Hex.
  assert (H : exact amount (filter p txs)).
  { rewrite <- (filter_absorb p (owned uid) txs Hp).
    now apply exact_filter. }
  destruct (reduce_sum_exact amount _ H) as [E B].
  unfold orZero. rewrite <- reduce_sum_jsSum, (total_exact amount _ H).
  fold amountZ. split.
  - symmetry. now apply of_Z_repr.
  - now apply toZ_repr.
Qed.

Lemma monthSum_exact uid kind k txs :
  Terms.exactFor uid txs ->
  JsNum.toZ (Terms.monthSum uid kind k txs) = monthTotal uid kind k txs.
Proof.
  intros Hex. unfold Terms.monthSum, monthTotal.
  apply (user_total_exact _ uid); [|exact Hex].
  intros t Ht. apply andb_true_iff in Ht. destruct Ht as [Ht _].
  apply andb_true_iff in Ht. tauto.
Qed.

(** The six month totals add up to the total of the covered months. *)
Lemma monthSums_add_up uid kind now txs :
  Terms.exactFor uid txs ->
  sumZ (map JsNum.toZ
          (map (fun k => Terms.monthSum uid kind k txs) (coveredMonths now)))
  = coveredTotal uid kind (coveredMonths now) txs.
Proof.
  intros Hex. rewrite map_map.
  rewrite (map_ext _ _ (fun k => monthSum_exact uid kind k txs Hex)).
  unfold monthTotal, coveredTotal.
  apply sum_over_months. apply NoDup_coveredMonths.
Qed.

(** X10: On UTC, for either type of the date column, over well-formed
    dates and in a load whose readings of the clock all fall in the month
    of [now], each bar is the total of its calendar month as JavaScript
    adds it up; and when the user's amounts are safe integers whose
    magnitudes add up to less than 2^53, the bars sum to the totals of the
    six covered calendar months: nothing counted twice, nothing missed. *)
Lemma series_sum_utc col txs accounts assets uid clk now st :
  0 <= getMonth now <= 11 ->
  within_month clk now ->
  Forall (fun t => Calendar.valid (transaction_date t)) txs ->
  let bars :=
    Reports.monthlyData
      (state (snd (run (Reports.fetchReportData
                          (store := tableBackend col txs accounts assets)
                          Sample.utc uid) clk st))) in
  map Reports.income bars
  = map (fun k => Terms.monthSum uid "income" k txs) (coveredMonths now)
  /\ map Reports.expense bars
     = map (fun k => Terms.monthSum uid "expense" k txs) (coveredMonths now)
  /\ (Terms.exactFor uid txs ->
      sumZ (map (asZ Reports.income) bars)
      = coveredTotal uid "income" (coveredMonths now) txs
      /\ sumZ (map (asZ Reports.expense) bars)
         = coveredTotal uid "expense" (coveredMonths now) txs).
Proof.
  intros Hm Hw Hv bars.
  assert (Hi : map Reports.income bars
               = map (fun k => Terms.monthSum uid "income" k txs)
                     (coveredMonths now)).
  { unfold bars. rewrite (bars_within_month _ _ _ _ _ Hm Hw), map_map.
    unfold barOf. cbn [Reports.income]. apply map_ext. intros k.
    now apply sumOf_monthBatch_utc. }
  assert (He : map Reports.expense bars
               = map (fun k => Terms.monthSum uid "expense" k txs)
                     (coveredMonths now)).
  { unfold bars. rewrite (bars_within_month _ _ _ _ _ Hm Hw), map_map.
    unfold barOf. cbn [Reports.expense]. apply map_ext. intros k.
    now apply sumOf_monthBatch_utc. }
  split; [exact Hi|]. split; [exact He|].
  intros Hex.
  change (map (asZ Reports.income) bars)
    with (map (fun b => JsNum.toZ (Reports.income b)) bars).
  change (map (asZ Reports.expense) bars)
    with (map (fun b => JsNum.toZ (Reports.expense b)) bars).
  rewrite <- (map_map Reports.income JsNum.toZ),
          <- (map_map Reports.expense JsNum.toZ), Hi, He.
  split; now apply monthSums_add_up.
Qed.

End SeriesOnUtc.

(* ------------------------------------------------------------------ *)
(** ** The dashboard beyond its totals *)

Section DashboardMore.
Import Supabase JsDate DateFns Eff Spec Terms Sample.


Lemma income_not_expense t :
  type_is "income" t = true -> type_is "expense" t = false.
Proof.
  unfold type_is. destruct (type t) as [s|]; [|discriminate].
  intros H. apply String.eqb_eq in H. now subst s.
Qed.

Lemma signed_split (p : Transaction -> bool) txs :
  sumZ (map amountZ (filter (fun t => p t && type_is "income" t) txs))
  - sumZ (map amountZ (filter (fun t => p t && type_is "expense" t) txs))
  = sumZ (map signed (filter p txs)).
Proof.
  induction txs as [|t l IH]; simpl; [reflexivity|].
  destruct (p t); simpl; [|exact IH].
  unfold signed at 1.
  destruct (type_is "income" t) eqn:Hi.
  - rewrite (income_not_expense t Hi). simpl. lia.
  - destruct (type_is "expense" t); simpl; lia.
Qed.

Lemma split_bound (p : Transaction -> bool) txs :
  Z.abs (sumZ (map amountZ (filter (fun t => p t && type_is "income" t) txs)))
  + Z.abs (sumZ (map amountZ
                   (filter (fun t => p t && type_is "expense" t) txs)))
  <= sumZ (map (fun t => Z.abs (amountZ t)) (filter p txs)).
Proof.
  induction txs as [|t l IH]; simpl; [lia|].
  destruct (p t); simpl; [|exact IH].
  destruct (type_is "income" t) eqn:Hi.
  - rewrite (income_not_expense t Hi). simpl. lia.
  - destruct (type_is "expense" t); simpl; lia.
Qed.

Lemma net_exact (p : Transaction -> bool) uid txs :
  (forall t, p t = true -> owned uid t = true) ->
  exactFor uid txs ->
  JsNum.sub
    (orZero (jsSum (map amount
                      (filter (fun t => p t && type_is "income" t) txs))))
    (orZero (jsSum (map amount
                      (filter (fun t => p t && type_is "expense" t) txs))))
  = JsNum.of_Z (sumZ (map signed (filter p txs))).
Proof.
  intros Hp Hex.
  assert (Hk : forall kind t,
            p t && type_is kind t = true -> owned uid t = true).
  { intros kind t Ht. apply andb_true_iff in Ht. apply Hp. tauto. }
  rewrite (proj1 (user_total_exact _ uid txs (Hk "income") Hex)).
  rewrite (proj1 (user_total_exact _ uid txs (Hk "expense") Hex)).
  pose proof (split_bound p txs) as Hb.
  assert (Hm : sumZ (map (fun t => Z.abs (amountZ t)) (filter p txs)) < 2 ^ 53).
  { rewrite <- (filter_absorb p (owned uid) txs Hp).
    pose proof (sum_abs_filter amount p (filter (owned uid) txs)) as Hf.
    destruct Hex as [_ Hex]. unfold amountZ. lia. }
  rewrite <- signed_split.
  rewrite !of_Z_repr by lia. apply sub_repr; lia.
Qed.

(** X1: When the amounts of the user's transactions are safe integers whose
    magnitudes add up to less than 2^53, the figure of the card
    "Net Balance" is the signed sum of the amounts of the user's
    transactions dated on or after the bound of the load: [+ amount] for an
    income, [- amount] for an expense, nothing for a row of another kind. *)
Theorem net_balance_signed_sum col txs accounts assets zone uid now :
  exactFor uid txs ->
  DashboardView.netBalance
    (dashboardAt (store := tableBackend col txs accounts assets) zone uid now)
  = JsNum.of_Z
      (sumZ (map signed
               (filter (fun t => owned uid t
                                 && Calendar.leb (isoDate (summaryBound zone now))
                                                 (transaction_date t))
                       txs))).
Proof.
  intros Hex. unfold DashboardView.netBalance.
  destruct (dashboard_totals col txs accounts assets zone uid now) as [Hi He].
  cbv zeta in Hi, He. rewrite Hi, He. unfold since.
  apply (net_exact
           (fun t => owned uid t
                     && Calendar.leb (isoDate (summaryBound zone now))
                                     (transaction_date t))
           uid txs);
    [|exact Hex].
  intros t Ht. apply andb_true_iff in Ht. tauto.
Qed.

Lemma exact_scenario : exactFor "u1" scenario.
Proof.
  split; [|vm_compute; reflexivity].
  repeat (apply Forall_cons; [vm_compute; reflexivity|]). apply Forall_nil.
Qed.

Lemma net_balance_signed_sum_witness :
  exactFor "u1" scenario
  /\ DashboardView.netBalance
       (dashboardAt (store := tableBackend DateColumn scenario [] [])
                    london "u1" mid_may)
     = JsNum.of_Z 600.
Proof.
  split; [exact exact_scenario|].
  exact (net_balance_signed_sum DateColumn scenario [] [] london "u1" mid_may
           exact_scenario).
Defined.

(** X2: Whatever the store answers, a load of the dashboard returns normally,
    logs nothing, reads the clock once and ends with [loading] false; a
    query that comes back without data counts for 0 in its total. *)
Theorem dashboard_load_swallows_failures {store : Backend} zone uid clk st :
  let r := run (Dashboard.fetchSummaryData zone uid) clk st in
  let s := Dashboard.summary (state (snd r)) in
  fst r = Return tt
  /\ console (snd r) = []
  /\ reads (snd r) = 1%nat
  /\ Dashboard.loading (state (snd r)) = false
  /\ (data (from_transactions
              [ eq_user_id uid;
                gte_transaction_date (summaryBound zone (clk 0%nat)) ]) = None ->
      Dashboard.totalIncome s = JsNum.zero
      /\ Dashboard.totalExpense s = JsNum.zero)
  /\ (data (from_bank_accounts [eq_user_id uid]) = None ->
      Dashboard.totalBankBalance s = JsNum.zero)
  /\ (data (from_assets [eq_user_id uid]) = None ->
      Dashboard.totalAssets s = JsNum.zero).
Proof.
  rewrite fetchSummaryData_run. on_snapshot. cbn [reads Dashboard.loading].
  split; [reflexivity|]. split; [reflexivity|]. split; [reflexivity|].
  split; [reflexivity|]. split; [|split].
  - intros Hd. rewrite Hd. split; reflexivity.
  - intros Hd. rewrite Hd. reflexivity.
  - intros Hd. rewrite Hd. reflexivity.
Qed.

End DashboardMore.

(* ------------------------------------------------------------------ *)
(** ** The report when a query fails *)

Section ReportFailures.
Import Supabase JsDate DateFns Eff Spec Terms Sample.
Context {store : Backend}.
Variables (zone : Zone) (uid : string).


(** X4: When the pie query fails, the load keeps going to its end: the bars
    are set, the breakdown shown before stays as it was, the error is
    logged once and not thrown, [loading] ends false. *)
Theorem failed_pie_query_keeps_old_breakdown (clk : Clock) (st : Reports.State)
        (e : string) :
  error (pieResponse zone uid clk) = Some e ->
  run (Reports.fetchReportData zone uid) clk st
  = (Return tt,
     mkWorld _ 13 [PostgrestError e]
       (Reports.mkState (map (barAt zone uid clk) (seq 0 6))
                        (Reports.categoryData st) false)).
Proof.
  intros He. rewrite fetchReportData_run. cbv zeta. now rewrite He.
Qed.

End ReportFailures.

Section ReportFailureCases.
Import Supabase JsDate DateFns Eff Spec Terms Sample Cases.


Lemma failed_pie_query_keeps_old_breakdown_witness :
  error (pieResponse (store := downStore) jakarta "u1" (at_ mid_may))
  = Some "Failed to fetch"
  /\ Reports.categoryData
       (state (snd (run (Reports.fetchReportData (store := downStore)
                           jakarta "u1")
                        (at_ mid_may)
                        (Reports.mkState [] [Reports.mkExpense "Food" (JsNum.of_Z 300) "#111111"]
                                         true))))
     = [Reports.mkExpense "Food" (JsNum.of_Z 300) "#111111"].
Proof.
  split; [reflexivity|].
  rewrite (failed_pie_query_keeps_old_breakdown
             (store := downStore) jakarta "u1" (at_ mid_may)
             (Reports.mkState [] [Reports.mkExpense "Food" (JsNum.of_Z 300) "#111111"] true)
             "Failed to fetch" eq_refl).
  reflexivity.
Defined.

End ReportFailureCases.

(* ------------------------------------------------------------------ *)
(** ** The order of the groups *)

Section BreakdownOrder.
Import Supabase Reports Spec Terms Cases.

Lemma existsb_fst_own (o : Js.object Slot.t) k :
  existsb (String.eqb k) (map fst o)
  = match Js.own o k with Some _ => true | None => false end.
Proof.
  induction o as [| [k' v] o IH]; simpl; [reflexivity|].
  destruct (String.eqb k k'); [reflexivity | exact IH].
Qed.

Lemma firsts_ext l : forall s s',
  (forall x, existsb (String.eqb x) s = existsb (String.eqb x) s') ->
  firsts s l = firsts s' l.
Proof.
  induction l as [|k l IH]; intros s s' H; simpl; [reflexivity|].
  rewrite <- (H k). destruct (existsb (String.eqb k) s).
  - now apply IH.
  - f_equal. apply IH. intros x. simpl. now rewrite H.
Qed.

Lemma existsb_snoc (s : list string) k x :
  existsb (String.eqb x) (s ++ [k]) = existsb (String.eqb x) (k :: s).
Proof.
  rewrite existsb_app. simpl. rewrite orb_false_r. apply orb_comm.
Qed.

(** The own keys of the accumulator, in creation order: the labels that can
    be own keys, each at its first occurrence. *)
Lemma fst_fold ts : forall o,
  map fst (fold_left accumulate ts o)
  = map fst o ++ firsts (map fst o) (labels ts).
Proof.
  induction ts as [|t ts IH]; intros o.
  - simpl. now rewrite app_nil_r.
  - simpl fold_left. rewrite IH, fst_accumulate.
    unfold labels. simpl map. simpl filter. unfold Js.get.
    fold (labels ts).
    destruct (Js.own o (categoryName t)) as [s|] eqn:Ho.
    + destruct (Js.inherited (categoryName t)); simpl; [reflexivity|].
      now rewrite existsb_fst_own, Ho.
    + destruct (Js.inherited (categoryName t)); simpl; [reflexivity|].
      rewrite existsb_fst_own, Ho, <- app_assoc. simpl. f_equal. f_equal.
      apply firsts_ext. intros x. apply existsb_snoc.
Qed.

Lemma HdRel_insert_index k a l :
  index_le a k -> HdRel index_le a l -> HdRel index_le a (Js.insert_index k l).
Proof.
  intros Hak Hl. destruct l as [|b l]; simpl.
  - now constructor.
  - destruct (Js.index_value k <=? Js.index_value b); constructor;
      [assumption | now inversion Hl].
Qed.

Lemma Sorted_insert_index k l :
  Sorted index_le l -> Sorted index_le (Js.insert_index k l).
Proof.
  induction 1 as [|a l Hs IH Hhd]; simpl.
  - repeat constructor.
  - destruct (Z.leb_spec (Js.index_value k) (Js.index_value a)) as [Hle|Hgt].
    + constructor; [now constructor|]. now constructor.
    + constructor; [exact IH|].
      apply HdRel_insert_index; [|assumption].
      unfold index_le. lia.
Qed.

Lemma Sorted_sort_indices l : Sorted index_le (Js.sort_indices l).
Proof.
  induction l as [|k l IH]; simpl; [constructor|].
  now apply Sorted_insert_index.
Qed.

Lemma filter_all {A} (p : A -> bool) l :
  Forall (fun x => p x = true) l -> filter p l = l.
Proof.
  induction 1 as [|x l Hx _ IH]; simpl; [reflexivity|].
  now rewrite Hx, IH.
Qed.

Lemma filter_none {A} (p : A -> bool) l :
  Forall (fun x => p x = false) l -> filter p l = [].
Proof.
  induction 1 as [|x l Hx _ IH]; simpl; [reflexivity|].
  now rewrite Hx.
Qed.

(** X5: The groups come out in the order of [Object.keys]: first the labels
    that are array indices ("7", "2024"), in ascending numeric order, then
    the other labels in the order of their first transaction in the input.
    When no label is an array index, the order of the groups is the order
    of first occurrence. *)
Theorem breakdown_order (ts : list Transaction) :
  let F := firsts [] (labels ts) in
  map name (categoryBreakdown ts)
  = Js.sort_indices (filter Js.is_array_index F)
    ++ filter (fun k => negb (Js.is_array_index k)) F
  /\ Sorted index_le (Js.sort_indices (filter Js.is_array_index F))
  /\ Permutation (Js.sort_indices (filter Js.is_array_index F))
                 (filter Js.is_array_index F)
  /\ (Forall (fun k => Js.is_array_index k = false) F ->
      map name (categoryBreakdown ts) = F).
Proof.
  intros F.
  assert (Hn : map name (categoryBreakdown ts)
               = Js.sort_indices (filter Js.is_array_index F)
                 ++ filter (fun k => negb (Js.is_array_index k)) F).
  { unfold categoryBreakdown. rewrite pieData_names. unfold Js.keys.
    unfold expenseByCategory. rewrite fst_fold. reflexivity. }
  split; [exact Hn|]. split; [apply Sorted_sort_indices|].
  split; [apply sort_indices_perm|].
  intros Hall. rewrite Hn.
  rewrite (filter_none _ _ Hall). simpl.
  apply filter_all. eapply Forall_impl; [|exact Hall].
  intros k Hk. simpl in Hk. now rewrite Hk.
Qed.

(** Two inputs, run. *)
Example breakdown_order_cases :
  map name (categoryBreakdown mixedLabels) = ["7"; "2024"; "Food"; "Lain-lain"]
  /\ map name (categoryBreakdown plainLabels) = ["Rent"; "Food"; "Lain-lain"].
Proof. split; reflexivity. Qed.

End BreakdownOrder.

(* ------------------------------------------------------------------ *)
(** ** Month bounds and the zone of the runtime *)

Section Zones.
Import Supabase JsDate DateFns Eff Spec Terms Sample.

Lemma toISOString_at zone d tz :
  zone d = tz ->
  toISOString zone d
  = (let ms := msOfDay d - tz * 60000 in
     if ms <? 0
     then mkIso (Calendar.prev_day (local_date d)) (Some (ms + day_ms))
     else if day_ms <=? ms
          then mkIso (Calendar.next_day (local_date d)) (Some (ms - day_ms))
          else mkIso (local_date d) (Some ms)).
Proof. intros <-. reflexivity. Qed.

(** The date part of [startOfMonth(d).toISOString()]. *)
Lemma month_start_utc_date zone d :
  -1440 < zone (startOfMonth d) ->
  isoDate (toISOString zone (startOfMonth d))
  = if 0 <? zone (startOfMonth d) then Calendar.prev_day (firstOfThisMonth d)
    else firstOfThisMonth d.
Proof.
  intros Htz. rewrite (toISOString_at zone _ _ eq_refl).
  generalize dependent (zone (startOfMonth d)). intros tz Htz.
  unfold startOfMonth, day_ms. cbv zeta. cbn [msOfDay].
  destruct (Z.ltb_spec 0 tz) as [Hpos|Hneg].
  - replace (0 - tz * 60000 <? 0) with true
      by (symmetry; apply Z.ltb_lt; lia).
    reflexivity.
  - replace (0 - tz * 60000 <? 0) with false
      by (symmetry; apply Z.ltb_ge; lia).
    replace (86400000 <=? 0 - tz * 60000) with false
      by (symmetry; apply Z.leb_gt; lia).
    reflexivity.
Qed.

(** Its time of day, on UTC or east of it. *)
Lemma month_start_utc_time zone d :
  0 <= zone (startOfMonth d) < 1440 ->
  time_of (toISOString zone (startOfMonth d))
  = if zone (startOfMonth d) =? 0 then 0
    else 86400000 - zone (startOfMonth d) * 60000.
Proof.
  intros Htz. rewrite (toISOString_at zone _ _ eq_refl).
  generalize dependent (zone (startOfMonth d)). intros tz Htz.
  unfold startOfMonth, day_ms, time_of. cbv zeta. cbn [msOfDay].
  destruct (Z.eqb_spec tz 0) as [->|Hne].
  - reflexivity.
  - replace (0 - tz * 60000 <? 0) with true
      by (symmetry; apply Z.ltb_lt; lia).
    cbn [isoTime]. lia.
Qed.

(** The date part of [endOfMonth(d).toISOString()], and its time of day. *)
Lemma month_end_utc_date zone d :
  zone (endOfMonth d) < 1440 ->
  let last := Calendar.mkDate (getFullYear d) (getMonth d + 1)
                (Calendar.days_in_month (getFullYear d) (getMonth d + 1)) in
  isoDate (toISOString zone (endOfMonth d))
  = (if zone (endOfMonth d) <? 0 then Calendar.next_day last else last)
  /\ 0 <= time_of (toISOString zone (endOfMonth d)).
Proof.
  intros Htz last. rewrite (toISOString_at zone _ _ eq_refl).
  generalize dependent (zone (endOfMonth d)). intros tz Htz.
  unfold endOfMonth, day_ms, end_of_day_ms, time_of. cbv zeta.
  cbn [msOfDay].
  replace (86399999 - tz * 60000 <? 0) with false
    by (symmetry; apply Z.ltb_ge; lia).
  destruct (Z.ltb_spec tz 0) as [Hneg|Hpos].
  - replace (86400000 <=? 86399999 - tz * 60000) with true
      by (symmetry; apply Z.leb_le; lia).
    cbn [isoDate isoTime]. split; [reflexivity | lia].
  - replace (86400000 <=? 86399999 - tz * 60000) with false
      by (symmetry; apply Z.leb_gt; lia).
    cbn [isoDate isoTime]. split; [reflexivity | lia].
Qed.

Lemma prev_day_first y m :
  0 <= m <= 11 ->
  Calendar.prev_day (Calendar.mkDate y (m + 1) 1)
  = if m =? 0 then Calendar.mkDate (y - 1) 12 31
    else Calendar.mkDate y m (Calendar.days_in_month y m).
Proof.
  intros Hm. unfold Calendar.prev_day. simpl.
  destruct (Z.eqb_spec m 0) as [->|Hne]; [reflexivity|].
  replace (1 <? m + 1) with true by (symmetry; apply Z.ltb_lt; lia).
  now replace (m + 1 - 1) with m by lia.
Qed.

(** X6: The month of the dashboard starts on the first day of the month of
    [now] when the offset in force at the local midnight of that day is on
    UTC or west of it, and on the last day of the month before when that
    offset is east of UTC, whatever the offset in force at [now] itself:
    the totals are what JavaScript's [+] gives over the user's rows of the
    kind from that day on. *)
Theorem dashboard_month_start_by_zone col txs accounts assets zone uid now :
  -1440 < zone (startOfMonth now) ->
  0 <= getMonth now <= 11 ->
  let y := getFullYear now in
  let m := getMonth now in
  let lo :=
    if 0 <? zone (startOfMonth now)
    then (if m =? 0 then Calendar.mkDate (y - 1) 12 31
          else Calendar.mkDate y m (Calendar.days_in_month y m))
    else Calendar.mkDate y (m + 1) 1 in
  let d := dashboardAt (store := tableBackend col txs accounts assets)
                       zone uid now in
  isoDate (summaryBound zone now) = lo
  /\ Dashboard.totalIncome d
     = orZero (jsSum (map amount (filter (since uid "income" lo) txs)))
  /\ Dashboard.totalExpense d
     = orZero (jsSum (map amount (filter (since uid "expense" lo) txs))).
Proof.
  intros Htz Hm y m lo d.
  assert (Hlo : isoDate (summaryBound zone now) = lo).
  { change (isoDate (summaryBound zone now))
      with (isoDate (toISOString zone (startOfMonth now))).
    rewrite (month_start_utc_date zone now Htz). unfold lo, firstOfThisMonth.
    destruct (0 <? zone (startOfMonth now)); [|reflexivity].
    apply prev_day_first. exact Hm. }
  split; [exact Hlo|].
  destruct (dashboard_totals col txs accounts assets zone uid now) as [Hi He].
  cbv zeta in Hi, He. rewrite Hlo in Hi, He. split; assumption.
Qed.

(** In London on 30 October the runtime is on UTC, and the month of the
    dashboard starts on 30 September; on 31 March it is an hour east of
    UTC, and the month starts on 1 March. *)
Lemma dashboard_month_start_by_zone_witness :
  -1440 < london (startOfMonth end_of_october)
  /\ 0 <= getMonth end_of_october <= 11
  /\ london end_of_october = 0
  /\ isoDate (summaryBound london end_of_october) = Calendar.mkDate 2024 9 30
  /\ london end_of_march = 60
  /\ isoDate (summaryBound london end_of_march) = Calendar.mkDate 2024 3 1.
Proof.
  assert (Htz : -1440 < london (startOfMonth end_of_october))
    by (vm_compute; reflexivity).
  assert (Hm : 0 <= getMonth end_of_october <= 11) by (simpl; lia).
  split; [exact Htz|]. split; [exact Hm|]. split; [reflexivity|].
  split; [|split; reflexivity].
  exact (proj1 (dashboard_month_start_by_zone DateColumn scenario [] []
                  london "u1" end_of_october Htz Hm)).
Defined.

(** X7: After a load over a date column, the breakdown is the breakdown of the
    user's expenses dated on or after the start of the month seen from UTC:
    the first day of the month of the clock, or the day before it when the
    offset in force at the local midnight of that first day is east of UTC.
    Nothing bounds the expenses from above. *)
Theorem breakdown_covers_expenses_since txs accounts assets zone uid clk st :
  -1440 < zone (startOfMonth (clk 12%nat)) ->
  let lo := if 0 <? zone (startOfMonth (clk 12%nat))
            then Calendar.prev_day (firstOfThisMonth (clk 12%nat))
            else firstOfThisMonth (clk 12%nat) in
  Reports.categoryData
    (state (snd (run (Reports.fetchReportData
                        (store := tableBackend DateColumn txs accounts assets)
                        zone uid) clk st)))
  = Reports.categoryBreakdown (filter (expenseSince uid lo) txs).
Proof.
  intros Htz lo. rewrite fetchReportData_run. unfold pieResponse. on_snapshot.
  cbn [Reports.categoryData]. f_equal. unfold select.
  apply filter_ext. intros t. cbn [forallb matches bound_leb].
  rewrite (month_start_utc_date zone _ Htz). fold lo.
  unfold expenseSince, owned.
  change (match type t with
          | Some k => (k =? "expense")%string
          | None => false
          end) with (type_is "expense" t).
  now rewrite andb_true_r, andb_assoc.
Qed.

Lemma breakdown_covers_expenses_since_witness :
  -1440 < london (startOfMonth (at_ end_of_october 12%nat))
  /\ Reports.categoryData
       (state (snd (run (Reports.fetchReportData
                           (store := tableBackend DateColumn
                                       [ tx "expense" 70 2024 9 30;
                                         tx "expense" 50 2024 9 29;
                                         tx "expense" 400 2024 11 2 ] [] [])
                           london "u1") (at_ end_of_october) Reports.initial)))
     = [Reports.mkExpense "Lain-lain" (JsNum.of_Z 470) "#8884d8"].
Proof.
  assert (Htz : -1440 < london (startOfMonth (at_ end_of_october 12%nat)))
    by (vm_compute; reflexivity).
  split; [exact Htz|].
  rewrite (breakdown_covers_expenses_since
             [ tx "expense" 70 2024 9 30; tx "expense" 50 2024 9 29;
               tx "expense" 400 2024 11 2 ] [] [] london "u1"
             (at_ end_of_october) Reports.initial Htz).
  vm_compute. reflexivity.
Defined.

End Zones.

(* ------------------------------------------------------------------ *)
(** ** The windows of the six bars, zone by zone *)

Section Windows.
Import Supabase JsDate DateFns Eff Spec Terms Sample.




Lemma eastOfUtc_london : eastOfUtc london.
Proof.
  intros d. unfold london. cbv zeta.
  destruct (_ && _); lia.
Qed.


(** A well-formed date is after the last day of the month before month
    [y, m + 1] exactly when it is on or after the first day of that month. *)
Lemma after_prev_day_first y m (d : Calendar.date) :
  0 <= m <= 11 -> Calendar.valid d ->
  Calendar.ltb (Calendar.prev_day (Calendar.mkDate y (m + 1) 1)) d
  = Calendar.leb (Calendar.mkDate y (m + 1) 1) d.
Proof.
  intros Hm [Hmonth Hday]. rewrite (prev_day_first y m Hm).
  destruct (Z.eqb_spec m 0) as [Em|Nm];
    unfold Calendar.ltb, Calendar.leb, Calendar.eqb;
    cbn [Calendar.year Calendar.month Calendar.day];
    apply Bool.eq_iff_eq_true;
    rewrite !andb_true_iff, !orb_true_iff, !andb_true_iff, !orb_true_iff,
            !andb_true_iff, negb_true_iff, !andb_false_iff,
            !Z.ltb_lt, !Z.eqb_eq, !Z.leb_le, !Z.eqb_neq.
  - destruct (Z.eq_dec (Calendar.year d) (y - 1)) as [Ey|Ny];
      [destruct (Z.eq_dec (Calendar.month d) 12) as [E12|N12]|].
    + rewrite Ey, E12 in Hday. change (Calendar.days_in_month (y - 1) 12)
        with 31 in Hday. lia.
    + lia.
    + lia.
  - destruct (Z.eq_dec (Calendar.year d) y) as [Ey|Ny];
      [destruct (Z.eq_dec (Calendar.month d) m) as [Em'|Nm']|].
    + rewrite Ey, Em' in Hday. lia.
    + lia.
    + lia.
Qed.

(** Over a timestamp column, in a zone on UTC or east of it, the query of
    calendar month [k] keeps the rows of that month. *)
Lemma sumOf_monthBatch_timestamp_east txs accounts assets zone uid kind k :
  eastOfUtc zone ->
  Forall (fun t => Calendar.valid (transaction_date t)) txs ->
  Reports.sumOf kind
    (monthBatch (store := tableBackend TimestampColumn txs accounts assets)
                zone uid k)
  = monthSum uid kind k txs.
Proof.
  intros Htz Hv. unfold monthBatch, Reports.monthQuery, Reports.sumOf.
  on_snapshot. rewrite reduce_sum_jsSum. unfold select, monthSum, orZero.
  rewrite filter_and. f_equal. f_equal. f_equal. f_equal.
  apply filter_ext_in. intros t Hin.
  rewrite Forall_forall in Hv. specialize (Hv t Hin).
  cbn [forallb matches]. rewrite andb_true_r.
  assert (Hk : 0 <= k mod 12 <= 11) by (pose proof (Z.mod_pos_bound k 12); lia).
  pose proof (Htz (startOfMonth (firstOfMonth k))) as Hopen.
  pose proof (Htz (endOfMonth (firstOfMonth k))) as Hclose.
  destruct (month_end_utc_date zone (firstOfMonth k) (proj2 Hclose))
    as [Hend Htime].
  rewrite (leb_bound_day TimestampColumn _ _ Htime), Hend.
  replace (zone (endOfMonth (firstOfMonth k)) <? 0) with false
    by (symmetry; apply Z.ltb_ge; lia).
  assert (Hstart :
    bound_leb TimestampColumn
              (toISOString zone (startOfMonth (firstOfMonth k)))
              (transaction_date t)
    = Calendar.leb (firstDay k) (transaction_date t)).
  { cbn [bound_leb].
    rewrite (month_start_utc_date zone (firstOfMonth k)) by lia.
    rewrite (month_start_utc_time zone (firstOfMonth k) Hopen).
    change (firstOfThisMonth (firstOfMonth k)) with (firstDay k).
    destruct (Z.eqb_spec (zone (startOfMonth (firstOfMonth k))) 0) as [E|Hne].
    - rewrite E. cbn [Z.ltb Z.compare Z.leb]. rewrite andb_true_r.
      apply calendar_ltb_or_eqb.
    - replace (0 <? zone (startOfMonth (firstOfMonth k))) with true
        by (symmetry; apply Z.ltb_lt; lia).
      replace (86400000 - zone (startOfMonth (firstOfMonth k)) * 60000 <=? 0)
        with false by (symmetry; apply Z.leb_gt; lia).
      rewrite andb_false_r, orb_false_r.
      exact (after_prev_day_first (k / 12) (k mod 12) _ Hk Hv). }
  rewrite Hstart.
  pose proof (month_window (k / 12) (k mod 12) (transaction_date t) Hk Hv) as W.
  replace (k / 12 * 12 + k mod 12) with k in W
    by (pose proof (Z.div_mod k 12); lia).
  unfold owned, in_month.
  change (Calendar.mkDate (getFullYear (firstOfMonth k))
            (getMonth (firstOfMonth k) + 1)
            (Calendar.days_in_month (getFullYear (firstOfMonth k))
               (getMonth (firstOfMonth k) + 1)))
    with (Calendar.mkDate (k / 12) (k mod 12 + 1)
            (Calendar.days_in_month (k / 12) (k mod 12 + 1))).
  unfold firstDay. rewrite W.
  destruct (user_id t =? uid)%string, (type_is kind t),
    (Calendar.month_index (transaction_date t) =? k); reflexivity.
Qed.

(** X9: Over a timestamp column, in a zone that is on UTC or east of it all
    year, over well-formed dates and in a load whose readings of the clock
    all fall in the month of [now], each bar is the total of its calendar
    month as JavaScript adds it up; and when the user's amounts are safe
    integers whose magnitudes add up to less than 2^53, the six bars add up
    to the total of the covered months, every transaction counted once. *)
Theorem series_exact_on_timestamps_east txs accounts assets zone uid clk now st :
  eastOfUtc zone ->
  0 <= getMonth now <= 11 ->
  within_month clk now ->
  Forall (fun t => Calendar.valid (transaction_date t)) txs ->
  let bars :=
    Reports.monthlyData
      (state (snd (run (Reports.fetchReportData
                          (store := tableBackend TimestampColumn txs accounts
                                      assets)
                          zone uid) clk st))) in
  map Reports.income bars
  = map (fun k => monthSum uid "income" k txs) (coveredMonths now)
  /\ map Reports.expense bars
     = map (fun k => monthSum uid "expense" k txs) (coveredMonths now)
  /\ (exactFor uid txs ->
      sumZ (map (asZ Reports.income) bars)
      = coveredTotal uid "income" (coveredMonths now) txs
      /\ sumZ (map (asZ Reports.expense) bars)
         = coveredTotal uid "expense" (coveredMonths now) txs).
Proof.
  intros Htz Hm Hw Hv bars.
  assert (Hi : map Reports.income bars
               = map (fun k => monthSum uid "income" k txs) (coveredMonths now)).
  { unfold bars. rewrite (bars_within_month _ _ _ _ _ Hm Hw), map_map.
    unfold barOf. cbn [Reports.income]. apply map_ext. intros k.
    now apply sumOf_monthBatch_timestamp_east. }
  assert (He : map Reports.expense bars
               = map (fun k => monthSum uid "expense" k txs) (coveredMonths now)).
  { unfold bars. rewrite (bars_within_month _ _ _ _ _ Hm Hw), map_map.
    unfold barOf. cbn [Reports.expense]. apply map_ext. intros k.
    now apply sumOf_monthBatch_timestamp_east. }
  split; [exact Hi|]. split; [exact He|].
  intros Hex.
  change (map (asZ Reports.income) bars)
    with (map (fun b => JsNum.toZ (Reports.income b)) bars).
  change (map (asZ Reports.expense) bars)
    with (map (fun b => JsNum.toZ (Reports.expense b)) bars).
  rewrite <- (map_map Reports.income JsNum.toZ),
          <- (map_map Reports.expense JsNum.toZ), Hi, He.
  split; now apply monthSums_add_up.
Qed.

Lemma valid_aprilEnd :
  Forall (fun t => Calendar.valid (transaction_date t)) aprilEnd.
Proof.
  constructor; [|constructor].
  vm_compute. repeat split; discriminate.
Qed.

Lemma exact_aprilEnd : exactFor "u1" aprilEnd.
Proof.
  split; [|vm_compute; reflexivity].
  repeat (apply Forall_cons; [vm_compute; reflexivity|]). apply Forall_nil.
Qed.

Lemma series_exact_on_timestamps_east_witness :
  eastOfUtc london
  /\ 0 <= getMonth mid_may <= 11
  /\ within_month (at_ mid_may) mid_may
  /\ Forall (fun t => Calendar.valid (transaction_date t)) aprilEnd
  /\ exactFor "u1" aprilEnd
  /\ sumZ (map (asZ Reports.income)
             (Reports.monthlyData
                (state (snd (run (Reports.fetchReportData
                                    (store := tableBackend TimestampColumn
                                                aprilEnd [] [])
                                    london "u1")
                                 (at_ mid_may) Reports.initial)))))
     = coveredTotal "u1" "income" (coveredMonths mid_may) aprilEnd.
Proof.
  assert (Hm : 0 <= getMonth mid_may <= 11) by (simpl; lia).
  split; [exact eastOfUtc_london|]. split; [exact Hm|].
  split; [exact (within_month_at mid_may)|].
  split; [exact valid_aprilEnd|]. split; [exact exact_aprilEnd|].
  exact (proj1 (proj2 (proj2
           (series_exact_on_timestamps_east aprilEnd [] [] london "u1"
              (at_ mid_may) mid_may Reports.initial eastOfUtc_london Hm
              (within_month_at mid_may) valid_aprilEnd)) exact_aprilEnd)).
Defined.

Lemma series_sum_utc_witness :
  0 <= getMonth mid_may <= 11
  /\ within_month (at_ mid_may) mid_may
  /\ Forall (fun t => Calendar.valid (transaction_date t)) aprilEnd
  /\ exactFor "u1" aprilEnd
  /\ sumZ (map (asZ Reports.income)
             (Reports.monthlyData
                (state (snd (run (Reports.fetchReportData
                                    (store := tableBackend DateColumn
                                                aprilEnd [] [])
                                    utc "u1")
                                 (at_ mid_may) Reports.initial)))))
     = coveredTotal "u1" "income" (coveredMonths mid_may) aprilEnd.
Proof.
  assert (Hm : 0 <= getMonth mid_may <= 11) by (simpl; lia).
  split; [exact Hm|]. split; [exact (within_month_at mid_may)|].
  split; [exact valid_aprilEnd|]. split; [exact exact_aprilEnd|].
  exact (proj1 (proj2 (proj2
           (series_sum_utc DateColumn aprilEnd [] [] "u1" (at_ mid_may)
              mid_may Reports.initial Hm (within_month_at mid_may)
              valid_aprilEnd)) exact_aprilEnd)).
Defined.

End Windows.

(* ------------------------------------------------------------------ *)
(** ** Page Profile *)

Section ProfileFacts.
Import Eff Ui ProfilePage.
Variable auth : UserAttributes -> option string.

Lemma text_eqb_true a b : text_eqb a b = true <-> a = b.
Proof.
  unfold text_eqb. destruct (list_eq_dec N.eq_dec a b); split; congruence.
Qed.

Lemma text_eqb_false a b : text_eqb a b = false <-> a <> b.
Proof.
  unfold text_eqb. destruct (list_eq_dec N.eq_dec a b); split; congruence.
Qed.

(** X12: A password is sent to the authentication service only if it is equal to
    its confirmation and at least 8 code units long; a submit sends at most
    one request, and it carries the password of the form. *)
Theorem password_sent_only_if_confirmed_and_long (clk : Clock) (w : World State) :
  let st := state w in
  let st' := state (snd (handlePasswordUpdate auth clk w)) in
  exists sent,
    requests st' = requests st ++ sent
    /\ (List.length sent <= 1)%nat
    /\ (forall a, In a sent ->
          a = with_password (password st)
          /\ password st = confirmPassword st
          /\ (8 <= List.length (password st))%nat).
Proof.
  destruct w as [r c st]. cbn [state].
  unfold handlePasswordUpdate, bind, getState. cbn [state].
  destruct (text_eqb (password st) (confirmPassword st)) eqn:Heq; cbn [negb].
  - destruct (Nat.ltb_spec (List.length (password st)) 8) as [Hlt|Hge].
    + exists []. cbn. rewrite app_nil_r. split; [reflexivity|].
      split; [lia | intros a []].
    + exists [with_password (password st)].
      split; [|split; [simpl; lia|]].
      * cbn. destruct (auth (with_password (password st))); reflexivity.
      * intros a [<-|[]]. apply text_eqb_true in Heq. auto.
  - exists []. cbn. rewrite app_nil_r. split; [reflexivity|].
    split; [lia | intros a []].
Qed.

(** X13: A submit whose two passwords differ, or whose password is shorter than
    8 code units, changes nothing but the toasts: it shows one error, the
    mismatch first, and leaves the fields and [loadingPassword] alone. *)
Theorem password_rejected_in_the_form (clk : Clock) (w : World State) :
  let st := state w in
  password st <> confirmPassword st \/ (List.length (password st) < 8)%nat ->
  exists msg,
    handlePasswordUpdate auth clk w
    = (Return tt,
       mkWorld _ (reads w) (console w)
         (mkState (loading st) (loadingPassword st) (fullName st) (email st)
                  (password st) (confirmPassword st)
                  (toasts st ++ [toast_error msg]) (requests st)))
    /\ (password st <> confirmPassword st -> msg = "Kata sandi tidak cocok!")
    /\ (password st = confirmPassword st ->
        msg = "Kata sandi minimal harus 8 karakter.").
Proof.
  destruct w as [r c st]. cbn [state reads console]. intros H.
  unfold handlePasswordUpdate, bind, getState. cbn [state].
  destruct (text_eqb (password st) (confirmPassword st)) eqn:Heq; cbn [negb].
  - apply text_eqb_true in Heq.
    destruct H as [H|H]; [contradiction|].
    replace (List.length (password st) <? 8)%nat with true
      by (symmetry; now apply Nat.ltb_lt).
    exists "Kata sandi minimal harus 8 karakter.".
    split; [reflexivity|]. split; [contradiction | reflexivity].
  - apply text_eqb_false in Heq.
    exists "Kata sandi tidak cocok!".
    split; [reflexivity|]. split; [reflexivity | contradiction].
Qed.

(** X14: A submit with a confirmed password of 8 code units or more sends it
    once and ends with [loadingPassword] false, without throwing. When the
    service accepts, both fields are emptied and a success is shown; when
    it refuses, the fields keep what was typed and the error shown is the
    message of the service, or a fixed one when that message is empty. *)
Theorem password_submitted (clk : Clock) (w : World State) :
  let st := state w in
  password st = confirmPassword st ->
  (8 <= List.length (password st))%nat ->
  handlePasswordUpdate auth clk w
  = (Return tt,
     mkWorld _ (reads w) (console w)
       match auth (with_password (password st)) with
       | None =>
           mkState (loading st) false (fullName st) (email st) [] []
             (toasts st ++ [toast_success "Kata sandi berhasil diubah!"])
             (requests st ++ [with_password (password st)])
       | Some m =>
           mkState (loading st) false (fullName st) (email st)
             (password st) (confirmPassword st)
             (toasts st
              ++ [toast_error (Js.or_string (Some m) "Gagal mengubah kata sandi.")])
             (requests st ++ [with_password (password st)])
       end).
Proof.
  destruct w as [r c st]. cbn [state reads console]. intros Heq Hlen.
  unfold handlePasswordUpdate, bind, getState. cbn [state].
  replace (text_eqb (password st) (confirmPassword st)) with true
    by (symmetry; now apply text_eqb_true).
  replace (List.length (password st) <? 8)%nat with false
    by (symmetry; now apply Nat.ltb_ge).
  cbn [negb]. cbn.
  destruct (auth (with_password (password st))); reflexivity.
Qed.

(** X15: A submit of the profile form sends the name of the form once, shows
    exactly one toast (a success, or the error of the service, or a fixed
    message when the error has none), never throws and ends with [loading]
    false. *)
Theorem profile_update_one_request_one_toast (clk : Clock) (w : World State) :
  let st := state w in
  handleProfileUpdate auth clk w
  = (Return tt,
     mkWorld _ (reads w) (console w)
       (mkState false (loadingPassword st) (fullName st) (email st)
          (password st) (confirmPassword st)
          (toasts st
           ++ [match auth (with_full_name (fullName st)) with
               | None => toast_success "Profil berhasil diperbarui!"
               | Some m =>
                   toast_error (Js.or_string (Some m) "Gagal memperbarui profil.")
               end])
          (requests st ++ [with_full_name (fullName st)]))).
Proof.
  destruct w as [r c st]. cbn [state reads console].
  unfold handleProfileUpdate, bind, getState. cbn.
  destruct (auth (with_full_name (fullName st))); reflexivity.
Qed.

End ProfileFacts.

Section ProfileCases.
Import Eff Ui ProfilePage PageCases.

Lemma password_rejected_in_the_form_witness :
  (password (state (typed abc abc)) <> confirmPassword (state (typed abc abc))
   \/ (List.length (password (state (typed abc abc))) < 8)%nat)
  /\ exists msg,
       handlePasswordUpdate accepting (at_ Sample.mid_may) (typed abc abc)
       = (Return tt,
          mkWorld _ 0 []
            (mkState false false [] [] abc abc [toast_error msg] [])).
Proof.
  assert (H : password (state (typed abc abc))
              <> confirmPassword (state (typed abc abc))
              \/ (List.length (password (state (typed abc abc))) < 8)%nat).
  { right. simpl. lia. }
  split; [exact H|].
  destruct (password_rejected_in_the_form accepting (at_ Sample.mid_may)
              (typed abc abc) H) as (msg & Hrun & _).
  exists msg. exact Hrun.
Defined.

Lemma password_submitted_witness :
  password (state (typed correct correct))
  = confirmPassword (state (typed correct correct))
  /\ (8 <= List.length (password (state (typed correct correct))))%nat
  /\ handlePasswordUpdate accepting (at_ Sample.mid_may) (typed correct correct)
     = (Return tt,
        mkWorld _ 0 []
          (mkState false false [] [] [] []
             [toast_success "Kata sandi berhasil diubah!"]
             [with_password correct])).
Proof.
  assert (He : password (state (typed correct correct))
               = confirmPassword (state (typed correct correct)))
    by reflexivity.
  assert (Hl : (8 <= List.length (password (state (typed correct correct))))%nat)
    by (simpl; lia).
  split; [exact He|]. split; [exact Hl|].
  exact (password_submitted accepting (at_ Sample.mid_may)
           (typed correct correct) He Hl).
Defined.

End ProfileCases.

(* ------------------------------------------------------------------ *)
(** ** Page Categories *)

Section CategoryFacts.
Import Eff Ui CategoriesPage CategoryTerms.
Variable rejects : Request -> option string.
Variable new_id : list Category -> string.
Variable order_by_name : list Category -> list Category.
Variable uid : string.

(** A load of the list never throws; a refusal is logged and shown, and
    leaves the list as it was. *)
Lemma fetchCategories_run (clk : Clock) (w : World State) :
  fetchCategories rejects order_by_name uid clk w
  = (Return tt,
     mkWorld _ (reads w)
       (console w ++ match rejects (select_all uid) with
                     | Some m => [PostgrestError m]
                     | None => []
                     end)
       (mkState (table (state w))
          (refreshed rejects order_by_name uid (table (state w)) (page (state w)))
          (toasts (state w)
           ++ match rejects (select_all uid) with
              | Some _ => [toast_error "Failed to load categories"]
              | None => []
              end))).
Proof.
  destruct w as [r c [t p ts]].
  unfold fetchCategories, try_catch_finally, bind, store_select, getState,
    refreshed.
  cbn. destruct (rejects (select_all uid)); cbn; [reflexivity|].
  now rewrite !app_nil_r.
Qed.

Lemma handleSubmit_run (clk : Clock) (w : World State) :
  let st := state w in
  let p := page st in
  handleSubmit rejects new_id order_by_name uid clk w
  = match rejects (submitRequest uid p) with
    | Some m =>
        (Return tt,
         mkWorld _ (reads w) (console w)
           (mkState (table st) p
              (toasts st ++ [shown m "Failed to save category"])))
    | None =>
        fetchCategories rejects order_by_name uid clk
          (mkWorld _ (reads w) (console w)
             (mkState (applied new_id (submitRequest uid p) (table st))
                (mkPage (categories p) (loading p) false None CategoryForm.blank)
                (toasts st
                 ++ [toast_success
                       match editingCategory p with
                       | Some _ => "Category updated successfully"
                       | None => "Category created successfully"
                       end])))
    end.
Proof.
  destruct w as [r c [t [cs l d e f]]]. cbv zeta. cbn [state page reads console].
  rewrite fetchCategories_run.
  unfold handleSubmit, submitRequest, bind, getState.
  cbn [state page editingCategory formData].
  destruct e as [cat|].
  - unfold store_update, try_catch_finally, bind.
    destruct (rejects (update _ _ _ _)) as [m|] eqn:Hr.
    + reflexivity.
    + cbn. rewrite fetchCategories_run. reflexivity.
  - unfold store_insert, try_catch_finally, bind.
    destruct (rejects (insert _ _ _ _ _)) as [m|] eqn:Hr.
    + reflexivity.
    + cbn. rewrite fetchCategories_run. reflexivity.
Qed.

Lemma handleDelete_run (clk : Clock) (w : World State) (i : string) :
  let st := state w in
  handleDelete rejects order_by_name uid true i clk w
  = match rejects (delete i) with
    | Some m =>
        (Return tt,
         mkWorld _ (reads w) (console w)
           (mkState (table st) (page st)
              (toasts st ++ [shown m "Failed to delete category"])))
    | None =>
        fetchCategories rejects order_by_name uid clk
          (mkWorld _ (reads w) (console w)
             (mkState (applied new_id (delete i) (table st)) (page st)
                (toasts st ++ [toast_success "Category deleted successfully"])))
    end.
Proof.
  destruct w as [r c [t p ts]]. cbv zeta. cbn [state page reads console].
  rewrite fetchCategories_run.
  unfold handleDelete, store_delete, try_catch_finally, bind. cbn [negb].
  destruct (rejects (delete i)) as [m|] eqn:Hr.
  - reflexivity.
  - cbn. rewrite fetchCategories_run. reflexivity.
Qed.

Lemma fixed_patched i n ic co c : fixed (patched i n ic co c) = fixed c.
Proof. unfold patched. now destruct (String.eqb (id c) i). Qed.

(** X16: Whatever the store answers, a submit in edit mode leaves the id, the
    owner and the kind of every row as they were, and the number of rows
    too; a submit in create mode leaves every existing row untouched and
    adds at most one. *)
Theorem submit_never_changes_a_kind (clk : Clock) (w : World State) :
  let t := table (state w) in
  let t' := table (state (snd (handleSubmit rejects new_id order_by_name uid
                                 clk w))) in
  match editingCategory (page (state w)) with
  | Some _ => map fixed t' = map fixed t
  | None => exists added, t' = t ++ added /\ (List.length added <= 1)%nat
  end.
Proof.
  cbv zeta. rewrite handleSubmit_run. cbv zeta. unfold submitRequest.
  destruct (editingCategory (page (state w))) as [c|].
  - destruct (rejects _); [reflexivity|].
    rewrite fetchCategories_run. cbn [snd state table applied].
    rewrite map_map. apply map_ext. intros r. apply fixed_patched.
  - destruct (rejects _).
    + exists []. cbn. rewrite app_nil_r. split; [reflexivity | lia].
    + rewrite fetchCategories_run. cbn [snd state table applied].
      eexists. split; [reflexivity | simpl; lia].
Qed.

(** X17: Opening a category in the dialog and saving it as it is does not leave
    it as it is: the store then holds the icon and the colour of the form,
    which the dialog fills with '📊' and '#6366F1' when the category has
    none. Rows of another id are not touched. *)
Theorem edit_and_save_writes_defaults (clk : Clock) (w : World State)
        (c : Category) :
  rejects (update (id c) (name c) (Js.or_string (icon c) "📊")
                  (Js.or_string (color c) "#6366F1")) = None ->
  let w1 := snd (openEditDialog c clk w) in
  let t' := table (state (snd (handleSubmit rejects new_id order_by_name uid
                                 clk w1))) in
  t' = map (patched (id c) (name c) (Js.or_string (icon c) "📊")
                    (Js.or_string (color c) "#6366F1"))
           (table (state w))
  /\ (forall r, In r (table (state w)) -> id r <> id c -> In r t')
  /\ (forall r', In r' t' -> id r' = id c ->
        icon r' = Some (Js.or_string (icon c) "📊")
        /\ color r' = Some (Js.or_string (color c) "#6366F1")).
Proof.
  intros Hacc w1 t'.
  assert (Ht : t' = map (patched (id c) (name c) (Js.or_string (icon c) "📊")
                                 (Js.or_string (color c) "#6366F1"))
                        (table (state w))).
  { unfold t', w1. rewrite handleSubmit_run. cbv zeta.
    destruct w as [r k [t p ts]].
    unfold openEditDialog, bind. cbn. unfold submitRequest. cbn.
    rewrite Hacc. rewrite fetchCategories_run. reflexivity. }
  split; [exact Ht|]. rewrite Ht. split.
  - intros r Hin Hne. apply in_map_iff. exists r. split; [|assumption].
    unfold patched. destruct (String.eqb_spec (id r) (id c)); congruence.
  - intros r' Hin Hid. apply in_map_iff in Hin. destruct Hin as (r & <- & _).
    unfold patched in *.
    destruct (String.eqb_spec (id r) (id c)); [split; reflexivity|].
    contradiction.
Qed.

(** X18: A submit the store refuses changes nothing but the toasts: the table,
    the list, the dialog (still open) and the form are as before, and the
    error shown is the message of the store, or a fixed one when that
    message is empty. Nothing is thrown or logged. *)
Theorem refused_submit_changes_nothing (clk : Clock) (w : World State)
        (m : string) :
  rejects (submitRequest uid (page (state w))) = Some m ->
  handleSubmit rejects new_id order_by_name uid clk w
  = (Return tt,
     mkWorld _ (reads w) (console w)
       (mkState (table (state w)) (page (state w))
          (toasts (state w) ++ [shown m "Failed to save category"]))).
Proof.
  intros H. rewrite handleSubmit_run. cbv zeta. now rewrite H.
Qed.

(** X19: After a submit the store accepts, the dialog is closed, no category is
    being edited, the form is blank again, and the list is loaded anew from
    the table that holds the change. *)
Theorem accepted_submit_resets_the_dialog (clk : Clock) (w : World State) :
  rejects (submitRequest uid (page (state w))) = None ->
  let st' := state (snd (handleSubmit rejects new_id order_by_name uid clk w)) in
  table st' = applied new_id (submitRequest uid (page (state w)))
                      (table (state w))
  /\ dialogOpen (page st') = false
  /\ editingCategory (page st') = None
  /\ formData (page st') = CategoryForm.blank
  /\ loading (page st') = false
  /\ (rejects (select_all uid) = None ->
      categories (page st')
      = order_by_name
          (filter (fun c => String.eqb (user_id c) uid) (table st'))).
Proof.
  intros H st'. unfold st'. rewrite handleSubmit_run. cbv zeta. rewrite H.
  rewrite fetchCategories_run. cbn [snd state table page]. unfold refreshed.
  destruct (rejects (select_all uid)); cbn; repeat split; try reflexivity.
  intros Hn. discriminate Hn.
Qed.

(** X20: A delete that is not confirmed does nothing at all. A confirmed delete
    never removes or changes a row of another id; when the store accepts
    it, no row of that id is left; when the store refuses it, the table and
    the page are as before and the refusal is shown. *)
Theorem delete_touches_one_id (clk : Clock) (w : World State) (i : string) :
  handleDelete rejects order_by_name uid false i clk w = (Return tt, w)
  /\ (let t' := table (state (snd (handleDelete rejects order_by_name uid
                                     true i clk w))) in
      (forall c, In c (table (state w)) -> id c <> i -> In c t')
      /\ (forall c, In c t' -> In c (table (state w)))
      /\ (rejects (delete i) = None -> forall c, In c t' -> id c <> i))
  /\ (forall m, rejects (delete i) = Some m ->
        handleDelete rejects order_by_name uid true i clk w
        = (Return tt,
           mkWorld _ (reads w) (console w)
             (mkState (table (state w)) (page (state w))
                (toasts (state w) ++ [shown m "Failed to delete category"])))).
Proof.
  split; [reflexivity|]. split.
  - cbv zeta. rewrite handleDelete_run. cbv zeta.
    destruct (rejects (delete i)) as [m|].
    + cbn [snd state table]. repeat split; auto. intros H. discriminate H.
    + rewrite fetchCategories_run. cbn [snd state table applied].
      split; [|split].
      * intros c Hin Hne. apply filter_In. split; [assumption|].
        destruct (String.eqb_spec (id c) i); [contradiction | reflexivity].
      * intros c Hin. apply filter_In in Hin. tauto.
      * intros _ c Hin. apply filter_In in Hin. destruct Hin as [_ Hn].
        destruct (String.eqb_spec (id c) i); [discriminate | assumption].
  - intros m Hm. rewrite handleDelete_run. cbv zeta. now rewrite Hm.
Qed.

(** X21: When the store refuses the load of the list, the list shown stays as
    it was; the error is logged, a fixed message is shown, and [loading]
    ends false. *)
Theorem refused_load_keeps_the_list (clk : Clock) (w : World State)
        (m : string) :
  rejects (select_all uid) = Some m ->
  fetchCategories rejects order_by_name uid clk w
  = (Return tt,
     mkWorld _ (reads w) (console w ++ [PostgrestError m])
       (mkState (table (state w))
          (mkPage (categories (page (state w))) false
                  (dialogOpen (page (state w)))
                  (editingCategory (page (state w)))
                  (formData (page (state w))))
          (toasts (state w) ++ [toast_error "Failed to load categories"]))).
Proof.
  intros H. rewrite fetchCategories_run. unfold refreshed. now rewrite H.
Qed.

End CategoryFacts.

Section CategoryCases.
Import Eff Ui CategoriesPage CategoryTerms PageCases.

Lemma edit_and_save_writes_defaults_witness :
  accepting (update (id bare) (name bare) (Js.or_string (icon bare) "📊")
                    (Js.or_string (color bare) "#6366F1")) = None
  /\ table (state (snd (handleSubmit accepting fresh as_stored "u1"
                          (at_ Sample.mid_may)
                          (snd (openEditDialog bare (at_ Sample.mid_may)
                                  categoriesWorld)))))
     = [ mkCategory "c1" "u1" "Food" "expense" (Some "📊") (Some "#6366F1");
         salary ].
Proof.
  assert (H : accepting (update (id bare) (name bare)
                                (Js.or_string (icon bare) "📊")
                                (Js.or_string (color bare) "#6366F1")) = None)
    by reflexivity.
  split; [exact H|].
  exact (proj1 (edit_and_save_writes_defaults accepting fresh as_stored "u1"
                  (at_ Sample.mid_may) categoriesWorld bare H)).
Defined.

Lemma refused_submit_changes_nothing_witness :
  refusing (submitRequest "u1" (page (state categoriesWorld)))
  = Some "permission denied"
  /\ state (snd (handleSubmit refusing fresh as_stored "u1"
                   (at_ Sample.mid_may) categoriesWorld))
     = mkState (table (state categoriesWorld)) (page (state categoriesWorld))
               [toast_error "permission denied"].
Proof.
  assert (H : refusing (submitRequest "u1" (page (state categoriesWorld)))
              = Some "permission denied") by reflexivity.
  split; [exact H|].
  rewrite (refused_submit_changes_nothing refusing fresh as_stored "u1"
             (at_ Sample.mid_may) categoriesWorld "permission denied" H).
  reflexivity.
Defined.

Lemma accepted_submit_resets_the_dialog_witness :
  accepting (submitRequest "u1" (page (state categoriesWorld))) = None
  /\ formData (page (state (snd (handleSubmit accepting fresh as_stored "u1"
                                   (at_ Sample.mid_may) categoriesWorld))))
     = CategoryForm.blank.
Proof.
  assert (H : accepting (submitRequest "u1" (page (state categoriesWorld)))
              = None) by reflexivity.
  split; [exact H|].
  exact (proj1 (proj2 (proj2 (proj2
           (accepted_submit_resets_the_dialog accepting fresh as_stored "u1"
              (at_ Sample.mid_may) categoriesWorld H))))).
Defined.

Lemma refused_load_keeps_the_list_witness :
  refusing (select_all "u1") = Some "permission denied"
  /\ categories (page (state (snd (fetchCategories refusing as_stored "u1"
                                     (at_ Sample.mid_may) categoriesWorld))))
     = [bare; salary].
Proof.
  assert (H : refusing (select_all "u1") = Some "permission denied")
    by reflexivity.
  split; [exact H|].
  rewrite (refused_load_keeps_the_list refusing as_stored "u1"
             (at_ Sample.mid_may) categoriesWorld "permission denied" H).
  reflexivity.
Defined.

End CategoryCases.

(* ------------------------------------------------------------------ *)
(** ** Page Bank Accounts, and the bank total of the dashboard *)

Section AccountFacts.
Import Eff Ui BankAccountsPage AccountTerms.
Variable rejects : Request -> option string.
Variable new_id : list BankAccount -> string.
Variable order_by_bank_name : list BankAccount -> list BankAccount.
Variable uid : string.
Variable parseFloat : string -> JsNum.number.
Variable toString : JsNum.number -> string.

Lemma fetchBankAccounts_run (clk : Clock) (w : World State) :
  fetchBankAccounts rejects order_by_bank_name uid clk w
  = (Return tt,
     mkWorld _ (reads w)
       (console w ++ match rejects (select_all uid) with
                     | Some m => [PostgrestError m]
                     | None => []
                     end)
       (mkState (table (state w))
          (refreshed rejects order_by_bank_name uid (table (state w))
                     (page (state w)))
          (toasts (state w)
           ++ match rejects (select_all uid) with
              | Some _ => [toast_error "Gagal memuat data rekening bank"]
              | None => []
              end))).
Proof.
  destruct w as [r c [t p ts]].
  unfold fetchBankAccounts, try_catch_finally, bind, store_select, getState,
    refreshed.
  cbn. destruct (rejects (select_all uid)); cbn; [reflexivity|].
  now rewrite !app_nil_r.
Qed.

Lemma handleSubmit_accounts_run (clk : Clock) (w : World State) :
  let st := state w in
  let p := page st in
  handleSubmit rejects new_id order_by_bank_name uid parseFloat clk w
  = match rejects (submitRequest parseFloat uid p) with
    | Some m =>
        (Return tt,
         mkWorld _ (reads w) (console w)
           (mkState (table st) p
              (toasts st
               ++ [toast_error (Js.or_string (Some m)
                                  "Gagal menyimpan rekening bank")])))
    | None =>
        fetchBankAccounts rejects order_by_bank_name uid clk
          (mkWorld _ (reads w) (console w)
             (mkState (applied new_id (submitRequest parseFloat uid p) (table st))
                (mkPage (accounts p) (loading p) false (editingAccount p)
                        (formData p))
                (toasts st
                 ++ [toast_success
                       match editingAccount p with
                       | Some _ => "Rekening bank berhasil diperbarui"
                       | None => "Rekening bank berhasil ditambahkan"
                       end])))
    end.
Proof.
  destruct w as [r c [t [cs l d e f]]]. cbv zeta. cbn [state page reads console].
  unfold handleSubmit, submitRequest, accountData, bind, getState.
  cbn [state page editingAccount formData fst snd].
  destruct e as [a|].
  - unfold store_update, try_catch_finally, bind.
    destruct (rejects (update _ _)) as [m|] eqn:Hr; [reflexivity|].
    cbn -[fetchBankAccounts].
    rewrite !fetchBankAccounts_run. cbn. now rewrite ?app_nil_r.
  - unfold store_insert, try_catch_finally, bind.
    destruct (rejects (insert _)) as [m|] eqn:Hr; [reflexivity|].
    cbn -[fetchBankAccounts].
    rewrite !fetchBankAccounts_run. cbn. now rewrite ?app_nil_r.
Qed.

Lemma handleDelete_accounts_run (clk : Clock) (w : World State) (i : string) :
  let st := state w in
  handleDelete rejects order_by_bank_name uid true i clk w
  = match rejects (delete i) with
    | Some m =>
        (Return tt,
         mkWorld _ (reads w) (console w)
           (mkState (table st) (page st)
              (toasts st
               ++ [toast_error (Js.or_string (Some m)
                                  "Gagal menghapus rekening bank")])))
    | None =>
        fetchBankAccounts rejects order_by_bank_name uid clk
          (mkWorld _ (reads w) (console w)
             (mkState (applied new_id (delete i) (table st)) (page st)
                (toasts st ++ [toast_success "Rekening bank berhasil dihapus"])))
    end.
Proof.
  destruct w as [r c [t p ts]]. cbv zeta. cbn [state page reads console].
  unfold handleDelete, store_delete, try_catch_finally, bind. cbn [negb].
  destruct (rejects (delete i)) as [m|] eqn:Hr; [reflexivity|].
  cbn -[fetchBankAccounts].
  rewrite !fetchBankAccounts_run. cbn. now rewrite ?app_nil_r.
Qed.

(** The bank total of the dashboard over a table of accounts. *)
Lemma bankTotal_sum col txs assets zone (clk : Clock) (t : list BankAccount) :
  bankTotal col txs assets zone uid clk t
  = Spec.orZero (Spec.jsSum (map balance (mine uid t))).
Proof.
  unfold bankTotal. rewrite fetchSummaryData_run. on_snapshot.
  rewrite reduce_sum_jsSum. unfold balances, Spec.orZero, mine.
  f_equal. f_equal. f_equal.
  induction t as [|a t IH]; [reflexivity|].
  cbn [map filter Supabase.account_user_id]. rewrite owner_filter_eq.
  destruct (String.eqb (user_id a) uid);
    cbn [map Supabase.balance]; now rewrite IH.
Qed.

Lemma bankTotal_exact col txs assets zone (clk : Clock) (t : list BankAccount) :
  Spec.exact balance (mine uid t) ->
  bankTotal col txs assets zone uid clk t = JsNum.of_Z (held uid t).
Proof.
  intros Hex. rewrite bankTotal_sum. unfold Spec.orZero, held.
  rewrite <- reduce_sum_jsSum, (total_exact balance _ Hex).
  symmetry. apply of_Z_repr. now destruct (reduce_sum_exact balance _ Hex).
Qed.

Lemma exact_app_l {A} (f : A -> JsNum.number) (l l' : list A) :
  Spec.exact f (l ++ l') -> Spec.exact f l.
Proof.
  intros [Hs Hb]. apply Forall_app in Hs. destruct Hs as [Hs _].
  split; [exact Hs|].
  rewrite map_app, sumZ_app in Hb.
  pose proof (sum_abs_nonneg f l'). lia.
Qed.

(** X22: After the store accepts a new account, and as long as the balances
    of the user's accounts, the new one included, are safe integers whose
    magnitudes add up to less than 2^53, the bank total the dashboard shows
    to the same user is the former total plus the balance read from the
    form. *)
Theorem added_account_raises_bank_total col txs assets zone
        (clk clk' : Clock) (w : World State) :
  editingAccount (page (state w)) = None ->
  rejects (insert (accountData parseFloat uid (page (state w)))) = None ->
  let t' := table (state (snd (handleSubmit rejects new_id order_by_bank_name
                                 uid parseFloat clk w))) in
  Spec.exact balance (mine uid t') ->
  bankTotal col txs assets zone uid clk' (table (state w))
  = JsNum.of_Z (held uid (table (state w)))
  /\ bankTotal col txs assets zone uid clk' t'
     = JsNum.of_Z
         (held uid (table (state w))
          + JsNum.toZ (parseFloat
                         (AccountForm.balance (formData (page (state w)))))).
Proof.
  intros He Hacc t'. unfold t'. rewrite handleSubmit_accounts_run. cbv zeta.
  unfold submitRequest. rewrite He, Hacc, fetchBankAccounts_run.
  cbn [snd state table applied]. intros Hex.
  assert (Hm : mine uid (table (state w)
                         ++ [row_of (new_id (table (state w)))
                                    (accountData parseFloat uid (page (state w)))])
               = mine uid (table (state w))
                 ++ [row_of (new_id (table (state w)))
                            (accountData parseFloat uid (page (state w)))]).
  { unfold mine. rewrite filter_app.
    cbn [filter row_of user_id accountData data_user_id].
    now rewrite String.eqb_refl. }
  rewrite Hm in Hex.
  rewrite (bankTotal_exact _ _ _ _ _ _ (exact_app_l _ _ _ Hex)).
  split; [reflexivity|].
  rewrite bankTotal_exact by (rewrite Hm; exact Hex).
  unfold held. rewrite Hm, map_app, sumZ_app. simpl. f_equal.
  unfold Spec.asZ at 2. cbn [balance row_of accountData data_balance]. lia.
Qed.

Lemma sum_filter_split {A} (f : A -> Z) (q : A -> bool) l :
  Spec.sumZ (map f l)
  = Spec.sumZ (map f (filter q l))
    + Spec.sumZ (map f (filter (fun x => negb (q x)) l)).
Proof.
  induction l as [|x l IH]; simpl; [reflexivity|].
  destruct (q x); simpl; lia.
Qed.

(** X23: After a confirmed delete the store accepts, and as long as the
    balances of the user's accounts are safe integers whose magnitudes add
    up to less than 2^53, the bank total the dashboard shows is the former
    total less the balances of the user's accounts of that id. *)
Theorem deleted_account_lowers_bank_total col txs assets zone
        (clk clk' : Clock) (w : World State) (i : string) :
  rejects (delete i) = None ->
  Spec.exact balance (mine uid (table (state w))) ->
  let t' := table (state (snd (handleDelete rejects order_by_bank_name uid
                                 true i clk w))) in
  bankTotal col txs assets zone uid clk' (table (state w))
  = JsNum.of_Z (held uid (table (state w)))
  /\ bankTotal col txs assets zone uid clk' t'
     = JsNum.of_Z (held uid (table (state w))
                   - balanceOf uid i (table (state w))).
Proof.
  intros Hacc Hex t'. unfold t'. rewrite handleDelete_accounts_run. cbv zeta.
  rewrite Hacc, fetchBankAccounts_run. cbn [snd state table applied].
  split; [now apply bankTotal_exact|].
  assert (Hm : mine uid (filter (fun a => negb (String.eqb (id a) i))
                                (table (state w)))
               = filter (fun a => negb (String.eqb (id a) i))
                        (mine uid (table (state w)))).
  { unfold mine. apply filter_filter_comm. }
  rewrite bankTotal_exact by (rewrite Hm; now apply exact_filter).
  unfold held, balanceOf. rewrite Hm. f_equal.
  rewrite (sum_filter_split (Spec.asZ balance)
             (fun a => String.eqb (id a) i) (mine uid (table (state w)))).
  lia.
Qed.

Lemma same_id_same_row (t : list BankAccount) (a r : BankAccount) :
  NoDup (map id t) -> In a t -> In r t -> id r = id a -> r = a.
Proof.
  induction t as [|x t IH]; simpl; [tauto|].
  intros Hnd Ha Hr Hid. inversion Hnd as [|? ? Hx Hnd']; subst.
  destruct Ha as [->|Ha], Hr as [->|Hr].
  - reflexivity.
  - exfalso. apply Hx. rewrite <- Hid. now apply in_map.
  - exfalso. apply Hx. rewrite Hid. now apply in_map.
  - now apply IH.
Qed.

(** X24: Opening an account of the user in the dialog and saving it as it is
    leaves the table as it was, provided the ids of the table are distinct
    and the balance survives its way through the form (number to text and
    back). *)
Theorem edit_and_save_is_identity (clk : Clock) (w : World State)
        (a : BankAccount) :
  NoDup (map id (table (state w))) ->
  In a (table (state w)) ->
  user_id a = uid ->
  parseFloat (toString (balance a)) = balance a ->
  rejects (update (mkData uid (bank_name a) (account_number a)
                          (account_holder_name a) (balance a)) (id a)) = None ->
  let w1 := snd (openEditDialog toString a clk w) in
  table (state (snd (handleSubmit rejects new_id order_by_bank_name uid
                       parseFloat clk w1)))
  = table (state w).
Proof.
  intros Hnd Hin Hu Hrt Hacc w1. unfold w1.
  rewrite handleSubmit_accounts_run. cbv zeta.
  destruct w as [r k [t p ts]].
  unfold openEditDialog, bind.
  cbn -[fetchBankAccounts submitRequest applied].
  unfold submitRequest, accountData.
  cbn [editingAccount formData AccountForm.bank_name
       AccountForm.account_number AccountForm.account_holder_name
       AccountForm.balance].
  rewrite Hrt, Hacc, fetchBankAccounts_run. cbn [snd state table applied].
  cbn in Hnd, Hin.
  rewrite <- (map_id t) at 2. apply map_ext_in. intros x Hx.
  unfold rewritten. destruct (String.eqb_spec (id x) (id a)) as [E|N];
    [|reflexivity].
  rewrite (same_id_same_row t a x Hnd Hin Hx E).
  destruct a; cbn in *. now subst.
Qed.

End AccountFacts.

Section AccountCases.
Import Eff Ui BankAccountsPage AccountTerms PageCases.

Lemma exact_after_add :
  Spec.exact balance
    (mine "u1"
       (table (state (snd (handleSubmit accepting freshAccount
                             accounts_as_stored "u1" parse250
                             (at_ Sample.mid_may) (accountsWorld None)))))).
Proof.
  split; [|vm_compute; reflexivity].
  repeat (apply Forall_cons; [vm_compute; reflexivity|]). apply Forall_nil.
Qed.

Lemma added_account_raises_bank_total_witness :
  editingAccount (page (state (accountsWorld None))) = None
  /\ accepting (insert (accountData parse250 "u1"
                          (page (state (accountsWorld None))))) = None
  /\ bankTotal Supabase.DateColumn [] [] Sample.london "u1" (at_ Sample.mid_may)
       (table (state (snd (handleSubmit accepting freshAccount
                             accounts_as_stored "u1" parse250
                             (at_ Sample.mid_may) (accountsWorld None)))))
     = JsNum.of_Z (800 + 250).
Proof.
  assert (He : editingAccount (page (state (accountsWorld None))) = None)
    by reflexivity.
  assert (Ha : accepting (insert (accountData parse250 "u1"
                                    (page (state (accountsWorld None))))) = None)
    by reflexivity.
  split; [exact He|]. split; [exact Ha|].
  exact (proj2 (added_account_raises_bank_total accepting freshAccount
                  accounts_as_stored "u1" parse250 Supabase.DateColumn [] []
                  Sample.london (at_ Sample.mid_may) (at_ Sample.mid_may)
                  (accountsWorld None) He Ha exact_after_add)).
Defined.

Lemma exact_accounts :
  Spec.exact balance (mine "u1" (table (state (accountsWorld None)))).
Proof.
  split; [|vm_compute; reflexivity].
  repeat (apply Forall_cons; [vm_compute; reflexivity|]). apply Forall_nil.
Qed.

Lemma deleted_account_lowers_bank_total_witness :
  accepting (delete "a2") = None
  /\ Spec.exact balance (mine "u1" (table (state (accountsWorld None))))
  /\ bankTotal Supabase.DateColumn [] [] Sample.london "u1" (at_ Sample.mid_may)
       (table (state (snd (handleDelete accepting accounts_as_stored "u1"
                             true "a2" (at_ Sample.mid_may)
                             (accountsWorld None)))))
     = JsNum.of_Z (800 - 300).
Proof.
  assert (Ha : accepting (delete "a2") = None) by reflexivity.
  split; [exact Ha|]. split; [exact exact_accounts|].
  exact (proj2 (deleted_account_lowers_bank_total accepting freshAccount
                  accounts_as_stored "u1" Supabase.DateColumn [] []
                  Sample.london (at_ Sample.mid_may) (at_ Sample.mid_may)
                  (accountsWorld None) "a2" Ha exact_accounts)).
Defined.

Lemma distinct_ids_accountsWorld :
  NoDup (map id (table (state (accountsWorld None)))).
Proof.
  repeat constructor; simpl; intuition discriminate.
Qed.

Lemma edit_and_save_is_identity_witness :
  NoDup (map id (table (state (accountsWorld None))))
  /\ In bca (table (state (accountsWorld None)))
  /\ user_id bca = "u1"
  /\ parse500 (print500 (balance bca)) = balance bca
  /\ table (state (snd (handleSubmit accepting freshAccount accounts_as_stored
                          "u1" parse500 (at_ Sample.mid_may)
                          (snd (openEditDialog print500 bca
                                  (at_ Sample.mid_may) (accountsWorld None))))))
     = [bca; mandiri; other].
Proof.
  assert (Hin : In bca (table (state (accountsWorld None)))) by (simpl; auto).
  assert (Hu : user_id bca = "u1") by reflexivity.
  assert (Hrt : parse500 (print500 (balance bca)) = balance bca) by reflexivity.
  split; [exact distinct_ids_accountsWorld|]. split; [exact Hin|].
  split; [exact Hu|]. split; [exact Hrt|].
  exact (edit_and_save_is_identity accepting freshAccount accounts_as_stored
           "u1" parse500 print500 (at_ Sample.mid_may) (accountsWorld None) bca
           distinct_ids_accountsWorld Hin Hu Hrt eq_refl).
Defined.

End AccountCases.
